(** * Frappe Item -> Wix product synchronisation: a shallow embedding

    The development embeds the synchronisation code of the
    [wix_integration] Frappe application:

    - [src/wix_integration/utils/wix_api.py]  (module [Kokofresh] below; this
      is the module the document hooks of [hooks.py] point at),
    - [src/wix_integration/wix_integration/utils/wix_api.py]  (module
      [Nested], the older multi-site variant of the same module),
    - [validate_wix_product_data] of [src/wix_integration/utils/wix_mcp.py].

    Python values are a small inductive type, an Item document is a record
    typed after the Item doctype, and the calls into the Frappe framework are
    primitives of a state-and-exception monad whose environment decides
    which of them raise. *)

From Stdlib Require Import ZArith QArith Qpower Qabs String Ascii List.
From Stdlib Require Import DecimalString DecimalPos Lia.
From Stdlib Require DecimalFacts DecimalN.
From stdpp Require Import base gmap strings.

Import ListNotations.
Local Open Scope string_scope.
Local Open Scope Z_scope.

(** ** Python numbers and their [str] *)

(** A finite Python float, seen the way [float.__repr__] sees it: a sign and
    the decimal number [f_mant * 10 ^ f_exp10].  CPython prints a double
    through the shortest decimal that reads back as the same double, so this
    decimal is all that [str], truth value and comparison with [0] depend
    on.  A Currency or Float column holds no infinity and no NaN. *)
Record pyfloat := PyF { f_neg : bool; f_mant : N; f_exp10 : Z }.

(** The number that decimal denotes.  The double itself is the one nearest
    to it ([nearest_double] below): both have the same sign, are zero
    together and lie on the same side of every power of ten that is a
    double. *)
Definition float_value (f : pyfloat) : Q :=
  ((if f_neg f then -1 else 1) * inject_Z (Z.of_N (f_mant f)) * Qpower 10 (f_exp10 f))%Q.

Definition zeros (n : nat) : string := string_of_list_ascii (repeat "0"%char n).

(** Drops the zeros at the end of a digit string. *)
Fixpoint rstrip_zeros (s : string) : string :=
  match s with
  | EmptyString => EmptyString
  | String c r =>
      match rstrip_zeros r with
      | EmptyString => if Ascii.eqb c "0" then EmptyString else String c EmptyString
      | r' => String c r'
      end
  end.

Definition digits_of_N (n : N) : string := NilEmpty.string_of_uint (N.to_uint n).

(** [str] of a Python int. *)
Definition int_str (z : Z) : string := NilZero.string_of_int (Z.to_int z).

(** The exponent of the scientific form, as C's ["%+.02d"] prints it. *)
Definition exp_str (e : Z) : string :=
  let d := digits_of_N (Z.to_N (Z.abs e)) in
  ((if e <? 0 then "-" else "+") ++ (if (String.length d <? 2)%nat then "0" ++ d else d)).

(** CPython's [format_float_short] for format code ['r'] with the
    [ADD_DOT_0] flag, which is what [repr] and [str] of a float use:
    [ds] are the significant digits and the value is [0.ds * 10 ^ decpt]. *)
Definition format_float_short (ds : string) (decpt : Z) : string :=
  if (decpt <=? -4) || (16 <? decpt) then
    match ds with
    | EmptyString => EmptyString
    | String d EmptyString => String d EmptyString
    | String d rest => String d ("." ++ rest)
    end ++ "e" ++ exp_str (decpt - 1)
  else if decpt <=? 0 then
    "0." ++ zeros (Z.to_nat (- decpt)) ++ ds
  else if decpt <? Z.of_nat (String.length ds) then
    substring 0 (Z.to_nat decpt) ds ++ "." ++
    substring (Z.to_nat decpt) (String.length ds - Z.to_nat decpt) ds
  else
    ds ++ zeros (Z.to_nat decpt - String.length ds) ++ ".0".

(** The digits and the position of the decimal point that the shortest
    conversion hands to the formatter; zero is the digit ["0"] at position 1. *)
Definition float_digits (f : pyfloat) : string :=
  if (f_mant f =? 0)%N then "0" else rstrip_zeros (digits_of_N (f_mant f)).

Definition float_decpt (f : pyfloat) : Z :=
  if (f_mant f =? 0)%N then 1
  else Z.of_nat (String.length (digits_of_N (f_mant f))) + f_exp10 f.

(** [str] of a Python float. *)
Definition float_str (f : pyfloat) : string :=
  (if f_neg f then "-" else "") ++ format_float_short (float_digits f) (float_decpt f).

(** The numbers a Currency, Float or Int field can hold. *)
Inductive pynum :=
  | NInt (z : Z)
  | NFloat (f : pyfloat).

Definition num_value (n : pynum) : Q :=
  match n with
  | NInt z => inject_Z z
  | NFloat f => float_value f
  end.

(** Truth value of a number: zero is false. *)
Definition num_truthy (n : pynum) : bool :=
  match n with
  | NInt z => negb (z =? 0)
  | NFloat f => negb (f_mant f =? 0)%N
  end.

(** Python's [n <= 0]. *)
Definition num_le_zero (n : pynum) : bool :=
  match n with
  | NInt z => z <=? 0
  | NFloat f => (f_mant f =? 0)%N || f_neg f
  end.

Definition num_str (n : pynum) : string :=
  match n with
  | NInt z => int_str z
  | NFloat f => float_str f
  end.

(** *** The double behind a float, and [int] *)

(** [2 ^ e <= n / d], for positive [n] and [d]. *)
Definition reaches_pow2 (n d e : Z) : bool :=
  d * 2 ^ Z.max 0 e <=? n * 2 ^ Z.max 0 (- e).

(** The binary exponent of [n / d]: the [e] with
    [2 ^ e <= n / d < 2 ^ (e + 1)]. *)
Definition binary_exponent (n d : Z) : Z :=
  let e := Z.log2 n - Z.log2 d in
  if reaches_pow2 n d e then e else e - 1.

(** [n / d] rounded to the nearest integer, a tie to the even one. *)
Definition round_half_even (n d : Z) : Z :=
  let q := n / d in
  let r := n mod d in
  if 2 * r <? d then q
  else if d <? 2 * r then q + 1
  else if Z.even q then q else q + 1.

(** The double nearest to [n / d], as IEEE 754 binary64 rounds it: its
    significand, of 53 bits, and the exponent of its last bit, which is
    never below [-1074]. *)
Definition nearest_double (n d : Z) : Z * Z :=
  let u := Z.max (binary_exponent n d - 52) (-1074) in
  (round_half_even (n * 2 ^ Z.max 0 (- u)) (d * 2 ^ Z.max 0 u), u).

(** [int(x)] of a float: the double is read back from the decimal that
    [repr] prints, and [int] drops its fraction.  From [2 ^ 53] on the
    integer differs from the printed decimal: [int(2e16 + 8)] is
    [20000000000000008], printed [2.000000000000001e+16]. *)
Definition float_int (f : pyfloat) : Z :=
  if (f_mant f =? 0)%N then 0
  else
    let n := Z.of_N (f_mant f) * 10 ^ Z.max 0 (f_exp10 f) in
    let d := 10 ^ Z.max 0 (- f_exp10 f) in
    let (m, u) := nearest_double n d in
    let a := if 0 <=? u then m * 2 ^ u else m / 2 ^ (- u) in
    if f_neg f then - a else a.

(** [int(n)] *)
Definition num_int (n : pynum) : Z :=
  match n with
  | NInt z => z
  | NFloat f => float_int f
  end.

(** ** Python values *)

(** The values that occur in documents, payloads and responses.  A dict is
    an association list in insertion order, as Python keeps it. *)
#[local] Set Warnings "-register-all".
Inductive pyval :=
  | PyNone
  | PyBool (b : bool)
  | PyInt (z : Z)
  | PyFloat (f : pyfloat)
  | PyStr (s : string)
  | PyList (l : list pyval)
  | PyDict (d : list (string * pyval)).

Definition of_num (n : pynum) : pyval :=
  match n with
  | NInt z => PyInt z
  | NFloat f => PyFloat f
  end.

(** A field that holds [None] or a string, [None] or a number. *)
Definition of_opt_str (o : option string) : pyval :=
  match o with
  | Some s => PyStr s
  | None => PyNone
  end.

Definition of_opt_num (o : option pynum) : pyval :=
  match o with
  | Some n => of_num n
  | None => PyNone
  end.

(** Python's truth value. *)
Definition truthy (v : pyval) : bool :=
  match v with
  | PyNone => false
  | PyBool b => b
  | PyInt z => negb (z =? 0)
  | PyFloat f => negb (f_mant f =? 0)%N
  | PyStr s => negb (String.eqb s "")
  | PyList l => match l with [] => false | _ => true end
  | PyDict d => match d with [] => false | _ => true end
  end.

(** [a or b]. *)
Definition py_or (a b : pyval) : pyval := if truthy a then a else b.

(** [str(doc.standard_rate)]: [str(None)] is ["None"]. *)
Definition rate_str (o : option pynum) : string :=
  match o with
  | Some n => num_str n
  | None => "None"
  end.

(** *** Dicts *)

Fixpoint dict_lookup (k : string) (d : list (string * pyval)) : option pyval :=
  match d with
  | [] => None
  | (k', v) :: d' => if String.eqb k k' then Some v else dict_lookup k d'
  end.

(** [d[k] = v]: an existing key keeps its place, a new one goes last. *)
Fixpoint dict_set (k : string) (v : pyval) (d : list (string * pyval)) : list (string * pyval) :=
  match d with
  | [] => [(k, v)]
  | (k', v') :: d' => if String.eqb k k' then (k, v) :: d' else (k', v') :: dict_set k v d'
  end.

(** A step from a container to one of its elements. *)
Inductive sel :=
  | Key (k : string)
  | Idx (i : nat).

Definition step_into (s : sel) (v : pyval) : option pyval :=
  match s, v with
  | Key k, PyDict d => dict_lookup k d
  | Idx i, PyList l => nth_error l i
  | _, _ => None
  end.

(** The object reached from [v] along a path of subscripts. *)
Fixpoint at_path (p : list sel) (v : pyval) : option pyval :=
  match p with
  | [] => Some v
  | s :: p' => match step_into s v with
               | Some v' => at_path p' v'
               | None => None
               end
  end.

Fixpoint list_alter_at {A} (f : A -> A) (i : nat) (l : list A) : list A :=
  match l, i with
  | [], _ => []
  | x :: l', O => f x :: l'
  | x :: l', S i' => x :: list_alter_at f i' l'
  end.

Fixpoint dict_alter (f : pyval -> pyval) (k : string) (d : list (string * pyval)) : list (string * pyval) :=
  match d with
  | [] => []
  | (k', v) :: d' => if String.eqb k k' then (k', f v) :: d' else (k', v) :: dict_alter f k d'
  end.

(** In-place change of the object that a path of subscripts reaches.  A
    Python name bound to [product_data["product"]["variantsInfo"]...] is an
    alias of that inner object; a store through the alias is a change at the
    path, seen through [product_data]. *)
Fixpoint alter_at (p : list sel) (f : pyval -> pyval) (v : pyval) : pyval :=
  match p with
  | [] => f v
  | Key k :: p' => match v with
                   | PyDict d => PyDict (dict_alter (alter_at p' f) k d)
                   | _ => v
                   end
  | Idx i :: p' => match v with
                   | PyList l => PyList (list_alter_at (alter_at p' f) i l)
                   | _ => v
                   end
  end.

(** [obj[k] = x] where [obj] is the dict at path [p] of [v]. *)
Definition setitem_at (p : list sel) (k : string) (x : pyval) (v : pyval) : pyval :=
  alter_at p (fun o => match o with
                       | PyDict d => PyDict (dict_set k x d)
                       | _ => o
                       end) v.

(** ** Item documents *)

(** The fields of an Item document that the code reads, typed after the
    doctype: Data and Text fields hold [None] or a string, Check fields an
    int, Currency and Float fields [None] or a number.  [projected_qty] is
    not a field of Item; [None] also stands for the attribute being absent. *)
Record Item := {
  name : string;
  item_code : option string;
  item_name : option string;
  description : option string;
  disabled : Z;
  is_sales_item : Z;
  standard_rate : option pynum;
  weight_per_unit : option pynum;
  projected_qty : option pynum
}.

(** ** The Frappe environment as a state-and-exception monad *)

(** A Python exception: [exn_msg] is [str(e)], [exn_tb] the text that
    [traceback.format_exc()] gives for it. *)
Record exn := Exn { exn_type : string; exn_msg : string; exn_tb : string }.

(** The framework calls that can raise. *)
Inductive op :=
  | DbExists
  | DbGetValue
  | DbSetValue
  | DbCommit
  | GetDoc
  | DocInsert
  | GenerateHash
  | JsonDumps
  | Msgprint
  | LogError
  | GetGlobalDefault.

(** A piece of a formatted message: literal text, an interpolated value, the
    JSON text of a value, the traceback of an exception. *)
Inductive frag :=
  | Lit (s : string)
  | Fmt (v : pyval)
  | Json (v : pyval)
  | Traceback (e : exn).

Inductive level := INFO | DEBUG | ERROR.

(** Entries of the functions whose invocation the properties speak of. *)
Inductive call :=
  | CreateWixProduct (docname : string)
  | UpdateWixProduct (docname : string)
  | CreateProductApi (product_data : pyval)
  | UpdateProductApi (product_id product_data : pyval)
  | StoreWixProductId (docname : string) (wix_product_id : pyval).

(** What a run leaves behind, newest entry first. *)
Inductive event :=
  | EvCall (c : call)
  | EvLogger (l : level) (msg : list frag)
  | EvLogError (message title : list frag)
  | EvMsgprint (msg : list frag) (title indicator : string)
  | EvSetValue (docname : string) (value : pyval)
  | EvCommit
  | EvInsertCustomField.

(** The state of the site: the [wix_product_id] column of the rows of
    [tabItem] (a row exists for every inserted Item; [PyNone] is NULL),
    whether the custom field exists, the global default currency, the number
    of framework calls made so far, and the trace. *)
Record World := {
  tabItem : gmap string pyval;
  custom_field : bool;
  global_currency : pyval;
  clock : nat;
  trace : list event
}.

(** What the code cannot control: which framework call raises (by the
    number of calls made before it) and what [frappe.generate_hash] returns. *)
Record Env := {
  faults : nat -> op -> option exn;
  hashes : nat -> string
}.

Inductive Result (A : Type) :=
  | Normal (a : A)
  | Raised (e : exn).
Arguments Normal {A} a.
Arguments Raised {A} e.

Definition M (A : Type) : Type := Env -> World -> Result A * World.

Definition ret {A} (a : A) : M A := fun _ w => (Normal a, w).

Definition bind {A B} (m : M A) (k : A -> M B) : M B := fun E w =>
  match m E w with
  | (Normal a, w') => k a E w'
  | (Raised e, w') => (Raised e, w')
  end.

Definition raise {A} (e : exn) : M A := fun _ w => (Raised e, w).

(** [try: body  except Exception as e: handler e].  The effects of the body
    up to the exception stay. *)
Definition try_except {A} (body : M A) (handler : exn -> M A) : M A := fun E w =>
  match body E w with
  | (Normal a, w') => (Normal a, w')
  | (Raised e, w') => handler e E w'
  end.

Notation "x <- c1 ;; c2" := (bind c1 (fun x => c2))
  (at level 100, c1 at next level, right associativity).
Notation "c1 ;; c2" := (bind c1 (fun _ => c2))
  (at level 100, right associativity).

Definition emit (ev : event) (w : World) : World :=
  {| tabItem := tabItem w; custom_field := custom_field w;
     global_currency := global_currency w; clock := clock w;
     trace := ev :: trace w |}.

Definition tick (w : World) : World :=
  {| tabItem := tabItem w; custom_field := custom_field w;
     global_currency := global_currency w; clock := S (clock w);
     trace := trace w |}.

Definition with_tabItem (t : gmap string pyval) (w : World) : World :=
  {| tabItem := t; custom_field := custom_field w;
     global_currency := global_currency w; clock := clock w;
     trace := trace w |}.

Definition with_custom_field (b : bool) (w : World) : World :=
  {| tabItem := tabItem w; custom_field := b;
     global_currency := global_currency w; clock := clock w;
     trace := trace w |}.

(** A framework call: it raises when the environment says so, and acts on
    the site otherwise. *)
Definition prim {A} (o : op) (act : Env -> World -> A * World) : M A := fun E w =>
  match faults E (clock w) o with
  | Some e => (Raised e, tick w)
  | None => let '(a, w') := act E (tick w) in (Normal a, w')
  end.

(** Entering one of the traced functions. *)
Definition enter (c : call) : M unit := fun _ w => (Normal tt, emit (EvCall c) w).

(** [frappe.logger().info(..)] and its siblings: Python's logging does not
    raise into its caller. *)
Definition logger (l : level) (msg : list frag) : M unit :=
  fun _ w => (Normal tt, emit (EvLogger l msg) w).

(** [frappe.log_error(message=.., title=..)] writes an Error Log document. *)
Definition log_error (message title : list frag) : M unit :=
  prim LogError (fun _ w => (tt, emit (EvLogError message title) w)).

(** [frappe.msgprint(_(..), title=_(..), indicator=..)]; the translation
    [_] is left out of the recorded text. *)
Definition msgprint (msg : list frag) (title indicator : string) : M unit :=
  prim Msgprint (fun _ w => (tt, emit (EvMsgprint msg title indicator) w)).

(** [frappe.db.exists("Custom Field", {"dt": "Item", "fieldname": "wix_product_id"})] *)
Definition db_exists_custom_field : M bool :=
  prim DbExists (fun _ w => (custom_field w, w)).

(** [frappe.db.get_value("Item", docname, "wix_product_id")]: [None] when
    there is no such row. *)
Definition db_get_value (docname : string) : M pyval :=
  prim DbGetValue (fun _ w => (default PyNone (tabItem w !! docname), w)).

(** [frappe.db.set_value("Item", docname, "wix_product_id", v)]: an UPDATE
    of the row of that name. *)
Definition db_set_value (docname : string) (v : pyval) : M unit :=
  prim DbSetValue (fun _ w =>
    (tt, emit (EvSetValue docname v)
           (with_tabItem (alter (fun _ => v) docname (tabItem w)) w))).

Definition db_commit : M unit :=
  prim DbCommit (fun _ w => (tt, emit EvCommit w)).

(** [frappe.get_doc({"doctype": "Custom Field", ...})] *)
Definition get_doc_custom_field : M unit :=
  prim GetDoc (fun _ w => (tt, w)).

(** [custom_field.insert()] *)
Definition insert_custom_field : M unit :=
  prim DocInsert (fun _ w =>
    (tt, emit EvInsertCustomField (with_custom_field true w))).

(** [frappe.generate_hash(length=..)] *)
Definition generate_hash : M string :=
  prim GenerateHash (fun E w => (hashes E (pred (clock w)), w)).

(** [json.dumps(v, indent=2)], kept as the fragment it contributes. *)
Definition json_dumps (v : pyval) : M frag :=
  prim JsonDumps (fun _ w => (Json v, w)).

(** [frappe.defaults.get_global_default("currency")] *)
Definition get_global_default_currency : M pyval :=
  prim GetGlobalDefault (fun _ w => (global_currency w, w)).

(** *** Subscripts and [.get] on values *)

(** [v.get(k, dflt)] *)
Definition py_get (v : pyval) (k : string) (dflt : pyval) : M pyval :=
  match v with
  | PyDict d => ret (default dflt (dict_lookup k d))
  | _ => raise (Exn "AttributeError" "object has no attribute 'get'" "")
  end.

(** [v[k]] for a string key *)
Definition py_getitem (v : pyval) (k : string) : M pyval :=
  match v with
  | PyDict d => match dict_lookup k d with
                | Some x => ret x
                | None => raise (Exn "KeyError" k "")
                end
  | _ => raise (Exn "TypeError" "object is not subscriptable by a string" "")
  end.

(** [s.lower()] and [s.capitalize()] of an ASCII string (the names of the
    operations). *)
Definition ascii_lower (c : ascii) : ascii :=
  let n := nat_of_ascii c in
  if ((65 <=? n) && (n <=? 90))%nat then ascii_of_nat (n + 32) else c.

Definition ascii_upper (c : ascii) : ascii :=
  let n := nat_of_ascii c in
  if ((97 <=? n) && (n <=? 122))%nat then ascii_of_nat (n - 32) else c.

Definition str_lower (s : string) : string :=
  string_of_list_ascii (map ascii_lower (list_ascii_of_string s)).

Definition capitalize (s : string) : string :=
  match s with
  | EmptyString => EmptyString
  | String c r => String (ascii_upper c) (str_lower r)
  end.

(** ** [wix_integration/utils/wix_api.py] *)

Module Kokofresh.

Definition WIX_SITE_ID : string := "a57521a4-3ecd-40b8-852c-462f2af558d2".
Definition WIX_SITE_NAME : string := "kokofresh".

Definition should_sync_item (doc : Item) : bool :=
  if truthy (PyInt (disabled doc)) then false
  else if negb (truthy (PyInt (is_sales_item doc))) then false
  else match standard_rate doc with
       | None => false
       | Some r => if negb (num_truthy r) || num_le_zero r then false else true
       end.

Definition map_item_to_wix_product (doc : Item) : pyval :=
  let product_data :=
    PyDict [("product", PyDict [
      ("name", py_or (of_opt_str (item_name doc)) (of_opt_str (item_code doc)));
      ("productType", PyStr "PHYSICAL");
      ("physicalProperties", PyDict []);
      ("variantsInfo", PyDict [
        ("variants", PyList [
          PyDict [
            ("sku", of_opt_str (item_code doc));
            ("price", PyDict [
              ("actualPrice", PyDict [
                ("amount", PyStr (rate_str (standard_rate doc)))])]);
            ("physicalProperties", PyDict []);
            ("choices", PyList [])]])])])] in
  let product_data :=
    if truthy (of_opt_str (description doc))
    then setitem_at [Key "product"] "plainDescription" (of_opt_str (description doc)) product_data
    else product_data in
  let variant := [Key "product"; Key "variantsInfo"; Key "variants"; Idx 0] in
  let product_data :=
    if truthy (of_opt_num (weight_per_unit doc))
    then setitem_at (variant ++ [Key "physicalProperties"])%list "weight"
           (of_opt_num (weight_per_unit doc)) product_data
    else product_data in
  setitem_at [Key "product"] "visible" (PyBool true) product_data.

Definition call_wix_create_product_api (product_data : pyval) : M (bool * pyval) :=
  enter (CreateProductApi product_data) ;;
  try_except
    (logger INFO [Lit "Calling Wix Create Product API for site "; Lit WIX_SITE_ID] ;;
     j <- json_dumps product_data ;;
     logger DEBUG [Lit "Product data: "; j] ;;
     h <- generate_hash ;;
     product <- py_getitem product_data "product" ;;
     product_name <- py_getitem product "name" ;;
     let simulated_response :=
       PyDict [("product", PyDict [
         ("_id", PyStr ("wix_" ++ h));
         ("name", product_name);
         ("visible", PyBool true)])] in
     logger INFO [Lit "Simulated Wix product creation successful"] ;;
     ret (true, simulated_response))
    (fun e =>
       logger ERROR [Lit "Error calling Wix Create Product API: "; Lit (exn_msg e)] ;;
       ret (false, PyDict [("error", PyStr (exn_msg e))])).

Definition call_wix_update_product_api (product_id product_data : pyval) : M (bool * pyval) :=
  enter (UpdateProductApi product_id product_data) ;;
  try_except
    (logger INFO [Lit "Calling Wix Update Product API for site "; Lit WIX_SITE_ID;
                  Lit ", product "; Fmt product_id] ;;
     j <- json_dumps product_data ;;
     logger DEBUG [Lit "Product data: "; j] ;;
     product <- py_getitem product_data "product" ;;
     product_name <- py_getitem product "name" ;;
     let simulated_response :=
       PyDict [("product", PyDict [
         ("_id", product_id);
         ("name", product_name);
         ("visible", PyBool true)])] in
     logger INFO [Lit "Simulated Wix product update successful"] ;;
     ret (true, simulated_response))
    (fun e =>
       logger ERROR [Lit "Error calling Wix Update Product API: "; Lit (exn_msg e)] ;;
       ret (false, PyDict [("error", PyStr (exn_msg e))])).

Definition create_wix_product_id_field : M unit :=
  try_except
    (get_doc_custom_field ;;
     insert_custom_field ;;
     db_commit)
    (fun e => logger ERROR [Lit "Error creating Wix Product ID field: "; Lit (exn_msg e)]).

Definition store_wix_product_id (doc : Item) (wix_product_id : pyval) : M unit :=
  enter (StoreWixProductId (name doc) wix_product_id) ;;
  try_except
    (field_exists <- db_exists_custom_field ;;
     (if negb field_exists then create_wix_product_id_field else ret tt) ;;
     db_set_value (name doc) wix_product_id ;;
     db_commit)
    (fun e => logger ERROR [Lit "Error storing Wix product ID: "; Lit (exn_msg e)]).

Definition get_wix_product_id (doc : Item) : M pyval :=
  try_except (db_get_value (name doc)) (fun _ => ret PyNone).

Definition handle_wix_api_error (operation : string) (code error_msg : pyval) : M unit :=
  log_error
    [Lit "Wix "; Lit operation; Lit " operation failed for Item "; Fmt code; Lit ": "; Fmt error_msg]
    [Lit "Wix "; Lit (capitalize operation); Lit " Error"] ;;
  msgprint
    [Lit "Failed to "; Lit operation; Lit " product in Wix. Please check the error log for details."]
    "Wix Sync Error" "red".

(** The [except Exception as e] clause of [create_wix_product]. *)
Definition create_failed (doc : Item) (e : exn) : M unit :=
  log_error
    [Lit "Exception in create_wix_product: "; Lit (exn_msg e); Lit "
"; Traceback e]
    [Lit "Wix Product Creation Failed - "; Fmt (of_opt_str (item_code doc))] ;;
  logger ERROR [Lit "Failed to create Wix product for "; Fmt (of_opt_str (item_code doc));
                Lit ": "; Lit (exn_msg e)].

Definition create_wix_product (doc : Item) (method : pyval) : M unit :=
  enter (CreateWixProduct (name doc)) ;;
  try_except
    (logger INFO [Lit "Starting Wix product creation for Item: "; Fmt (of_opt_str (item_code doc))] ;;
     if negb (should_sync_item doc) then
       logger INFO [Lit "Skipping Wix sync for Item: "; Fmt (of_opt_str (item_code doc))]
     else
       let wix_product_data := map_item_to_wix_product doc in
       r <- call_wix_create_product_api wix_product_data ;;
       let success := fst r in
       let response_data := snd r in
       if success then
         product <- py_get response_data "product" (PyDict []) ;;
         wix_product_id <- py_get product "_id" PyNone ;;
         if truthy wix_product_id then
           store_wix_product_id doc wix_product_id ;;
           logger INFO [Lit "Successfully created Wix product "; Fmt wix_product_id;
                        Lit " for Item "; Fmt (of_opt_str (item_code doc))] ;;
           msgprint
             [Lit "Product '"; Fmt (of_opt_str (item_name doc));
              Lit "' successfully synced to Wix!
Wix Product ID: "; Fmt wix_product_id]
             "Wix Sync Success" "green"
         else ret tt
       else
         error_msg <- (if truthy response_data
                       then py_get response_data "error" (PyStr "Unknown error")
                       else ret (PyStr "No response from Wix API")) ;;
         handle_wix_api_error "create" (of_opt_str (item_code doc)) error_msg)
    (create_failed doc).

(** The [except Exception as e] clause of [update_wix_product]. *)
Definition update_failed (doc : Item) (e : exn) : M unit :=
  log_error
    [Lit "Exception in update_wix_product: "; Lit (exn_msg e); Lit "
"; Traceback e]
    [Lit "Wix Product Update Failed - "; Fmt (of_opt_str (item_code doc))] ;;
  logger ERROR [Lit "Failed to update Wix product for "; Fmt (of_opt_str (item_code doc));
                Lit ": "; Lit (exn_msg e)].

Definition update_wix_product (doc : Item) (method : pyval) : M unit :=
  enter (UpdateWixProduct (name doc)) ;;
  try_except
    (logger INFO [Lit "Starting Wix product update for Item: "; Fmt (of_opt_str (item_code doc))] ;;
     if negb (should_sync_item doc) then ret tt
     else
       wix_product_id <- get_wix_product_id doc ;;
       if negb (truthy wix_product_id) then
         logger INFO [Lit "No Wix product ID found for "; Fmt (of_opt_str (item_code doc));
                      Lit ", creating new product"] ;;
         create_wix_product doc method
       else
         let wix_product_data := map_item_to_wix_product doc in
         r <- call_wix_update_product_api wix_product_id wix_product_data ;;
         let success := fst r in
         let response_data := snd r in
         if success then
           logger INFO [Lit "Successfully updated Wix product "; Fmt wix_product_id;
                        Lit " for Item "; Fmt (of_opt_str (item_code doc))] ;;
           msgprint
             [Lit "Product '"; Fmt (of_opt_str (item_name doc)); Lit "' successfully updated in Wix!"]
             "Wix Sync Success" "green"
         else
           error_msg <- (if truthy response_data
                         then py_get response_data "error" (PyStr "Unknown error")
                         else ret (PyStr "No response from Wix API")) ;;
           handle_wix_api_error "update" (of_opt_str (item_code doc)) error_msg)
    (update_failed doc).

(** The payload that [test_wix_connection] sends. *)
Definition test_product : pyval :=
  PyDict [("product", PyDict [
    ("name", PyStr "Test Product from Frappe");
    ("productType", PyStr "PHYSICAL");
    ("physicalProperties", PyDict []);
    ("plainDescription", PyStr "This is a test product created from Frappe integration");
    ("variantsInfo", PyDict [
      ("variants", PyList [
        PyDict [
          ("sku", PyStr "TEST-001");
          ("price", PyDict [
            ("actualPrice", PyDict [
              ("amount", PyStr "10.00")])]);
          ("physicalProperties", PyDict []);
          ("choices", PyList [])]])]);
    ("visible", PyBool true)])].

Definition test_wix_connection : M bool :=
  try_except
    (logger INFO [Lit "Testing Wix connection to site: "; Lit WIX_SITE_NAME;
                  Lit " ("; Lit WIX_SITE_ID; Lit ")"] ;;
     r <- call_wix_create_product_api test_product ;;
     let success := fst r in
     let response := snd r in
     if success then
       msgprint [Lit "Wix connection test successful!"] "Connection Test" "green" ;;
       ret true
     else
       error <- py_get response "error" (PyStr "Unknown error") ;;
       msgprint [Lit "Wix connection test failed: "; Fmt error] "Connection Test Failed" "red" ;;
       ret false)
    (fun e =>
       log_error
         [Lit "Wix connection test failed: "; Lit (exn_msg e); Lit "
"; Traceback e]
         [Lit "Wix Connection Test Error"] ;;
       msgprint [Lit "Wix connection test error: "; Lit (exn_msg e)]
         "Connection Test Error" "red" ;;
       ret false).

End Kokofresh.

(** ** [wix_integration/wix_integration/utils/wix_api.py] *)

Module Nested.

Definition WIX_SITES : pyval :=
  PyDict [("dev", PyStr "63a7b738-6d1c-447a-849a-fab973366a06");
          ("kokofresh", PyStr "a57521a4-3ecd-40b8-852c-462f2af558d2");
          ("byte_catalyst", PyStr "bc24ec89-d58d-4b00-9c00-997dc4bb2025")].

Definition DEFAULT_WIX_SITE : string := "dev".

Definition should_sync_item (doc : Item) : bool :=
  if truthy (PyInt (disabled doc)) then false
  else if negb (truthy (PyInt (is_sales_item doc))) then false
  else match standard_rate doc with
       | None => false
       | Some r => if negb (num_truthy r) || num_le_zero r then false else true
       end.

(** The class [[a-zA-Z0-9-_]] of the first substitution. *)
Definition slug_keeps (c : ascii) : bool :=
  let n := nat_of_ascii c in
  ((97 <=? n) && (n <=? 122) || (65 <=? n) && (n <=? 90) || (48 <=? n) && (n <=? 57)
   || (n =? 45) || (n =? 95))%nat.

(** [re.sub(r'-+', '-', ..)] *)
Fixpoint collapse_dashes (l : list ascii) : list ascii :=
  match l with
  | [] => []
  | c :: r =>
      if Ascii.eqb c "-"
      then match r with
           | c' :: _ => if Ascii.eqb c' "-" then collapse_dashes r else c :: collapse_dashes r
           | [] => [c]
           end
      else c :: collapse_dashes r
  end.

Fixpoint lstrip_dashes (l : list ascii) : list ascii :=
  match l with
  | c :: r => if Ascii.eqb c "-" then lstrip_dashes r else l
  | [] => []
  end.

(** [.strip('-')] *)
Definition strip_dashes (l : list ascii) : list ascii :=
  rev (lstrip_dashes (rev (lstrip_dashes l))).

Definition is_byte (n : nat) (c : ascii) : bool := (nat_of_ascii c =? n)%nat.

(** [item_code.lower()], as far as the slug can tell.  A string is the
    sequence of its UTF-8 bytes here.  [str.lower] turns the ASCII capitals
    into small letters, and of the characters outside ASCII exactly two
    lower to text with an ASCII letter in it: U+0130 (bytes C4 B0) lowers
    to [i] followed by U+0307 (bytes CC 87), and U+212A (bytes E2 84 AA)
    lowers to [k].  Every other character outside ASCII lowers to
    characters outside ASCII; its bytes are left as they are, since the
    two substitutions that follow turn any run of them into the one dash
    that they make of the lowered characters. *)
Fixpoint lower_bytes (l : list ascii) : list ascii :=
  match l with
  | [] => []
  | c :: r =>
      match r with
      | c2 :: r2 =>
          if is_byte 196 c && is_byte 176 c2 then
            "i"%char :: ascii_of_nat 204 :: ascii_of_nat 135 :: lower_bytes r2
          else
            match r2 with
            | c3 :: r3 =>
                if is_byte 226 c && is_byte 132 c2 && is_byte 170 c3
                then "k"%char :: lower_bytes r3
                else ascii_lower c :: lower_bytes r
            | [] => ascii_lower c :: lower_bytes r
            end
      | [] => ascii_lower c :: lower_bytes r
      end
  end.

(** The first substitution replaces a character outside the class by a
    dash; on bytes, a character outside ASCII becomes a run of dashes, which
    the second substitution turns into the one dash that Python makes of
    it. *)
Definition generate_product_slug (code : pyval) : M pyval :=
  match code with
  | PyStr s =>
      let slug := map (fun c => if slug_keeps c then c else "-"%char)
                      (lower_bytes (list_ascii_of_string s)) in
      let slug := strip_dashes (collapse_dashes slug) in
      ret (PyStr (string_of_list_ascii slug))
  | _ => raise (Exn "AttributeError" "object has no attribute 'lower'" "")
  end.

Definition get_wix_site_id : M pyval := py_get WIX_SITES DEFAULT_WIX_SITE PyNone.

Definition map_item_to_wix_product (doc : Item) : M pyval :=
  slug <- generate_product_slug (of_opt_str (item_code doc)) ;;
  currency <- get_global_default_currency ;;
  let product_data :=
    PyDict [("product", PyDict [
      ("name", py_or (of_opt_str (item_name doc)) (of_opt_str (item_code doc)));
      ("slug", slug);
      ("plainDescription", py_or (of_opt_str (description doc)) (PyStr ""));
      ("variantsInfo", PyDict [
        ("variants", PyList [
          PyDict [
            ("sku", of_opt_str (item_code doc));
            ("price", PyDict [
              ("actualPrice", PyDict [
                ("amount", PyStr (rate_str (standard_rate doc)));
                ("currency", py_or currency (PyStr "USD"))])]);
            ("physicalProperties", PyDict []);
            ("stock", PyDict [
              ("trackInventory", PyBool true);
              ("inStock", PyBool true)])]])])])] in
  let variant := [Key "product"; Key "variantsInfo"; Key "variants"; Idx 0] in
  let product_data :=
    if truthy (of_opt_num (weight_per_unit doc))
    then setitem_at (variant ++ [Key "physicalProperties"])%list "weight"
           (PyDict [("value", of_opt_num (weight_per_unit doc)); ("unit", PyStr "kg")])
           product_data
    else product_data in
  let product_data :=
    match projected_qty doc with
    | Some q =>
        if num_truthy q
        then setitem_at (variant ++ [Key "stock"])%list "quantity" (PyInt (num_int q)) product_data
        else product_data
    | None => product_data
    end in
  ret product_data.

Definition call_wix_create_product_api (site_id product_data : pyval) : M pyval :=
  enter (CreateProductApi product_data) ;;
  try_except
    (logger INFO [Lit "Calling Wix Create Product API for site "; Fmt site_id] ;;
     j <- json_dumps product_data ;;
     logger DEBUG [Lit "Product data: "; j] ;;
     h <- generate_hash ;;
     ret (PyDict [("success", PyBool true);
                  ("product_id", PyStr ("wix_product_" ++ h));
                  ("message", PyStr "Product created successfully")]))
    (fun e =>
       logger ERROR [Lit "Error calling Wix Create Product API: "; Lit (exn_msg e)] ;;
       ret (PyDict [("success", PyBool false); ("error", PyStr (exn_msg e))])).

Definition call_wix_update_product_api (site_id product_id product_data : pyval) : M pyval :=
  enter (UpdateProductApi product_id product_data) ;;
  try_except
    (logger INFO [Lit "Calling Wix Update Product API for site "; Fmt site_id;
                  Lit ", product "; Fmt product_id] ;;
     j <- json_dumps product_data ;;
     logger DEBUG [Lit "Product data: "; j] ;;
     ret (PyDict [("success", PyBool true);
                  ("product_id", product_id);
                  ("message", PyStr "Product updated successfully")]))
    (fun e =>
       logger ERROR [Lit "Error calling Wix Update Product API: "; Lit (exn_msg e)] ;;
       ret (PyDict [("success", PyBool false); ("error", PyStr (exn_msg e))])).

Definition create_wix_product_id_field : M unit :=
  try_except
    (get_doc_custom_field ;;
     insert_custom_field ;;
     db_commit)
    (fun e => logger ERROR [Lit "Error creating Wix Product ID field: "; Lit (exn_msg e)]).

Definition store_wix_product_id (doc : Item) (wix_product_id : pyval) : M unit :=
  enter (StoreWixProductId (name doc) wix_product_id) ;;
  try_except
    (field_exists <- db_exists_custom_field ;;
     (if negb field_exists then create_wix_product_id_field else ret tt) ;;
     db_set_value (name doc) wix_product_id ;;
     db_commit)
    (fun e => logger ERROR [Lit "Error storing Wix product ID: "; Lit (exn_msg e)]).

Definition get_wix_product_id (doc : Item) : M pyval :=
  try_except (db_get_value (name doc)) (fun _ => ret PyNone).

Definition handle_wix_api_error (operation : string) (code error_msg : pyval) : M unit :=
  log_error
    [Lit "Wix "; Lit operation; Lit " operation failed for Item "; Fmt code; Lit ": "; Fmt error_msg]
    [Lit "Wix "; Lit (capitalize operation); Lit " Error"] ;;
  msgprint
    [Lit "Failed to "; Lit operation; Lit " product in Wix. Please check the error log for details."]
    "Wix Sync Error" "red".

(** [response and response.get("success")] as the condition of an [if] *)
Definition response_succeeded (response : pyval) : M bool :=
  if truthy response
  then (s <- py_get response "success" PyNone ;; ret (truthy s))
  else ret false.

(** The [except Exception as e] clause of [create_wix_product]. *)
Definition create_failed (doc : Item) (e : exn) : M unit :=
  log_error
    [Lit "Exception in create_wix_product: "; Lit (exn_msg e); Lit "\n"; Traceback e]
    [Lit "Wix Product Creation Failed - "; Fmt (of_opt_str (item_code doc))] ;;
  logger ERROR [Lit "Failed to create Wix product for "; Fmt (of_opt_str (item_code doc));
                Lit ": "; Lit (exn_msg e)].

Definition create_wix_product (doc : Item) (method : pyval) : M unit :=
  enter (CreateWixProduct (name doc)) ;;
  try_except
    (logger INFO [Lit "Starting Wix product creation for Item: "; Fmt (of_opt_str (item_code doc))] ;;
     if negb (should_sync_item doc) then
       logger INFO [Lit "Skipping Wix sync for Item: "; Fmt (of_opt_str (item_code doc))]
     else
       site_id <- get_wix_site_id ;;
       wix_product_data <- map_item_to_wix_product doc ;;
       response <- call_wix_create_product_api site_id wix_product_data ;;
       ok <- response_succeeded response ;;
       if ok then
         wix_product_id <- py_get response "product_id" PyNone ;;
         store_wix_product_id doc wix_product_id ;;
         logger INFO [Lit "Successfully created Wix product "; Fmt wix_product_id;
                      Lit " for Item "; Fmt (of_opt_str (item_code doc))] ;;
         msgprint
           [Lit "Product '"; Fmt (of_opt_str (item_name doc)); Lit "' successfully synced to Wix!"]
           "Wix Sync Success" "green"
       else
         error_msg <- (if truthy response
                       then py_get response "error" (PyStr "Unknown error")
                       else ret (PyStr "No response from Wix API")) ;;
         handle_wix_api_error "create" (of_opt_str (item_code doc)) error_msg)
    (create_failed doc).

(** The [except Exception as e] clause of [update_wix_product]. *)
Definition update_failed (doc : Item) (e : exn) : M unit :=
  log_error
    [Lit "Exception in update_wix_product: "; Lit (exn_msg e); Lit "\n"; Traceback e]
    [Lit "Wix Product Update Failed - "; Fmt (of_opt_str (item_code doc))] ;;
  logger ERROR [Lit "Failed to update Wix product for "; Fmt (of_opt_str (item_code doc));
                Lit ": "; Lit (exn_msg e)].

Definition update_wix_product (doc : Item) (method : pyval) : M unit :=
  enter (UpdateWixProduct (name doc)) ;;
  try_except
    (logger INFO [Lit "Starting Wix product update for Item: "; Fmt (of_opt_str (item_code doc))] ;;
     if negb (should_sync_item doc) then ret tt
     else
       wix_product_id <- get_wix_product_id doc ;;
       if negb (truthy wix_product_id) then
         logger INFO [Lit "No Wix product ID found for "; Fmt (of_opt_str (item_code doc));
                      Lit ", creating new product"] ;;
         create_wix_product doc method
       else
         site_id <- get_wix_site_id ;;
         wix_product_data <- map_item_to_wix_product doc ;;
         response <- call_wix_update_product_api site_id wix_product_id wix_product_data ;;
         ok <- response_succeeded response ;;
         if ok then
           logger INFO [Lit "Successfully updated Wix product "; Fmt wix_product_id;
                        Lit " for Item "; Fmt (of_opt_str (item_code doc))]
         else
           error_msg <- (if truthy response
                         then py_get response "error" (PyStr "Unknown error")
                         else ret (PyStr "No response from Wix API")) ;;
           handle_wix_api_error "update" (of_opt_str (item_code doc)) error_msg)
    (update_failed doc).

End Nested.

(** ** [validate_wix_product_data] of [wix_integration/utils/wix_mcp.py] *)

(** The elements a [for] loop takes from a value. *)
Definition py_iter (v : pyval) : M (list pyval) :=
  match v with
  | PyList l => ret l
  | PyDict d => ret (map (fun kv => PyStr (fst kv)) d)
  | PyStr s => ret (map (fun c => PyStr (String c EmptyString)) (list_ascii_of_string s))
  | _ => raise (Exn "TypeError" "object is not iterable" "")
  end.

(** The body of [for i, variant in enumerate(variants)]. *)
Fixpoint check_variants (i : nat) (variants : list pyval) (errors : list string) : M (list string) :=
  match variants with
  | [] => ret errors
  | variant :: rest =>
      price <- py_get variant "price" (PyDict []) ;;
      actual_price <- py_get price "actualPrice" (PyDict []) ;;
      amount <- py_get actual_price "amount" PyNone ;;
      let errors :=
        if negb (truthy amount)
        then (errors ++ [("Variant " ++ int_str (Z.of_nat i + 1) ++ " must have a price")%string])%list
        else errors in
      check_variants (S i) rest errors
  end.

Definition validate_wix_product_data (product_data : pyval) : M (bool * list string) :=
  let errors : list string := [] in
  match product_data with
  | PyDict _ =>
      product <- py_get product_data "product" (PyDict []) ;;
      product_name <- py_get product "name" PyNone ;;
      let errors := if negb (truthy product_name)
                    then (errors ++ ["Product name is required"])%list else errors in
      product_type <- py_get product "productType" PyNone ;;
      let errors := if negb (truthy product_type)
                    then (errors ++ ["Product type is required"])%list else errors in
      variants_info <- py_get product "variantsInfo" (PyDict []) ;;
      variants <- py_get variants_info "variants" PyNone ;;
      errors <- (if negb (truthy variants)
                 then ret (errors ++ ["At least one variant is required"])%list
                 else
                   variants_info <- py_getitem product "variantsInfo" ;;
                   variants <- py_getitem variants_info "variants" ;;
                   elements <- py_iter variants ;;
                   check_variants 0 elements errors) ;;
      ret (Nat.eqb (List.length errors) 0, errors)
  | _ =>
      let errors := (errors ++ ["Product data must be a dictionary"])%list in
      ret (false, errors)
  end.

(** * Properties *)

(** ** Vocabulary of the statements *)

(** Where the payload keeps its fields. *)
Definition variant_path : list sel :=
  [Key "product"; Key "variantsInfo"; Key "variants"; Idx 0].

Definition name_of (payload : pyval) : option pyval :=
  at_path [Key "product"; Key "name"] payload.

Definition product_type_of (payload : pyval) : option pyval :=
  at_path [Key "product"; Key "productType"] payload.

Definition variants_of (payload : pyval) : option pyval :=
  at_path [Key "product"; Key "variantsInfo"; Key "variants"] payload.

Definition sku_of (payload : pyval) : option pyval :=
  at_path (variant_path ++ [Key "sku"])%list payload.

Definition amount_of (payload : pyval) : option pyval :=
  at_path (variant_path ++ [Key "price"; Key "actualPrice"; Key "amount"])%list payload.

(** A run observes a stored id when [tabItem] is written or
    [store_wix_product_id] is entered. *)
Definition is_store_event (ev : event) : bool :=
  match ev with
  | EvSetValue _ _ => true
  | EvCall (StoreWixProductId _ _) => true
  | _ => false
  end.

Definition is_update_call (ev : event) : bool :=
  match ev with
  | EvCall (UpdateProductApi _ _) => true
  | _ => false
  end.

Definition is_api_call (ev : event) : bool :=
  match ev with
  | EvCall (UpdateProductApi _ _) => true
  | EvCall (CreateProductApi _) => true
  | _ => false
  end.

(** A computation keeps an invariant of the site, however it ends. *)
Definition preserves (I : World -> Prop) {A} (m : M A) : Prop :=
  forall E w, I w -> I (snd (m E w)).

(** The id column and the store events are as they were. *)
Definition table_kept (T : gmap string pyval) (L : list event) (w : World) : Prop :=
  tabItem w = T /\ List.filter is_store_event (trace w) = L.

(** No update call was added to the trace. *)
Definition updates_kept (L : list event) (w : World) : Prop :=
  List.filter is_update_call (trace w) = L.

(** The row of one document holds the id [v]. *)
Definition id_kept (docname : string) (v : pyval) (w : World) : Prop :=
  tabItem w !! docname = Some v.

(** [frappe.log_error] works, whatever else fails. *)
Definition log_error_works (E : Env) : Prop :=
  forall t, faults E t LogError = None.

(** Reading the id column works. *)
Definition id_read_works (E : Env) : Prop :=
  forall t, faults E t DbGetValue = None.

(** The fields that [map_item_to_wix_product] reads agree. *)
Definition same_mapped_fields (a b : Item) : Prop :=
  item_code a = item_code b /\ item_name a = item_name b /\
  description a = description b /\ standard_rate a = standard_rate b /\
  weight_per_unit a = weight_per_unit b /\ projected_qty a = projected_qty b.

(** The events that leave each invariant alone. *)
Definition quiet_store (ev : event) : Prop := is_store_event ev = false.

Definition quiet_update (ev : event) : Prop := is_update_call ev = false.

Definition quiet_row (docname : string) (ev : event) : Prop :=
  match ev with
  | EvSetValue n _ => n <> docname
  | _ => True
  end.

(** The site at the moment [update_wix_product] looks the id up: the entry
    and the first log line are in the trace (both variants log the same). *)
Definition update_started (doc : Item) (w : World) : World :=
  emit (EvLogger INFO [Lit "Starting Wix product update for Item: ";
                       Fmt (of_opt_str (item_code doc))])
    (emit (EvCall (UpdateWixProduct (name doc))) w).

(** The site at the moment [update_wix_product] hands over to
    [create_wix_product]. *)
Definition fallback_announced (doc : Item) (w : World) : World :=
  emit (EvLogger INFO [Lit "No Wix product ID found for ";
                       Fmt (of_opt_str (item_code doc));
                       Lit ", creating new product"]) w.

(** The site at the moment [create_wix_product] maps the item. *)
Definition create_started (doc : Item) (w : World) : World :=
  emit (EvLogger INFO [Lit "Starting Wix product creation for Item: ";
                       Fmt (of_opt_str (item_code doc))])
    (emit (EvCall (CreateWixProduct (name doc))) w).

(** No API call was added to the trace. *)
Definition api_calls_kept (L : list event) (w : World) : Prop :=
  List.filter is_api_call (trace w) = L.

Definition quiet_api (ev : event) : Prop := is_api_call ev = false.

(** A series of [on_update] events, each with the document as it is then
    and under the environment of its own time. *)
Fixpoint run_updates (syncs : list (Item * pyval * Env)) (w : World) : World :=
  match syncs with
  | [] => w
  | (doc, method, E) :: rest =>
      run_updates rest (snd (Kokofresh.update_wix_product doc method E w))
  end.

(** ** Shapes of rendered numbers *)

Fixpoint str_all (p : ascii -> bool) (s : string) : bool :=
  match s with
  | EmptyString => true
  | String c r => p c && str_all p r
  end.

Definition is_digit (c : ascii) : bool :=
  let n := nat_of_ascii c in ((48 <=? n) && (n <=? 57))%nat.

(** The characters of a plain decimal: digits, the point, the sign. *)
Definition plain_char (c : ascii) : bool :=
  is_digit c || Ascii.eqb c "." || Ascii.eqb c "-".

(** The characters of a decimal in scientific notation. *)
Definition sci_char (c : ascii) : bool :=
  plain_char c || Ascii.eqb c "e" || Ascii.eqb c "+".

(** Fixed-point notation without separators: a non-empty string of digits
    with at most a sign and a point among them. *)
Definition plain_decimal (s : string) : bool :=
  negb (String.eqb s "") && str_all plain_char s.

(** An exponent marker occurs. *)
Definition has_exponent (s : string) : bool :=
  negb (str_all (fun c => negb (Ascii.eqb c "e")) s).

(** The numbers that [str] prints in fixed-point notation: every int, and
    the floats whose decimal point falls within the window of [repr],
    which are zero and the magnitudes from [1e-4] up to, not including,
    [1e16]. *)
Definition prints_fixed (r : pynum) : bool :=
  match r with
  | NInt _ => true
  | NFloat f => (-4 <? float_decpt f) && (float_decpt f <=? 16)
  end.

(** The floats that [str] prints in fixed-point notation, by their value:
    zero, and the magnitudes from [1e-4] up to, not including, [1e16]. *)
Definition in_fixed_window (f : pyfloat) : Prop :=
  (float_value f == 0)%Q \/
  ((1 # 10000) <= Qabs (float_value f) /\ Qabs (float_value f) < 10000000000000000)%Q.

(** The [k] lowest decimal digits of [n], the lowest first. *)
Definition digit_lu (r : N) (d : Decimal.uint) : Decimal.uint :=
  match r with
  | 0%N => Decimal.D0 d | 1%N => Decimal.D1 d | 2%N => Decimal.D2 d | 3%N => Decimal.D3 d
  | 4%N => Decimal.D4 d | 5%N => Decimal.D5 d | 6%N => Decimal.D6 d | 7%N => Decimal.D7 d
  | 8%N => Decimal.D8 d | _ => Decimal.D9 d
  end.

Fixpoint digits_lu (k : nat) (n : N) : Decimal.uint :=
  match k with
  | O => Decimal.Nil
  | S k' => digit_lu (n mod 10) (digits_lu k' (n / 10))
  end.

(** ** Sample items, environments and sites *)

(** A sellable item priced at 19.99. *)
Definition item_widget : Item :=
  {| name := "SKU1"; item_code := Some "SKU1"; item_name := Some "Widget";
     description := None; disabled := 0; is_sales_item := 1;
     standard_rate := Some (NFloat (PyF false 1999 (-2)));
     weight_per_unit := None; projected_qty := None |}.

(** The same item after its record was renamed and disabled. *)
Definition item_widget_disabled : Item :=
  {| name := "SKU1-old"; item_code := Some "SKU1"; item_name := Some "Widget";
     description := None; disabled := 1; is_sales_item := 1;
     standard_rate := Some (NFloat (PyF false 1999 (-2)));
     weight_per_unit := None; projected_qty := None |}.

(** A sellable item priced at 0.00001, the float [1e-05]. *)
Definition item_tiny_rate : Item :=
  {| name := "SKU4"; item_code := Some "SKU4"; item_name := Some "Grain";
     description := None; disabled := 0; is_sales_item := 1;
     standard_rate := Some (NFloat (PyF false 1 (-5)));
     weight_per_unit := None; projected_qty := None |}.

Definition boom : exn := Exn "Exception" "boom" "Traceback (most recent call last): ...".

(** Every framework call works. *)
Definition env_ok : Env :=
  {| faults := fun _ _ => None; hashes := fun _ => "0a1b2c3d" |}.

(** Every framework call raises, except the error log. *)
Definition env_failing : Env :=
  {| faults := fun _ o => match o with LogError => None | _ => Some boom end;
     hashes := fun _ => "0a1b2c3d" |}.

(** A site where the widget is inserted and was never synced. *)
Definition site_fresh : World :=
  {| tabItem := {[ "SKU1" := PyNone ]}; custom_field := false;
     global_currency := PyNone; clock := 0; trace := [] |}.

(** A site where the widget has a stored id. *)
Definition site_synced : World :=
  {| tabItem := {[ "SKU1" := PyStr "wix_0a1b2c3d" ]}; custom_field := true;
     global_currency := PyStr "EUR"; clock := 0; trace := [] |}.

(** The API call fails, the database works. *)
Definition env_api_down : Env :=
  {| faults := fun _ o => match o with JsonDumps | GenerateHash => Some boom | _ => None end;
     hashes := fun _ => "0a1b2c3d" |}.


(** The id column cannot be read; every other framework call works, and the
    next hash is [ffffffff]. *)
Definition env_read_down : Env :=
  {| faults := fun _ o => match o with DbGetValue => Some boom | _ => None end;
     hashes := fun _ => "ffffffff" |}.

(** * More of the code *)

(** ** The API client of [wix_integration/utils/wix_mcp.py] *)

(** [needle in hay] *)
Definition str_contains (needle hay : string) : bool :=
  match String.index 0 needle hay with
  | Some _ => true
  | None => false
  end.

(** [s.split(sep)] for a separator of one character: never an empty list. *)
Fixpoint split_on (sep : ascii) (s : string) : list string :=
  match s with
  | EmptyString => [EmptyString]
  | String c r =>
      if Ascii.eqb c sep then EmptyString :: split_on sep r
      else match split_on sep r with
           | h :: t => String c h :: t
           | [] => [String c EmptyString]
           end
  end.

(** [l[-1]] of a list of strings that is not empty. *)
Definition last_piece (l : list string) : string := List.last l EmptyString.

Module WixMcp.

Definition WIX_SITE_ID : string := "a57521a4-3ecd-40b8-852c-462f2af558d2".
Definition WIX_BASE_URL : string := "https://www.wixapis.com".

Section WithClock.

(** [frappe.utils.now_datetime()]: the value it returns is not looked at by
    this module, so any computation can stand for it. *)
Variable now_datetime : M pyval.

(** The requests call is commented out in the source, and the responses are
    made up from the request.  Exception classes are names here: what
    [requests] raises has the type ["RequestException"]. *)
Definition make_wix_api_call (method endpoint : string) (data : pyval) : M (bool * pyval) :=
  try_except
    (let url := WIX_BASE_URL ++ endpoint in
     logger INFO [Lit "Making Wix API call: "; Lit method; Lit " "; Lit url] ;;
     (if truthy data
      then (j <- json_dumps data ;; logger DEBUG [Lit "Request data: "; j])
      else ret tt) ;;
     if String.eqb method "POST" && str_contains "/stores/v3/products" endpoint then
       h <- generate_hash ;;
       product <- py_get data "product" (PyDict []) ;;
       product_name <- py_get product "name" (PyStr "Unknown Product") ;;
       product <- py_get data "product" (PyDict []) ;;
       product_type <- py_get product "productType" (PyStr "PHYSICAL") ;;
       product <- py_get data "product" (PyDict []) ;;
       variants_info <- py_get product "variantsInfo" (PyDict []) ;;
       created <- now_datetime ;;
       updated <- now_datetime ;;
       let simulated_response :=
         PyDict [("product", PyDict [
           ("_id", PyStr ("product_" ++ h));
           ("name", product_name);
           ("productType", product_type);
           ("visible", PyBool true);
           ("variantsInfo", variants_info);
           ("_createdDate", created);
           ("_updatedDate", updated)])] in
       ret (true, simulated_response)
     else if String.eqb method "PUT" && str_contains "/stores/v3/products/" endpoint then
       let product_id := last_piece (split_on "/" endpoint) in
       product <- py_get data "product" (PyDict []) ;;
       product_name <- py_get product "name" (PyStr "Updated Product") ;;
       product <- py_get data "product" (PyDict []) ;;
       product_type <- py_get product "productType" (PyStr "PHYSICAL") ;;
       product <- py_get data "product" (PyDict []) ;;
       variants_info <- py_get product "variantsInfo" (PyDict []) ;;
       updated <- now_datetime ;;
       let simulated_response :=
         PyDict [("product", PyDict [
           ("_id", PyStr product_id);
           ("name", product_name);
           ("productType", product_type);
           ("visible", PyBool true);
           ("variantsInfo", variants_info);
           ("_updatedDate", updated)])] in
       ret (true, simulated_response)
     else
       ret (false, PyDict [("error", PyStr ("Unsupported API call: " ++ method ++ " " ++ endpoint))]))
    (fun e =>
       if String.eqb (exn_type e) "RequestException" then
         logger ERROR [Lit "HTTP error in Wix API call: "; Lit (exn_msg e)] ;;
         ret (false, PyDict [("error", PyStr ("HTTP error: " ++ exn_msg e))])
       else
         logger ERROR [Lit "Unexpected error in Wix API call: "; Lit (exn_msg e)] ;;
         ret (false, PyDict [("error", PyStr ("Unexpected error: " ++ exn_msg e))])).

Definition create_wix_product (product_data : pyval) : M (bool * pyval) :=
  let endpoint := "/stores/v3/products" in
  make_wix_api_call "POST" endpoint product_data.

Definition update_wix_product (product_id : string) (product_data : pyval) : M (bool * pyval) :=
  let endpoint := "/stores/v3/products/" ++ product_id in
  make_wix_api_call "PUT" endpoint product_data.

Definition get_wix_product (product_id : string) : M (bool * pyval) :=
  let endpoint := "/stores/v3/products/" ++ product_id in
  make_wix_api_call "GET" endpoint PyNone.

End WithClock.

End WixMcp.

(** ** [wix_integration/wix_integration/utils/mcp_integration.py] *)

Module McpIntegration.

Definition is_mcp_available : M bool :=
  try_except (ret false) (fun _ => ret false).

(** An endpoint is kept as the pieces of its f-string. *)
Definition call_wix_mcp_api (method : string) (endpoint : list frag) (data : pyval) : M pyval :=
  try_except
    (available <- is_mcp_available ;;
     if negb available then raise (Exn "Exception" "MCP tools not available" "")
     else
       let response :=
         PyDict [("success", PyBool true); ("data", PyDict []);
                 ("message", PyStr "MCP API call placeholder")] in
       ret response)
    (fun e =>
       logger ERROR [Lit "MCP API call failed: "; Lit (exn_msg e)] ;;
       ret (PyDict [("success", PyBool false); ("error", PyStr (exn_msg e))])).

Definition create_product_via_mcp (site_id product_data : pyval) : M pyval :=
  try_except
    (let endpoint := [Lit "sites/"; Fmt site_id; Lit "/products"] in
     response <- call_wix_mcp_api "POST" endpoint product_data ;;
     ok <- py_get response "success" PyNone ;;
     if truthy ok then
       data <- py_get response "data" (PyDict []) ;;
       product_id <- py_get data "id" PyNone ;;
       ret (PyDict [("success", PyBool true); ("product_id", product_id);
                    ("message", PyStr "Product created successfully via MCP")])
     else
       error <- py_get response "error" (PyStr "Unknown MCP error") ;;
       ret (PyDict [("success", PyBool false); ("error", error)]))
    (fun e =>
       ret (PyDict [("success", PyBool false);
                    ("error", PyStr ("MCP product creation failed: " ++ exn_msg e))])).

Definition update_product_via_mcp (site_id product_id product_data : pyval) : M pyval :=
  try_except
    (let endpoint := [Lit "sites/"; Fmt site_id; Lit "/products/"; Fmt product_id] in
     response <- call_wix_mcp_api "PUT" endpoint product_data ;;
     ok <- py_get response "success" PyNone ;;
     if truthy ok then
       ret (PyDict [("success", PyBool true); ("product_id", product_id);
                    ("message", PyStr "Product updated successfully via MCP")])
     else
       error <- py_get response "error" (PyStr "Unknown MCP error") ;;
       ret (PyDict [("success", PyBool false); ("error", error)]))
    (fun e =>
       ret (PyDict [("success", PyBool false);
                    ("error", PyStr ("MCP product update failed: " ++ exn_msg e))])).

Definition get_product_via_mcp (site_id product_id : pyval) : M pyval :=
  try_except
    (let endpoint := [Lit "sites/"; Fmt site_id; Lit "/products/"; Fmt product_id] in
     response <- call_wix_mcp_api "GET" endpoint PyNone ;;
     ok <- py_get response "success" PyNone ;;
     if truthy ok then
       data <- py_get response "data" (PyDict []) ;;
       ret (PyDict [("success", PyBool true); ("product", data);
                    ("message", PyStr "Product retrieved successfully via MCP")])
     else
       error <- py_get response "error" (PyStr "Unknown MCP error") ;;
       ret (PyDict [("success", PyBool false); ("error", error)]))
    (fun e =>
       ret (PyDict [("success", PyBool false);
                    ("error", PyStr ("MCP product retrieval failed: " ++ exn_msg e))])).

Definition get_wix_site_info_via_mcp (site_id : pyval) : M pyval :=
  try_except
    (let endpoint := [Lit "sites/"; Fmt site_id] in
     response <- call_wix_mcp_api "GET" endpoint PyNone ;;
     ok <- py_get response "success" PyNone ;;
     if truthy ok then
       data <- py_get response "data" (PyDict []) ;;
       ret (PyDict [("success", PyBool true); ("site_info", data);
                    ("message", PyStr "Site info retrieved successfully")])
     else
       error <- py_get response "error" (PyStr "Unknown error") ;;
       ret (PyDict [("success", PyBool false); ("error", error)]))
    (fun e =>
       ret (PyDict [("success", PyBool false);
                    ("error", PyStr ("Site info retrieval failed: " ++ exn_msg e))])).

(** [get_wix_site_id] is not imported by the module: reaching the call
    raises a [NameError]. *)
Definition validate_mcp_connection : M pyval :=
  try_except
    (available <- is_mcp_available ;;
     if negb available then
       ret (PyDict [("success", PyBool false); ("error", PyStr "MCP tools not available")])
     else
       raise (Exn "NameError" "name 'get_wix_site_id' is not defined" ""))
    (fun e =>
       ret (PyDict [("success", PyBool false);
                    ("error", PyStr ("MCP validation error: " ++ exn_msg e))])).

Definition sync_frappe_to_wix_via_mcp (item_doc : Item) (operation : string) : M pyval :=
  try_except
    (site_id <- Nested.get_wix_site_id ;;
     product_data <- Nested.map_item_to_wix_product item_doc ;;
     if String.eqb operation "create" then
       create_product_via_mcp site_id product_data
     else if String.eqb operation "update" then
       wix_product_id <- db_get_value (name item_doc) ;;
       if negb (truthy wix_product_id) then
         create_product_via_mcp site_id product_data
       else
         update_product_via_mcp site_id wix_product_id product_data
     else
       raise (Exn "ValueError" ("Unsupported operation: " ++ operation) ""))
    (fun e =>
       ret (PyDict [("success", PyBool false);
                    ("error", PyStr ("MCP sync failed: " ++ exn_msg e))])).

End McpIntegration.

(** ** Vocabulary of the further statements *)

(** Every framework call works. *)
Definition works (E : Env) : Prop := forall t o, faults E t o = None.

(** Writing the id column raises, every other framework call works. *)
Definition only_set_value_fails (E : Env) : Prop :=
  forall t o, (o = DbSetValue -> faults E t o <> None) /\
              (o <> DbSetValue -> faults E t o = None).

(** The row of a document is as it was: it holds [x], or is missing. *)
Definition row_is (docname : string) (x : option pyval) (w : World) : Prop :=
  tabItem w !! docname = x.

(** A write to the id column that leaves such a row alone: a write to
    another row, or to a row that is missing. *)
Definition quiet_for_row (docname : string) (x : option pyval) (ev : event) : Prop :=
  match ev with
  | EvSetValue n _ => n <> docname \/ x = None
  | _ => True
  end.

(** The id that [call_wix_create_product_api] makes up at a given moment. *)
Definition kokofresh_new_id (E : Env) (w : World) : pyval :=
  PyStr ("wix_" ++ hashes E (S (clock w))).

(** The database cannot write. *)
Definition env_readonly : Env :=
  {| faults := fun _ o => match o with DbSetValue => Some boom | _ => None end;
     hashes := fun _ => "0a1b2c3d" |}.

Definition is_field_insert (ev : event) : bool :=
  match ev with
  | EvInsertCustomField => true
  | _ => false
  end.

(** *** The shape of a slug *)

(** The characters a slug is made of. *)
Definition slug_ok (c : ascii) : bool :=
  let n := nat_of_ascii c in
  ((97 <=? n) && (n <=? 122) || (48 <=? n) && (n <=? 57) || (n =? 45) || (n =? 95))%nat.

Definition is_dash (c : ascii) : bool := Ascii.eqb c "-".

Definition starts_with_dash (l : list ascii) : bool :=
  match l with
  | c :: _ => is_dash c
  | [] => false
  end.

Fixpoint has_double_dash (l : list ascii) : bool :=
  match l with
  | c :: r => (is_dash c && starts_with_dash r) || has_double_dash r
  | [] => false
  end.

(** Lower-case letters, digits, dashes and underscores; no dash at either
    end and no two dashes in a row. *)
Definition slug_shaped (s : string) : Prop :=
  let l := list_ascii_of_string s in
  forallb slug_ok l = true /\
  starts_with_dash l = false /\
  starts_with_dash (rev l) = false /\
  has_double_dash l = false.

(** *** Payloads that the validator accepts *)

(** A variant with a price: [variant["price"]["actualPrice"]["amount"]]
    exists and is true. *)
Definition has_price (variant : pyval) : Prop :=
  exists a, at_path [Key "price"; Key "actualPrice"; Key "amount"] variant = Some a /\
            truthy a = true.

(** A payload with a name, a product type and a list of variants that is
    not empty and whose members all have a price. *)
Definition complete_product (p : pyval) : Prop :=
  exists n t l,
    name_of p = Some n /\ truthy n = true /\
    product_type_of p = Some t /\ truthy t = true /\
    variants_of p = Some (PyList l) /\ l <> [] /\ Forall has_price l.

(** *** Responses of the API client *)

(** A response is a product or an error, never both. *)
Definition response_shaped (r : bool * pyval) : Prop :=
  if fst r
  then exists product, snd r = PyDict [("product", PyDict product)]
  else exists msg, snd r = PyDict [("error", PyStr msg)].

(** No slash occurs. *)
Definition no_slash (s : string) : bool :=
  str_all (fun c => negb (Ascii.eqb c "/")) s.

(** The clock can be read. *)
Definition clock_reads (now_datetime : M pyval) : Prop :=
  forall E w, exists t, now_datetime E w = (Normal t, w).

(** *** The answer of the MCP layer *)

Definition mcp_unavailable : pyval :=
  PyDict [("success", PyBool false); ("error", PyStr "MCP tools not available")].

(** The site after the failed call was logged. *)
Definition mcp_failure_logged (w : World) : World :=
  emit (EvLogger ERROR [Lit "MCP API call failed: "; Lit "MCP tools not available"]) w.

(** *** Further sample inputs *)

(** A clock that always reads the same moment. *)
Definition sample_now : M pyval := ret (PyStr "2024-01-01 00:00:00").

(** ** The eligibility filter *)

Lemma float_value_pos (f : pyfloat) :
  (0 < float_value f)%Q <-> f_neg f = false /\ f_mant f <> 0%N.
Proof.
  unfold float_value.
  assert (Hp : (0 < 10 ^ f_exp10 f)%Q) by (apply Qpower_0_lt; reflexivity).
  set (s := ((if f_neg f then -1 else 1) * inject_Z (Z.of_N (f_mant f)))%Q).
  assert (Hs : (0 < s)%Q <-> f_neg f = false /\ f_mant f <> 0%N).
  { subst s. destruct (f_neg f); unfold Qlt, Qmult, inject_Z; simpl.
    - split; [lia | intros [? _]; discriminate].
    - split; [intros; split; [reflexivity | lia] | intros [_ ?]; lia]. }
  rewrite <- Hs. split; intros H.
  - apply (Qmult_lt_r _ _ _ Hp). rewrite Qmult_0_l. exact H.
  - apply (Qmult_lt_r _ _ _ Hp) in H. rewrite Qmult_0_l in H. exact H.
Qed.

(** The two tests of the source, [not rate] and [rate <= 0], reject exactly
    the numbers that are not above zero. *)
Lemma num_check_pos (r : pynum) :
  negb (num_truthy r) || num_le_zero r = false <-> (0 < num_value r)%Q.
Proof.
  destruct r as [z | f]; simpl.
  - unfold Qlt, inject_Z; simpl.
    destruct (Z.eqb_spec z 0), (Z.leb_spec z 0); simpl; split; intros;
      try discriminate; try lia; reflexivity.
  - rewrite float_value_pos.
    destruct (N.eqb_spec (f_mant f) 0), (f_neg f); simpl; split; intros H;
      try discriminate; try (destruct H; congruence);
      split; [reflexivity | assumption].
Qed.

(** C3. [should_sync_item] is a total boolean function of the document, and
    it answers [true] exactly when the item is not disabled, is a sales item
    and has a standard rate that is present and above zero; in both
    variants of the module. *)
Theorem should_sync_item_iff (doc : Item) :
  (Kokofresh.should_sync_item doc = true <->
     disabled doc = 0 /\ is_sales_item doc <> 0 /\
     exists r, standard_rate doc = Some r /\ (0 < num_value r)%Q) /\
  (Nested.should_sync_item doc = true <->
     disabled doc = 0 /\ is_sales_item doc <> 0 /\
     exists r, standard_rate doc = Some r /\ (0 < num_value r)%Q).
Proof.
  assert (H : forall b, b = Kokofresh.should_sync_item doc ->
     (b = true <-> disabled doc = 0 /\ is_sales_item doc <> 0 /\
     exists r, standard_rate doc = Some r /\ (0 < num_value r)%Q)).
  { intros b ->. unfold Kokofresh.should_sync_item; simpl.
    destruct (Z.eqb_spec (disabled doc) 0) as [Hd | Hd]; simpl.
    2:{ split; [discriminate | intros [? _]; contradiction]. }
    destruct (Z.eqb_spec (is_sales_item doc) 0) as [Hs | Hs]; simpl.
    { split; [discriminate | intros (_ & ? & _); contradiction]. }
    destruct (standard_rate doc) as [r |].
    2:{ split; [discriminate | intros (_ & _ & r & ? & _); discriminate]. }
    pose proof (num_check_pos r) as Hr.
    destruct (negb (num_truthy r) || num_le_zero r).
    - split; [discriminate |]. intros (_ & _ & r' & [= <-] & Hpos).
      apply Hr in Hpos. discriminate.
    - split; [| reflexivity]. intros _. repeat split; try assumption.
      exists r. split; [reflexivity | apply Hr; reflexivity]. }
  split; apply H; reflexivity.
Qed.
(** ** Running a computation one step at a time *)

Lemma bind_normal {A B} (m : M A) (k : A -> M B) E w a w' :
  m E w = (Normal a, w') -> bind m k E w = k a E w'.
Proof. intros H. unfold bind. rewrite H. reflexivity. Qed.

Lemma try_bind_normal {A B} (m : M A) (k : A -> M B) (h : exn -> M B) E w a w' :
  m E w = (Normal a, w') -> try_except (bind m k) h E w = try_except (k a) h E w'.
Proof. intros H. unfold try_except, bind. rewrite H. reflexivity. Qed.

(** ** Invariants that a run keeps *)

Section Frame.

Variable I : World -> Prop.
Variable quiet : event -> Prop.
Hypothesis I_tick : forall w, I w -> I (tick w).
Hypothesis I_emit : forall ev w, quiet ev -> I w -> I (emit ev w).
Hypothesis I_field : forall w, I w -> I (with_custom_field true w).
Hypothesis I_table : forall n v w,
  quiet (EvSetValue n v) -> I w -> I (with_tabItem (alter (fun _ => v) n (tabItem w)) w).

Lemma preserves_ret {A} (a : A) : preserves I (ret a).
Proof. intros E w H. exact H. Qed.

Lemma preserves_raise {A} (e : exn) : preserves I (@raise A e).
Proof. intros E w H. exact H. Qed.

Lemma preserves_bind {A B} (m : M A) (k : A -> M B) :
  preserves I m -> (forall a, preserves I (k a)) -> preserves I (bind m k).
Proof.
  intros Hm Hk E w H. unfold bind. specialize (Hm E w H).
  destruct (m E w) as [[a | e] w']; simpl in *; [apply Hk; exact Hm | exact Hm].
Qed.

Lemma preserves_try {A} (body : M A) (h : exn -> M A) :
  preserves I body -> (forall e, preserves I (h e)) -> preserves I (try_except body h).
Proof.
  intros Hm Hh E w H. unfold try_except. specialize (Hm E w H).
  destruct (body E w) as [[a | e] w']; simpl in *; [exact Hm | apply Hh; exact Hm].
Qed.

Lemma preserves_if {A} (b : bool) (m1 m2 : M A) :
  preserves I m1 -> preserves I m2 -> preserves I (if b then m1 else m2).
Proof. destruct b; auto. Qed.

Lemma preserves_prim {A} (o : op) (act : Env -> World -> A * World) :
  (forall E w, I w -> I (snd (act E w))) -> preserves I (prim o act).
Proof.
  intros Hact E w H. unfold prim.
  destruct (faults E (clock w) o); simpl; [apply I_tick; exact H |].
  specialize (Hact E (tick w) (I_tick w H)).
  destruct (act E (tick w)); exact Hact.
Qed.

Lemma preserves_enter (c : call) : quiet (EvCall c) -> preserves I (enter c).
Proof. intros Hq E w H. apply I_emit; assumption. Qed.

Lemma preserves_logger l msg : quiet (EvLogger l msg) -> preserves I (logger l msg).
Proof. intros Hq E w H. apply I_emit; assumption. Qed.

Lemma preserves_log_error message title :
  quiet (EvLogError message title) -> preserves I (log_error message title).
Proof. intros Hq. apply preserves_prim. intros E w H. apply I_emit; assumption. Qed.

Lemma preserves_msgprint msg title indicator :
  quiet (EvMsgprint msg title indicator) -> preserves I (msgprint msg title indicator).
Proof. intros Hq. apply preserves_prim. intros E w H. apply I_emit; assumption. Qed.

Lemma preserves_db_exists : preserves I db_exists_custom_field.
Proof. apply preserves_prim. intros E w H. exact H. Qed.

Lemma preserves_db_get_value docname : preserves I (db_get_value docname).
Proof. apply preserves_prim. intros E w H. exact H. Qed.

Lemma preserves_db_set_value docname v :
  quiet (EvSetValue docname v) -> preserves I (db_set_value docname v).
Proof.
  intros Hq. apply preserves_prim. intros E w H. simpl.
  apply I_emit; [exact Hq |]. apply I_table; assumption.
Qed.

Lemma preserves_db_commit : quiet EvCommit -> preserves I db_commit.
Proof. intros Hq. apply preserves_prim. intros E w H. apply I_emit; assumption. Qed.

Lemma preserves_get_doc : preserves I get_doc_custom_field.
Proof. apply preserves_prim. intros E w H. exact H. Qed.

Lemma preserves_insert_custom_field :
  quiet EvInsertCustomField -> preserves I insert_custom_field.
Proof.
  intros Hq. apply preserves_prim. intros E w H. simpl.
  apply I_emit; [exact Hq |]. apply I_field; exact H.
Qed.

Lemma preserves_generate_hash : preserves I generate_hash.
Proof. apply preserves_prim. intros E w H. exact H. Qed.

Lemma preserves_json_dumps v : preserves I (json_dumps v).
Proof. apply preserves_prim. intros E w H. exact H. Qed.

Lemma preserves_get_global_default : preserves I get_global_default_currency.
Proof. apply preserves_prim. intros E w H. exact H. Qed.

Lemma preserves_py_get v k d : preserves I (py_get v k d).
Proof. destruct v; first [apply preserves_ret | apply preserves_raise]. Qed.

Lemma preserves_py_getitem v k : preserves I (py_getitem v k).
Proof.
  destruct v; try apply preserves_raise. simpl.
  destruct (dict_lookup k d); [apply preserves_ret | apply preserves_raise].
Qed.

End Frame.

(** Walks through a computation with the lemmas above; [tick], [emit],
    [field] and [table] are the four facts about the invariant at hand. *)
Ltac frame tick emit field table :=
  repeat first
    [ progress intros
    | apply preserves_ret
    | apply preserves_raise
    | apply preserves_py_get
    | apply preserves_py_getitem
    | apply preserves_bind
    | apply preserves_try
    | apply (preserves_enter _ _ emit)
    | apply (preserves_logger _ _ emit)
    | apply (preserves_log_error _ _ tick emit)
    | apply (preserves_msgprint _ _ tick emit)
    | apply (preserves_db_exists _ tick)
    | apply (preserves_db_get_value _ tick)
    | apply (preserves_db_set_value _ _ tick emit table)
    | apply (preserves_db_commit _ _ tick emit)
    | apply (preserves_get_doc _ tick)
    | apply (preserves_insert_custom_field _ _ tick emit field)
    | apply (preserves_generate_hash _ tick)
    | apply (preserves_json_dumps _ tick)
    | apply (preserves_get_global_default _ tick)
    | apply preserves_if
    | match goal with
      | |- preserves _ (match ?x with _ => _ end) => destruct x
      | |- preserves _ (let _ := _ in _) => cbv zeta
      end
    | reflexivity
    | exact Logic.I
    | assumption ].

Lemma updates_kept_tick L w : updates_kept L w -> updates_kept L (tick w).
Proof. exact (fun H => H). Qed.

Lemma updates_kept_emit L ev w :
  quiet_update ev -> updates_kept L w -> updates_kept L (emit ev w).
Proof. unfold quiet_update, updates_kept. simpl. intros -> H. exact H. Qed.

Lemma updates_kept_field L w : updates_kept L w -> updates_kept L (with_custom_field true w).
Proof. exact (fun H => H). Qed.

Lemma updates_kept_table L n v w :
  quiet_update (EvSetValue n v) -> updates_kept L w ->
  updates_kept L (with_tabItem (alter (fun _ => v) n (tabItem w)) w).
Proof. intros _ H. exact H. Qed.

Ltac frame_updates L :=
  frame (updates_kept_tick L) (updates_kept_emit L) (updates_kept_field L) (updates_kept_table L).

Lemma kokofresh_create_keeps_updates doc method L :
  preserves (updates_kept L) (Kokofresh.create_wix_product doc method).
Proof.
  unfold Kokofresh.create_wix_product, Kokofresh.call_wix_create_product_api,
    Kokofresh.store_wix_product_id, Kokofresh.create_wix_product_id_field,
    Kokofresh.handle_wix_api_error, Kokofresh.create_failed.
  frame_updates L.
Qed.
Ltac unfold_kokofresh :=
  unfold Kokofresh.update_wix_product, Kokofresh.create_wix_product,
    Kokofresh.call_wix_create_product_api, Kokofresh.call_wix_update_product_api,
    Kokofresh.store_wix_product_id, Kokofresh.get_wix_product_id,
    Kokofresh.create_wix_product_id_field, Kokofresh.handle_wix_api_error,
    Kokofresh.create_failed, Kokofresh.update_failed.

Ltac unfold_nested :=
  unfold Nested.update_wix_product, Nested.create_wix_product,
    Nested.call_wix_create_product_api, Nested.call_wix_update_product_api,
    Nested.store_wix_product_id, Nested.get_wix_product_id,
    Nested.create_wix_product_id_field, Nested.handle_wix_api_error,
    Nested.response_succeeded, Nested.map_item_to_wix_product,
    Nested.generate_product_slug, Nested.get_wix_site_id,
    Nested.create_failed, Nested.update_failed.

Lemma nested_create_keeps_updates doc method L :
  preserves (updates_kept L) (Nested.create_wix_product doc method).
Proof. unfold_nested. frame_updates L. Qed.

(** The entry points return normally when [frappe.log_error] works. *)
Lemma contained (c : call) (body : M unit) (h : exn -> M unit) E w :
  (forall e w', fst (h e E w') = Normal tt) ->
  fst (bind (enter c) (fun _ => try_except body h) E w) = Normal tt.
Proof.
  intros Hh. unfold bind, enter, try_except.
  destruct (body E (emit (EvCall c) w)) as [[[] | e] w']; [reflexivity | apply Hh].
Qed.

Lemma handler_returns (message title : list frag) (msg : list frag) E w :
  log_error_works E -> fst ((log_error message title ;; logger ERROR msg) E w) = Normal tt.
Proof.
  intros H. unfold bind, log_error, prim, logger. rewrite H. reflexivity.
Qed.

Lemma kokofresh_contained doc method E w :
  log_error_works E ->
  fst (Kokofresh.create_wix_product doc method E w) = Normal tt /\
  fst (Kokofresh.update_wix_product doc method E w) = Normal tt.
Proof.
  intros H. split.
  - unfold Kokofresh.create_wix_product. apply contained. intros.
    apply handler_returns, H.
  - unfold Kokofresh.update_wix_product. apply contained. intros.
    apply handler_returns, H.
Qed.

Lemma kokofresh_update_fallback_run doc method E w v w2 :
  Kokofresh.should_sync_item doc = true ->
  Kokofresh.get_wix_product_id doc E (update_started doc w) = (Normal v, w2) ->
  truthy v = false ->
  Kokofresh.update_wix_product doc method E w =
  try_except (Kokofresh.create_wix_product doc method) (Kokofresh.update_failed doc)
    E (fallback_announced doc w2).
Proof.
  intros Hs Hg Hv. unfold update_started in Hg.
  unfold Kokofresh.update_wix_product.
  cbv beta iota delta [bind enter try_except logger].
  rewrite Hs. cbv beta iota delta [negb]. rewrite Hg. cbv beta iota. rewrite Hv.
  reflexivity.
Qed.

Lemma nested_update_fallback_run doc method E w v w2 :
  Nested.should_sync_item doc = true ->
  Nested.get_wix_product_id doc E (update_started doc w) = (Normal v, w2) ->
  truthy v = false ->
  Nested.update_wix_product doc method E w =
  try_except (Nested.create_wix_product doc method) (Nested.update_failed doc)
    E (fallback_announced doc w2).
Proof.
  intros Hs Hg Hv. unfold update_started in Hg.
  unfold Nested.update_wix_product.
  cbv beta iota delta [bind enter try_except logger].
  rewrite Hs. cbv beta iota delta [negb]. rewrite Hg. cbv beta iota. rewrite Hv.
  reflexivity.
Qed.
Lemma nested_contained doc method E w :
  log_error_works E ->
  fst (Nested.create_wix_product doc method E w) = Normal tt /\
  fst (Nested.update_wix_product doc method E w) = Normal tt.
Proof.
  intros H. split.
  - unfold Nested.create_wix_product. apply contained. intros.
    apply handler_returns, H.
  - unfold Nested.update_wix_product. apply contained. intros.
    apply handler_returns, H.
Qed.

Lemma kokofresh_get_id_keeps (I : World -> Prop) doc :
  (forall w, I w -> I (tick w)) -> preserves I (Kokofresh.get_wix_product_id doc).
Proof.
  intros Ht. unfold Kokofresh.get_wix_product_id.
  apply preserves_try; [apply (preserves_db_get_value _ Ht) | intros; apply preserves_ret].
Qed.

Lemma nested_get_id_keeps (I : World -> Prop) doc :
  (forall w, I w -> I (tick w)) -> preserves I (Nested.get_wix_product_id doc).
Proof.
  intros Ht. unfold Nested.get_wix_product_id.
  apply preserves_try; [apply (preserves_db_get_value _ Ht) | intros; apply preserves_ret].
Qed.

(** C1. An eligible item for which [update_wix_product] finds no stored id
    ([get_wix_product_id] gives a false value) is handed to
    [create_wix_product]: the run of the update is the run of the create
    from that moment on, no update call is made, and the entry point
    returns normally. In both variants of the module. *)
Theorem update_without_id_creates
    (doc : Item) (method : pyval) (E : Env) (w : World) (v : pyval) (w2 : World) :
  (Kokofresh.should_sync_item doc = true ->
   Kokofresh.get_wix_product_id doc E (update_started doc w) = (Normal v, w2) ->
   truthy v = false ->
   Kokofresh.update_wix_product doc method E w =
     try_except (Kokofresh.create_wix_product doc method) (Kokofresh.update_failed doc)
       E (fallback_announced doc w2) /\
   List.filter is_update_call (trace (snd (Kokofresh.update_wix_product doc method E w))) =
     List.filter is_update_call (trace w) /\
   (log_error_works E -> fst (Kokofresh.update_wix_product doc method E w) = Normal tt)) /\
  (Nested.should_sync_item doc = true ->
   Nested.get_wix_product_id doc E (update_started doc w) = (Normal v, w2) ->
   truthy v = false ->
   Nested.update_wix_product doc method E w =
     try_except (Nested.create_wix_product doc method) (Nested.update_failed doc)
       E (fallback_announced doc w2) /\
   List.filter is_update_call (trace (snd (Nested.update_wix_product doc method E w))) =
     List.filter is_update_call (trace w) /\
   (log_error_works E -> fst (Nested.update_wix_product doc method E w) = Normal tt)).
Proof.
  set (L := List.filter is_update_call (trace w)).
  split; intros Hs Hg Hv.
  - pose proof (kokofresh_update_fallback_run doc method E w v w2 Hs Hg Hv) as Hrun.
    split; [exact Hrun | split].
    + rewrite Hrun.
      assert (H2 : updates_kept L w2).
      { pose proof (kokofresh_get_id_keeps (updates_kept L) doc (updates_kept_tick L)
                      E (update_started doc w)) as Hk.
        rewrite Hg in Hk. apply Hk. reflexivity. }
      apply (preserves_try (updates_kept L)).
      * apply kokofresh_create_keeps_updates.
      * unfold Kokofresh.update_failed. frame_updates L.
      * exact H2.
    + intros Hl. apply kokofresh_contained, Hl.
  - pose proof (nested_update_fallback_run doc method E w v w2 Hs Hg Hv) as Hrun.
    split; [exact Hrun | split].
    + rewrite Hrun.
      assert (H2 : updates_kept L w2).
      { pose proof (nested_get_id_keeps (updates_kept L) doc (updates_kept_tick L)
                      E (update_started doc w)) as Hk.
        rewrite Hg in Hk. apply Hk. reflexivity. }
      apply (preserves_try (updates_kept L)).
      * apply nested_create_keeps_updates.
      * unfold Nested.update_failed. frame_updates L.
      * exact H2.
    + intros Hl. apply nested_contained, Hl.
Qed.

(** As far as the error log works, failures are contained: whatever raises
    inside a sync attempt (the environment may make any framework call of
    the attempt fail: the id lookup and storage, the custom field, the hash
    and the JSON text of the API call, the message to the user),
    [create_wix_product] and [update_wix_product] return normally. *)
Theorem sync_failures_are_contained (doc : Item) (method : pyval) (E : Env) (w : World) :
  log_error_works E ->
  fst (Kokofresh.create_wix_product doc method E w) = Normal tt /\
  fst (Kokofresh.update_wix_product doc method E w) = Normal tt.
Proof. apply kokofresh_contained. Qed.


(** C6. For an item that fails the eligibility check both entry points
    return at once: the create hook leaves its entry and two log lines in
    the trace, the update hook its entry and one log line, and nothing
    else of the site changes: no framework call is made (the clock stands
    still), no API call, no stored id. *)
Theorem ineligible_is_skipped (doc : Item) (method : pyval) (E : Env) (w : World) :
  Kokofresh.should_sync_item doc = false ->
  Kokofresh.create_wix_product doc method E w =
    (Normal tt,
     emit (EvLogger INFO [Lit "Skipping Wix sync for Item: "; Fmt (of_opt_str (item_code doc))])
       (create_started doc w)) /\
  Kokofresh.update_wix_product doc method E w = (Normal tt, update_started doc w) /\
  forall w', w' = snd (Kokofresh.create_wix_product doc method E w) \/
             w' = snd (Kokofresh.update_wix_product doc method E w) ->
    tabItem w' = tabItem w /\ custom_field w' = custom_field w /\ clock w' = clock w /\
    List.filter is_api_call (trace w') = List.filter is_api_call (trace w) /\
    List.filter is_store_event (trace w') = List.filter is_store_event (trace w).
Proof.
  intros Hs.
  assert (Hc : Kokofresh.create_wix_product doc method E w =
    (Normal tt,
     emit (EvLogger INFO [Lit "Skipping Wix sync for Item: "; Fmt (of_opt_str (item_code doc))])
       (create_started doc w))).
  { unfold Kokofresh.create_wix_product.
    cbv beta iota delta [bind enter try_except logger]. rewrite Hs. reflexivity. }
  assert (Hu : Kokofresh.update_wix_product doc method E w = (Normal tt, update_started doc w)).
  { unfold Kokofresh.update_wix_product.
    cbv beta iota delta [bind enter try_except logger]. rewrite Hs. reflexivity. }
  split; [exact Hc | split; [exact Hu |]].
  intros w' [-> | ->]; [rewrite Hc | rewrite Hu]; repeat split.
Qed.
Lemma table_kept_tick T L w : table_kept T L w -> table_kept T L (tick w).
Proof. exact (fun H => H). Qed.

Lemma table_kept_emit T L ev w :
  quiet_store ev -> table_kept T L w -> table_kept T L (emit ev w).
Proof. unfold quiet_store, table_kept. simpl. intros -> H. exact H. Qed.

Lemma table_kept_field T L w : table_kept T L w -> table_kept T L (with_custom_field true w).
Proof. exact (fun H => H). Qed.

Lemma table_kept_table T L n v w :
  quiet_store (EvSetValue n v) -> table_kept T L w ->
  table_kept T L (with_tabItem (alter (fun _ => v) n (tabItem w)) w).
Proof. intros H. discriminate H. Qed.

Ltac frame_table T L :=
  frame (table_kept_tick T L) (table_kept_emit T L) (table_kept_field T L) (table_kept_table T L).

Lemma api_calls_kept_tick L w : api_calls_kept L w -> api_calls_kept L (tick w).
Proof. exact (fun H => H). Qed.

Lemma api_calls_kept_emit L ev w :
  quiet_api ev -> api_calls_kept L w -> api_calls_kept L (emit ev w).
Proof. unfold quiet_api, api_calls_kept. simpl. intros -> H. exact H. Qed.

Lemma api_calls_kept_field L w : api_calls_kept L w -> api_calls_kept L (with_custom_field true w).
Proof. exact (fun H => H). Qed.

Lemma api_calls_kept_table L n v w :
  quiet_api (EvSetValue n v) -> api_calls_kept L w ->
  api_calls_kept L (with_tabItem (alter (fun _ => v) n (tabItem w)) w).
Proof. intros _ H. exact H. Qed.

Ltac frame_api L :=
  frame (api_calls_kept_tick L) (api_calls_kept_emit L) (api_calls_kept_field L)
        (api_calls_kept_table L).

Lemma try_bind_post (I : World -> Prop) {A B} (m : M A) (k : A -> M B) (h : exn -> M B) E w :
  I (snd (m E w)) -> (forall a, preserves I (k a)) -> (forall e, preserves I (h e)) ->
  I (snd (try_except (bind m k) h E w)).
Proof.
  intros Hm Hk Hh. unfold try_except, bind.
  destruct (m E w) as [[a | e] w1]; simpl in Hm.
  - specialize (Hk a E w1 Hm). destruct (k a E w1) as [[b | e] w2]; simpl in *.
    + exact Hk.
    + apply Hh, Hk.
  - apply Hh, Hm.
Qed.

(** What [get_wix_product_id] can return: the stored value, or [None] when
    the read raised. *)
Lemma kokofresh_get_id_run doc E w :
  exists v, Kokofresh.get_wix_product_id doc E w = (Normal v, tick w) /\
            (v = PyNone \/ v = default PyNone (tabItem w !! name doc)).
Proof.
  unfold Kokofresh.get_wix_product_id, try_except, db_get_value, prim.
  destruct (faults E (clock w) DbGetValue).
  - exists PyNone. split; [reflexivity | left; reflexivity].
  - eexists. split; [reflexivity | right; reflexivity].
Qed.

Lemma kokofresh_create_api_run p E w :
  api_calls_kept (EvCall (CreateProductApi p) :: List.filter is_api_call (trace w))
    (snd (Kokofresh.call_wix_create_product_api p E w)).
Proof.
  unfold Kokofresh.call_wix_create_product_api.
  rewrite (bind_normal _ _ E w tt (emit (EvCall (CreateProductApi p)) w) eq_refl).
  match goal with |- api_calls_kept ?L (snd (?m E ?w0)) =>
    assert (Hp : preserves (api_calls_kept L) m) by frame_api L end.
  apply Hp. reflexivity.
Qed.

Lemma kokofresh_create_run doc method E w :
  Kokofresh.should_sync_item doc = true ->
  Kokofresh.create_wix_product doc method E w =
  try_except
    (r <- Kokofresh.call_wix_create_product_api (Kokofresh.map_item_to_wix_product doc) ;;
     if fst r then
       product <- py_get (snd r) "product" (PyDict []) ;;
       wix_product_id <- py_get product "_id" PyNone ;;
       if truthy wix_product_id then
         Kokofresh.store_wix_product_id doc wix_product_id ;;
         logger INFO [Lit "Successfully created Wix product "; Fmt wix_product_id;
                      Lit " for Item "; Fmt (of_opt_str (item_code doc))] ;;
         msgprint
           [Lit "Product '"; Fmt (of_opt_str (item_name doc));
            Lit "' successfully synced to Wix!
Wix Product ID: "; Fmt wix_product_id]
           "Wix Sync Success" "green"
       else ret tt
     else
       error_msg <- (if truthy (snd r)
                     then py_get (snd r) "error" (PyStr "Unknown error")
                     else ret (PyStr "No response from Wix API")) ;;
       Kokofresh.handle_wix_api_error "create" (of_opt_str (item_code doc)) error_msg)
    (Kokofresh.create_failed doc) E (create_started doc w).
Proof.
  intros Hs. unfold Kokofresh.create_wix_product, create_started.
  rewrite (bind_normal _ _ E w tt _ eq_refl).
  rewrite (try_bind_normal _ _ _ E _ tt _ eq_refl).
  rewrite Hs. reflexivity.
Qed.

(** C4. When the create call of an eligible item fails
    ([call_wix_create_product_api] answers [False]), the run of
    [create_wix_product] leaves the id column as it was and neither enters
    [store_wix_product_id] nor writes a value.  So if the item had no id,
    the next sync of it, under any environment, again resolves no id, and
    the one API call it makes is a create call, not an update call. *)
Theorem failed_create_stores_nothing
    (doc : Item) (method : pyval) (E : Env) (w : World) (resp : pyval) (w2 : World) :
  Kokofresh.should_sync_item doc = true ->
  Kokofresh.call_wix_create_product_api (Kokofresh.map_item_to_wix_product doc) E
    (create_started doc w) = (Normal (false, resp), w2) ->
  let w' := snd (Kokofresh.create_wix_product doc method E w) in
  (tabItem w' = tabItem w /\
   List.filter is_store_event (trace w') = List.filter is_store_event (trace w)) /\
  (truthy (default PyNone (tabItem w !! name doc)) = false ->
   forall (E' : Env) (method' : pyval),
     (exists v wg,
        Kokofresh.get_wix_product_id doc E' (update_started doc w') = (Normal v, wg) /\
        truthy v = false) /\
     List.filter is_api_call (trace (snd (Kokofresh.update_wix_product doc method' E' w'))) =
       EvCall (CreateProductApi (Kokofresh.map_item_to_wix_product doc))
         :: List.filter is_api_call (trace w')).
Proof.
  intros Hs Hcall w'.
  set (T := tabItem w). set (L := List.filter is_store_event (trace w)).
  assert (Hkept : table_kept T L w').
  { subst w'. rewrite (kokofresh_create_run doc method E w Hs).
    rewrite (try_bind_normal _ _ _ E _ _ _ Hcall). cbv beta. simpl fst. simpl snd.
    cbv iota.
    assert (H2 : table_kept T L w2).
    { assert (Hp : preserves (table_kept T L)
                     (Kokofresh.call_wix_create_product_api (Kokofresh.map_item_to_wix_product doc))).
      { unfold_kokofresh. frame_table T L. }
      specialize (Hp E (create_started doc w)). rewrite Hcall in Hp. apply Hp.
      split; reflexivity. }
    apply (preserves_try (table_kept T L)); [| | exact H2].
    - unfold_kokofresh. frame_table T L.
    - unfold_kokofresh. frame_table T L. }
  split; [exact Hkept |].
  intros Hnone E' method'.
  destruct (kokofresh_get_id_run doc E' (update_started doc w')) as (v & Hg & Hv).
  assert (Hf : truthy v = false).
  { destruct Hv as [-> | ->]; [reflexivity |].
    simpl. destruct Hkept as [-> _]. exact Hnone. }
  split; [exists v, (tick (update_started doc w')); split; assumption |].
  rewrite (kokofresh_update_fallback_run doc method' E' w' v _ Hs Hg Hf).
  set (w3 := fallback_announced doc (tick (update_started doc w'))).
  set (L' := EvCall (CreateProductApi (Kokofresh.map_item_to_wix_product doc))
               :: List.filter is_api_call (trace w')).
  assert (Hc : api_calls_kept L' (snd (Kokofresh.create_wix_product doc method' E' w3))).
  { rewrite (kokofresh_create_run doc method' E' w3 Hs).
    apply (try_bind_post (api_calls_kept L')).
    - apply kokofresh_create_api_run.
    - unfold_kokofresh. frame_api L'.
    - unfold_kokofresh. frame_api L'. }
  unfold try_except.
  destruct (Kokofresh.create_wix_product doc method' E' w3) as [[a | e] w4]; simpl in *.
  - exact Hc.
  - assert (Hp : preserves (api_calls_kept L') (Kokofresh.update_failed doc e))
      by (unfold_kokofresh; frame_api L').
    apply Hp, Hc.
Qed.
Lemma id_kept_tick n v w : id_kept n v w -> id_kept n v (tick w).
Proof. exact (fun H => H). Qed.

Lemma id_kept_emit n v ev w : quiet_row n ev -> id_kept n v w -> id_kept n v (emit ev w).
Proof. intros _ H. exact H. Qed.

Lemma id_kept_field n v w : id_kept n v w -> id_kept n v (with_custom_field true w).
Proof. exact (fun H => H). Qed.

Lemma id_kept_table n v n' v' w :
  quiet_row n (EvSetValue n' v') -> id_kept n v w ->
  id_kept n v (with_tabItem (alter (fun _ => v') n' (tabItem w)) w).
Proof.
  unfold quiet_row, id_kept. simpl. intros Hne H.
  rewrite lookup_alter_ne; [exact H | exact Hne].
Qed.

Ltac frame_id n v :=
  frame (id_kept_tick n v) (id_kept_emit n v) (id_kept_field n v) (id_kept_table n v).

Lemma kokofresh_update_skip_run doc method E w :
  Kokofresh.should_sync_item doc = false ->
  Kokofresh.update_wix_product doc method E w = (Normal tt, update_started doc w).
Proof.
  intros Hs. unfold Kokofresh.update_wix_product.
  cbv beta iota delta [bind enter try_except logger]. rewrite Hs. reflexivity.
Qed.

Lemma nested_update_skip_run doc method E w :
  Nested.should_sync_item doc = false ->
  Nested.update_wix_product doc method E w = (Normal tt, update_started doc w).
Proof.
  intros Hs. unfold Nested.update_wix_product.
  cbv beta iota delta [bind enter try_except logger]. rewrite Hs. reflexivity.
Qed.

Lemma kokofresh_update_found_run doc method E w v w2 :
  Kokofresh.should_sync_item doc = true ->
  Kokofresh.get_wix_product_id doc E (update_started doc w) = (Normal v, w2) ->
  truthy v = true ->
  Kokofresh.update_wix_product doc method E w =
  try_except
    (r <- Kokofresh.call_wix_update_product_api v (Kokofresh.map_item_to_wix_product doc) ;;
     if fst r then
       logger INFO [Lit "Successfully updated Wix product "; Fmt v;
                    Lit " for Item "; Fmt (of_opt_str (item_code doc))] ;;
       msgprint
         [Lit "Product '"; Fmt (of_opt_str (item_name doc)); Lit "' successfully updated in Wix!"]
         "Wix Sync Success" "green"
     else
       error_msg <- (if truthy (snd r)
                     then py_get (snd r) "error" (PyStr "Unknown error")
                     else ret (PyStr "No response from Wix API")) ;;
       Kokofresh.handle_wix_api_error "update" (of_opt_str (item_code doc)) error_msg)
    (Kokofresh.update_failed doc) E w2.
Proof.
  intros Hs Hg Hv. unfold Kokofresh.update_wix_product.
  rewrite (bind_normal _ _ E w tt _ eq_refl).
  rewrite (try_bind_normal _ _ _ E _ tt _ eq_refl).
  rewrite Hs. simpl negb. cbv iota.
  unfold update_started in Hg. rewrite (try_bind_normal _ _ _ E _ _ _ Hg).
  cbv beta. rewrite Hv. reflexivity.
Qed.

Lemma nested_update_found_run doc method E w v w2 :
  Nested.should_sync_item doc = true ->
  Nested.get_wix_product_id doc E (update_started doc w) = (Normal v, w2) ->
  truthy v = true ->
  Nested.update_wix_product doc method E w =
  try_except
    (site_id <- Nested.get_wix_site_id ;;
     wix_product_data <- Nested.map_item_to_wix_product doc ;;
     response <- Nested.call_wix_update_product_api site_id v wix_product_data ;;
     ok <- Nested.response_succeeded response ;;
     if ok then
       logger INFO [Lit "Successfully updated Wix product "; Fmt v;
                    Lit " for Item "; Fmt (of_opt_str (item_code doc))]
     else
       error_msg <- (if truthy response
                     then py_get response "error" (PyStr "Unknown error")
                     else ret (PyStr "No response from Wix API")) ;;
       Nested.handle_wix_api_error "update" (of_opt_str (item_code doc)) error_msg)
    (Nested.update_failed doc) E w2.
Proof.
  intros Hs Hg Hv. unfold Nested.update_wix_product.
  rewrite (bind_normal _ _ E w tt _ eq_refl).
  rewrite (try_bind_normal _ _ _ E _ tt _ eq_refl).
  rewrite Hs. simpl negb. cbv iota.
  unfold update_started in Hg. rewrite (try_bind_normal _ _ _ E _ _ _ Hg).
  cbv beta. rewrite Hv. reflexivity.
Qed.

Lemma kokofresh_update_found_keeps_table doc method E w v w2 :
  Kokofresh.get_wix_product_id doc E (update_started doc w) = (Normal v, w2) ->
  truthy v = true ->
  table_kept (tabItem w) (List.filter is_store_event (trace w))
    (snd (Kokofresh.update_wix_product doc method E w)).
Proof.
  intros Hg Hv.
  set (T := tabItem w). set (L := List.filter is_store_event (trace w)).
  destruct (Kokofresh.should_sync_item doc) eqn:Hs.
  - rewrite (kokofresh_update_found_run doc method E w v w2 Hs Hg Hv).
    apply (preserves_try (table_kept T L)).
    + unfold_kokofresh. frame_table T L.
    + unfold_kokofresh. frame_table T L.
    + pose proof (kokofresh_get_id_keeps (table_kept T L) doc (table_kept_tick T L)
                    E (update_started doc w)) as Hk.
      rewrite Hg in Hk. apply Hk. split; reflexivity.
  - rewrite (kokofresh_update_skip_run doc method E w Hs). split; reflexivity.
Qed.

Lemma nested_update_found_keeps_table doc method E w v w2 :
  Nested.get_wix_product_id doc E (update_started doc w) = (Normal v, w2) ->
  truthy v = true ->
  table_kept (tabItem w) (List.filter is_store_event (trace w))
    (snd (Nested.update_wix_product doc method E w)).
Proof.
  intros Hg Hv.
  set (T := tabItem w). set (L := List.filter is_store_event (trace w)).
  destruct (Nested.should_sync_item doc) eqn:Hs.
  - rewrite (nested_update_found_run doc method E w v w2 Hs Hg Hv).
    apply (preserves_try (table_kept T L)).
    + unfold_nested. frame_table T L.
    + unfold_nested. frame_table T L.
    + pose proof (nested_get_id_keeps (table_kept T L) doc (table_kept_tick T L)
                    E (update_started doc w)) as Hk.
      rewrite Hg in Hk. apply Hk. split; reflexivity.
  - rewrite (nested_update_skip_run doc method E w Hs). split; reflexivity.
Qed.

(** One [on_update] event keeps the id of every row that has one, as long as
    the id can be read. *)
Lemma kokofresh_update_keeps_id n v doc method E w :
  truthy v = true -> id_read_works E -> id_kept n v w ->
  id_kept n v (snd (Kokofresh.update_wix_product doc method E w)).
Proof.
  intros Hv Hr Hw.
  destruct (String.eqb_spec (name doc) n) as [Hn | Hn].
  - destruct (Kokofresh.should_sync_item doc) eqn:Hs.
    + assert (Hg : Kokofresh.get_wix_product_id doc E (update_started doc w) =
                   (Normal v, tick (update_started doc w))).
      { unfold Kokofresh.get_wix_product_id, try_except, db_get_value, prim.
        rewrite Hr. simpl. rewrite Hn. unfold id_kept in Hw. rewrite Hw. reflexivity. }
      rewrite (kokofresh_update_found_run doc method E w v _ Hs Hg Hv).
      apply (preserves_try (id_kept n v)); [| | exact Hw].
      * unfold_kokofresh. frame_id n v.
      * unfold_kokofresh. frame_id n v.
    + rewrite (kokofresh_update_skip_run doc method E w Hs). exact Hw.
  - assert (Hp : preserves (id_kept n v) (Kokofresh.update_wix_product doc method)).
    { unfold_kokofresh. frame_id n v. }
    apply Hp, Hw.
Qed.

(** As far as the id can be read, a stored id is kept: when
    [update_wix_product] finds a stored id it leaves the id column as it was
    and neither enters [store_wix_product_id] nor writes a value, whether
    the update call succeeds or not; in both variants of the module.  Hence
    over any series of [on_update] events, on any documents and under any
    environments in which the id can be read, a row keeps the id it has. *)
Theorem stored_id_is_kept :
  (forall doc method E w v w2,
     Kokofresh.get_wix_product_id doc E (update_started doc w) = (Normal v, w2) ->
     truthy v = true ->
     let w' := snd (Kokofresh.update_wix_product doc method E w) in
     tabItem w' = tabItem w /\
     List.filter is_store_event (trace w') = List.filter is_store_event (trace w)) /\
  (forall doc method E w v w2,
     Nested.get_wix_product_id doc E (update_started doc w) = (Normal v, w2) ->
     truthy v = true ->
     let w' := snd (Nested.update_wix_product doc method E w) in
     tabItem w' = tabItem w /\
     List.filter is_store_event (trace w') = List.filter is_store_event (trace w)) /\
  (forall syncs n v w,
     truthy v = true ->
     tabItem w !! n = Some v ->
     (forall doc method E, In (doc, method, E) syncs -> id_read_works E) ->
     tabItem (run_updates syncs w) !! n = Some v).
Proof.
  split; [| split].
  - intros. apply (kokofresh_update_found_keeps_table doc method E w v w2); assumption.
  - intros. apply (nested_update_found_keeps_table doc method E w v w2); assumption.
  - intros syncs n v. induction syncs as [| [[doc method] E] rest IH]; intros w Hv Hw Hr.
    + exact Hw.
    + simpl. apply IH; [exact Hv | | intros; eapply Hr; right; eassumption].
      apply kokofresh_update_keeps_id; [exact Hv | eapply Hr; left; reflexivity | exact Hw].
Qed.

(** C9. A stored id can be overwritten.  [get_wix_product_id] answers None
    both when no id is stored and when the read fails (its bare [except]),
    and [update_wix_product] takes None for "no Wix product ID exists": for
    the widget, synced as [wix_0a1b2c3d], a save during which the read fails
    returns normally, makes a create call instead of an update call, and
    stores the id of the new product over the old one; in both variants of
    the module. *)
Theorem stored_id_can_be_replaced :
  tabItem site_synced !! "SKU1" = Some (PyStr "wix_0a1b2c3d") /\
  Kokofresh.should_sync_item item_widget = true /\
  fst (Kokofresh.update_wix_product item_widget PyNone env_read_down site_synced) = Normal tt /\
  tabItem (snd (Kokofresh.update_wix_product item_widget PyNone env_read_down site_synced))
    !! "SKU1" = Some (PyStr "wix_ffffffff") /\
  List.filter is_api_call
    (trace (snd (Kokofresh.update_wix_product item_widget PyNone env_read_down site_synced))) =
    [EvCall (CreateProductApi (Kokofresh.map_item_to_wix_product item_widget))] /\
  fst (Nested.update_wix_product item_widget PyNone env_read_down site_synced) = Normal tt /\
  tabItem (snd (Nested.update_wix_product item_widget PyNone env_read_down site_synced))
    !! "SKU1" = Some (PyStr "wix_product_ffffffff").
Proof. repeat split; vm_compute; reflexivity. Qed.
(** ** The field mapper *)

Lemma kokofresh_sku doc :
  sku_of (Kokofresh.map_item_to_wix_product doc) = Some (of_opt_str (item_code doc)).
Proof.
  unfold Kokofresh.map_item_to_wix_product, sku_of.
  destruct (truthy (of_opt_str (description doc))),
           (truthy (of_opt_num (weight_per_unit doc))); reflexivity.
Qed.

(** How a run of the mapper of the nested variant ends. *)
Lemma nested_map_run doc E w :
  exists r, Nested.map_item_to_wix_product doc E w = (r, match item_code doc with Some _ => tick w | None => w end) /\
  match r with
  | Normal p =>
      sku_of p = Some (of_opt_str (item_code doc)) /\
      amount_of p = Some (PyStr (rate_str (standard_rate doc)))
  | Raised _ => item_code doc = None \/ faults E (clock w) GetGlobalDefault <> None
  end.
Proof.
  unfold Nested.map_item_to_wix_product, Nested.generate_product_slug.
  destruct (item_code doc) as [s |]; simpl.
  2:{ eexists. split; [reflexivity | left; reflexivity]. }
  unfold bind, ret, get_global_default_currency, prim; simpl.
  destruct (faults E (clock w) GetGlobalDefault) eqn:Hf; simpl.
  { eexists. split; [reflexivity | right; congruence]. }
  eexists. split; [reflexivity |].
  destruct (truthy (of_opt_num (weight_per_unit doc))), (projected_qty doc) as [q |];
    try destruct (num_truthy q); split; reflexivity.
Qed.

(** C5. The variant of the payload carries the item's code as its sku, as
    it is.  The mapper of the hooked module is total; the mapper of the
    nested variant raises only for an item without a code (it cannot build
    the slug) or when the default currency cannot be read, and returns a
    payload with the same sku otherwise. *)
Theorem sku_is_item_code (doc : Item) :
  sku_of (Kokofresh.map_item_to_wix_product doc) = Some (of_opt_str (item_code doc)) /\
  forall E w,
    match fst (Nested.map_item_to_wix_product doc E w) with
    | Normal p => sku_of p = Some (of_opt_str (item_code doc))
    | Raised _ => item_code doc = None \/ faults E (clock w) GetGlobalDefault <> None
    end.
Proof.
  split; [apply kokofresh_sku |]. intros E w.
  destruct (nested_map_run doc E w) as (r & -> & Hr). simpl.
  destruct r; [apply Hr | exact Hr].
Qed.

(** C8. The payload is a function of the fields of the item that the mapper
    reads, and of nothing else: two calls on items that agree on these
    fields give the same payload, whatever the time, the hashes, the
    faults and the rest of the site are at each call.  The nested variant
    also reads the default currency of the site, which has to be the same
    at both calls. *)
Theorem mapping_is_stable (a b : Item) :
  same_mapped_fields a b ->
  Kokofresh.map_item_to_wix_product a = Kokofresh.map_item_to_wix_product b /\
  forall E1 E2 w1 w2 p1 p2,
    global_currency w1 = global_currency w2 ->
    fst (Nested.map_item_to_wix_product a E1 w1) = Normal p1 ->
    fst (Nested.map_item_to_wix_product b E2 w2) = Normal p2 ->
    p1 = p2.
Proof.
  intros (Hc & Hn & Hd & Hr & Hw & Hq). split.
  - unfold Kokofresh.map_item_to_wix_product. rewrite Hc, Hn, Hd, Hr, Hw. reflexivity.
  - intros E1 E2 w1 w2 p1 p2 Hcur.
    unfold Nested.map_item_to_wix_product, Nested.generate_product_slug.
    rewrite Hc, Hn, Hd, Hr, Hw, Hq.
    destruct (item_code b) as [s |]; simpl; [| discriminate].
    unfold bind, ret, get_global_default_currency, prim; simpl.
    destruct (faults E1 (clock w1) GetGlobalDefault); simpl; [discriminate |].
    destruct (faults E2 (clock w2) GetGlobalDefault); simpl; [discriminate |].
    rewrite Hcur. intros [= <-] [= <-]. reflexivity.
Qed.
(** ** What [str] of a number looks like *)

Lemma append_nonempty_r (s t : string) : t <> "" -> s ++ t <> "".
Proof. destruct s; simpl; [auto | discriminate]. Qed.

Lemma str_all_app p (s t : string) : str_all p (s ++ t) = str_all p s && str_all p t.
Proof. induction s as [| c s IH]; simpl; [reflexivity |]. rewrite IH. apply andb_assoc. Qed.

Lemma str_all_mono (p q : ascii -> bool) s :
  (forall c, p c = true -> q c = true) -> str_all p s = true -> str_all q s = true.
Proof.
  intros Hpq. induction s as [| c s IH]; simpl; [reflexivity |].
  intros [Hc Hs]%andb_prop. rewrite (Hpq c Hc), (IH Hs). reflexivity.
Qed.

Lemma str_all_uint d : str_all is_digit (NilEmpty.string_of_uint d) = true.
Proof. induction d; simpl; auto. Qed.

Lemma str_all_digits_of_N n : str_all is_digit (digits_of_N n) = true.
Proof. apply str_all_uint. Qed.

Lemma str_all_rstrip p s : str_all p s = true -> str_all p (rstrip_zeros s) = true.
Proof.
  induction s as [| c s IH]; simpl; [reflexivity |].
  intros [Hc Hs]%andb_prop. specialize (IH Hs).
  destruct (rstrip_zeros s); simpl in *.
  - destruct (Ascii.eqb c "0"); simpl; [reflexivity | rewrite Hc; reflexivity].
  - rewrite Hc. exact IH.
Qed.

Lemma str_all_substring p s : forall n m,
  str_all p s = true -> str_all p (substring n m s) = true.
Proof.
  induction s as [| c s IH]; intros n m; simpl.
  - destruct n, m; reflexivity.
  - intros [Hc Hs]%andb_prop. destruct n; [destruct m |]; simpl.
    + reflexivity.
    + rewrite Hc. apply IH, Hs.
    + apply IH, Hs.
Qed.

Lemma str_all_zeros n : str_all is_digit (zeros n) = true.
Proof. induction n; simpl; auto. Qed.

Lemma digit_is_plain c : is_digit c = true -> plain_char c = true.
Proof. unfold plain_char. intros ->. reflexivity. Qed.

Lemma plain_is_sci c : plain_char c = true -> sci_char c = true.
Proof. unfold sci_char. intros ->. reflexivity. Qed.

Lemma digits_plain s : str_all is_digit s = true -> str_all plain_char s = true.
Proof. apply str_all_mono, digit_is_plain. Qed.

Lemma float_digits_are_digits f : str_all is_digit (float_digits f) = true.
Proof.
  unfold float_digits. destruct (f_mant f =? 0)%N; [reflexivity |].
  apply str_all_rstrip, str_all_digits_of_N.
Qed.

Lemma uint_nonempty d : d <> Decimal.Nil -> NilEmpty.string_of_uint d <> "".
Proof. destruct d; simpl; congruence. Qed.

Lemma int_str_nonempty z : int_str z <> "".
Proof.
  unfold int_str. destruct z as [| p | p]; simpl; try discriminate.
  pose proof (DecimalPos.Unsigned.to_uint_nonnil p) as Hp.
  destruct (Pos.to_uint p); simpl; congruence.
Qed.

Lemma int_str_plain z : str_all plain_char (int_str z) = true.
Proof.
  assert (H : forall d, str_all plain_char (NilZero.string_of_uint d) = true).
  { intros d. unfold NilZero.string_of_uint.
    destruct d; try reflexivity; apply digits_plain, str_all_uint. }
  unfold int_str. destruct z as [| p | p]; simpl; [reflexivity | apply H | apply H].
Qed.

Lemma exp_str_sci e : str_all sci_char (exp_str e) = true.
Proof.
  unfold exp_str. rewrite str_all_app. apply andb_true_intro. split.
  - destruct (e <? 0); reflexivity.
  - destruct (String.length _ <? 2)%nat.
    + simpl. apply str_all_mono with (p := is_digit); [| apply str_all_digits_of_N].
      intros c Hc. apply plain_is_sci, digit_is_plain, Hc.
    + apply str_all_mono with (p := is_digit); [| apply str_all_digits_of_N].
      intros c Hc. apply plain_is_sci, digit_is_plain, Hc.
Qed.

(** The formatter in its fixed-point window. *)
Lemma format_fixed ds decpt :
  str_all is_digit ds = true -> (-4 <? decpt) && (decpt <=? 16) = true ->
  str_all plain_char (format_float_short ds decpt) = true.
Proof.
  intros Hd [H1 H2]%andb_prop. unfold format_float_short.
  apply Z.ltb_lt in H1. apply Z.leb_le in H2.
  destruct (Z.leb_spec decpt (-4)); [lia |].
  destruct (Z.ltb_spec 16 decpt); [lia |]. simpl orb. cbv iota.
  destruct (decpt <=? 0).
  - change ("0." ++ zeros (Z.to_nat (- decpt)) ++ ds)
      with (String "0" (String "." (zeros (Z.to_nat (- decpt)) ++ ds))).
    simpl. rewrite str_all_app, (digits_plain _ (str_all_zeros _)), (digits_plain _ Hd).
    reflexivity.
  - destruct (decpt <? _).
    + rewrite !str_all_app.
      rewrite (digits_plain _ (str_all_substring _ _ _ _ Hd)).
      rewrite (digits_plain _ (str_all_substring _ _ _ _ Hd)). reflexivity.
    + rewrite !str_all_app, (digits_plain _ Hd), (digits_plain _ (str_all_zeros _)).
      reflexivity.
Qed.

(** The formatter outside of it. *)
Lemma format_exponent ds decpt :
  (-4 <? decpt) && (decpt <=? 16) = false ->
  has_exponent (format_float_short ds decpt) = true.
Proof.
  intros H. unfold format_float_short, has_exponent.
  assert (Hc : (decpt <=? -4) || (16 <? decpt) = true).
  { destruct (Z.ltb_spec (-4) decpt), (Z.leb_spec decpt 16); try discriminate;
    destruct (Z.leb_spec decpt (-4)), (Z.ltb_spec 16 decpt); try reflexivity; lia. }
  rewrite Hc. rewrite str_all_app. simpl. rewrite andb_false_r. reflexivity.
Qed.

Lemma format_sci ds decpt :
  str_all is_digit ds = true -> str_all sci_char (format_float_short ds decpt) = true.
Proof.
  intros Hd.
  destruct ((decpt <=? -4) || (16 <? decpt)) eqn:Hc.
  - unfold format_float_short. rewrite Hc.
    rewrite str_all_app. apply andb_true_intro. split.
    + destruct ds as [| d [| d' rest]]; simpl in *; try reflexivity.
      * apply andb_prop in Hd as [Hd _]. rewrite (plain_is_sci _ (digit_is_plain _ Hd)).
        reflexivity.
      * apply andb_prop in Hd as [Hd [Hd' Hr]%andb_prop].
        rewrite (plain_is_sci _ (digit_is_plain _ Hd)), (plain_is_sci _ (digit_is_plain _ Hd')).
        simpl. apply str_all_mono with (p := is_digit); [| exact Hr].
        intros c Hcc. apply plain_is_sci, digit_is_plain, Hcc.
    + simpl. apply exp_str_sci.
  - apply str_all_mono with (p := plain_char); [apply plain_is_sci |].
    apply format_fixed; [exact Hd |].
    apply orb_false_elim in Hc as [Ha Hb].
    apply Z.leb_gt in Ha. apply Z.ltb_ge in Hb.
    apply andb_true_intro. split; [apply Z.ltb_lt | apply Z.leb_le]; lia.
Qed.

Lemma format_nonempty ds decpt : format_float_short ds decpt <> "".
Proof.
  unfold format_float_short.
  destruct ((decpt <=? -4) || (16 <? decpt)).
  - apply append_nonempty_r. discriminate.
  - destruct (decpt <=? 0); [discriminate |].
    destruct (decpt <? _).
    + apply append_nonempty_r. discriminate.
    + apply append_nonempty_r, append_nonempty_r. discriminate.
Qed.

Lemma num_str_nonempty r : num_str r <> "".
Proof.
  destruct r as [z | f]; simpl; [apply int_str_nonempty |].
  unfold float_str. apply append_nonempty_r, format_nonempty.
Qed.

Lemma rate_str_truthy o : truthy (PyStr (rate_str o)) = true.
Proof.
  simpl. destruct o as [r |]; [| reflexivity]. simpl.
  destruct (String.eqb_spec (num_str r) ""); [| reflexivity].
  exfalso. eapply num_str_nonempty; eassumption.
Qed.
Lemma str_truthy s : s <> "" -> truthy (PyStr s) = true.
Proof. intros H. simpl. destruct (String.eqb_spec s ""); [contradiction | reflexivity]. Qed.

(** The name of the payload: the item's name, or its code when the name is
    missing or empty. *)
Lemma name_or_code_truthy (doc : Item) s :
  item_code doc = Some s -> s <> "" ->
  exists n, py_or (of_opt_str (item_name doc)) (of_opt_str (item_code doc)) = PyStr n /\ n <> "".
Proof.
  intros Hc Hs. rewrite Hc. unfold py_or.
  destruct (item_name doc) as [n |]; simpl.
  - destruct (String.eqb_spec n ""); simpl; [exists s | exists n]; split; auto.
  - exists s. split; auto.
Qed.

(** C10. For an item whose code is a non-empty string, the payload of the
    mapper of the hooked module passes [validate_wix_product_data] with no
    error: it has a non-empty name, the product type ["PHYSICAL"] and one
    variant, whose price amount is a non-empty string. *)
Theorem mapped_payload_validates (doc : Item) (s : string) :
  item_code doc = Some s -> s <> "" ->
  let payload := Kokofresh.map_item_to_wix_product doc in
  (forall E w, validate_wix_product_data payload E w = (Normal (true, []), w)) /\
  (exists n, name_of payload = Some (PyStr n) /\ n <> "") /\
  product_type_of payload = Some (PyStr "PHYSICAL") /\
  (exists variant amount,
     variants_of payload = Some (PyList [variant]) /\
     amount_of payload = Some (PyStr amount) /\ amount <> "").
Proof.
  intros Hc Hs payload.
  destruct (name_or_code_truthy doc s Hc Hs) as (n & Hn & Hne).
  pose proof (str_truthy n Hne) as Htn.
  pose proof (rate_str_truthy (standard_rate doc)) as Hta.
  subst payload. unfold Kokofresh.map_item_to_wix_product. rewrite Hn.
  remember (rate_str (standard_rate doc)) as amount eqn:Ea. clear Ea.
  cbn in Htn, Hta.
  assert (Hamount : amount <> "").
  { destruct (String.eqb_spec amount ""); [discriminate | assumption]. }
  destruct (truthy (of_opt_str (description doc))),
           (truthy (of_opt_num (weight_per_unit doc)));
    (split; [| split; [| split]];
     [ intros E w; cbn; rewrite Htn; cbn; rewrite Hta; reflexivity
     | exists n; split; [reflexivity | exact Hne]
     | reflexivity
     | eexists; eexists; split; [reflexivity | split; [reflexivity | exact Hamount]] ]).
Qed.
Lemma float_str_sci f : str_all sci_char (float_str f) = true.
Proof.
  unfold float_str. rewrite str_all_app, (format_sci _ _ (float_digits_are_digits f)).
  destruct (f_neg f); reflexivity.
Qed.

Lemma float_str_plain f :
  prints_fixed (NFloat f) = true -> plain_decimal (float_str f) = true.
Proof.
  intros H. unfold plain_decimal. apply andb_true_intro. split.
  - destruct (String.eqb_spec (float_str f) "") as [He |]; [| reflexivity].
    exfalso. exact (num_str_nonempty (NFloat f) He).
  - unfold float_str.
    rewrite str_all_app, (format_fixed _ _ (float_digits_are_digits f) H).
    destruct (f_neg f); reflexivity.
Qed.

Lemma float_str_exponent f :
  prints_fixed (NFloat f) = false -> has_exponent (float_str f) = true.
Proof.
  intros H. pose proof (format_exponent (float_digits f) (float_decpt f) H) as He.
  unfold has_exponent, float_str in *. rewrite str_all_app.
  apply negb_true_iff in He. rewrite He, andb_false_r. reflexivity.
Qed.

(** *** How many digits a number has *)

Lemma digit_lu_value r d :
  (r < 10)%N -> DecimalPos.Unsigned.of_lu (digit_lu r d) = (r + 10 * DecimalPos.Unsigned.of_lu d)%N.
Proof.
  intros H.
  destruct r as [| p]; [reflexivity |].
  do 4 (destruct p as [p | p |]; try reflexivity; try lia).
Qed.

Lemma digit_lu_size r d : Decimal.nb_digits (digit_lu r d) = S (Decimal.nb_digits d).
Proof.
  destruct r as [| p]; [reflexivity |].
  do 4 (destruct p as [p | p |]; try reflexivity).
Qed.

Lemma digits_lu_value k : forall n,
  (n < 10 ^ N.of_nat k)%N -> DecimalPos.Unsigned.of_lu (digits_lu k n) = n.
Proof.
  induction k as [| k IH]; intros n Hn.
  - simpl in *. lia.
  - cbn [digits_lu]. rewrite digit_lu_value by (apply N.mod_lt; discriminate).
    rewrite IH.
    + pose proof (N.div_mod n 10). lia.
    + rewrite Nat2N.inj_succ, N.pow_succ_r' in Hn.
      apply N.Div0.div_lt_upper_bound. exact Hn.
Qed.

Lemma digits_lu_size k n : Decimal.nb_digits (digits_lu k n) = k.
Proof.
  revert n. induction k as [| k IH]; intros n; [reflexivity |].
  cbn [digits_lu]. rewrite digit_lu_size, IH. reflexivity.
Qed.

Lemma of_lu_lt d :
  (DecimalPos.Unsigned.of_lu d < 10 ^ N.of_nat (Decimal.nb_digits d))%N.
Proof.
  induction d; cbn [DecimalPos.Unsigned.of_lu Decimal.nb_digits];
    rewrite ?Nat2N.inj_succ, ?N.pow_succ_r'; simpl N.of_nat; simpl N.pow; lia.
Qed.

Lemma uint_length d : String.length (NilEmpty.string_of_uint d) = Decimal.nb_digits d.
Proof. induction d; simpl; congruence. Qed.

(** A number that is not zero has as many digits as its size asks for. *)
Lemma digits_of_N_bounds (n : N) :
  n <> 0%N ->
  let k := String.length (digits_of_N n) in
  (10 ^ N.of_nat (k - 1) <= n < 10 ^ N.of_nat k)%N.
Proof.
  intros Hn k. subst k. unfold digits_of_N. rewrite uint_length.
  set (d := N.to_uint n).
  assert (Hval : N.of_uint d = n) by apply DecimalN.Unsigned.of_to.
  split.
  - destruct (N.le_gt_cases (10 ^ N.of_nat (Decimal.nb_digits d - 1)) n) as [H | H];
      [exact H | exfalso].
    set (k := (Decimal.nb_digits d - 1)%nat) in *.
    set (e := Decimal.rev (digits_lu k n)).
    assert (He : N.of_uint e = n).
    { unfold e, N.of_uint. rewrite DecimalPos.Unsigned.of_lu_rev. apply digits_lu_value, H. }
    assert (Hk : Decimal.nb_digits e = k).
    { unfold e. rewrite DecimalFacts.nb_digits_rev. apply digits_lu_size. }
    assert (Hd : d = Decimal.unorm e).
    { unfold d. rewrite <- He at 1. apply DecimalN.Unsigned.to_of. }
    destruct k as [| k'] eqn:Ek.
    + assert (e = Decimal.Nil) by (apply DecimalFacts.nb_digits_0; exact Hk).
      subst e. rewrite H0 in He. simpl in He. congruence.
    + assert (Hne : e <> Decimal.Nil) by (apply DecimalFacts.nb_digits_n0; lia).
      pose proof (DecimalFacts.nb_digits_unorm e Hne) as Hle.
      rewrite <- Hd in Hle. lia.
  - rewrite <- Hval at 1. unfold N.of_uint.
    rewrite DecimalPos.Unsigned.of_uint_alt, <- (DecimalFacts.nb_digits_rev d).
    apply of_lu_lt.
Qed.

(** *** The window of fixed-point notation, by value *)

Lemma float_abs_value f :
  (Qabs (float_value f) == inject_Z (Z.of_N (f_mant f)) * Qpower 10 (f_exp10 f))%Q.
Proof.
  unfold float_value.
  assert (Hm : (0 <= inject_Z (Z.of_N (f_mant f)))%Q).
  { change 0%Q with (inject_Z 0). rewrite <- Zle_Qle. lia. }
  assert (Hp : (0 <= Qpower 10 (f_exp10 f))%Q) by (apply Qpower_0_le; discriminate).
  rewrite !Qabs_Qmult, (Qabs_pos _ Hm), (Qabs_pos _ Hp).
  destruct (f_neg f).
  - change (Qabs (-1)) with 1%Q. ring.
  - change (Qabs 1) with 1%Q. ring.
Qed.

Lemma float_value_zero f : (float_value f == 0)%Q <-> f_mant f = 0%N.
Proof.
  split.
  - intros H. apply Qabs_wd in H. rewrite float_abs_value in H. simpl Qabs in H.
    apply Qmult_integral in H. destruct H as [H | H].
    + unfold Qeq in H. simpl in H. lia.
    + exfalso. revert H. apply Qpower_not_0. discriminate.
  - intros H. unfold float_value. rewrite H. simpl. ring.
Qed.

Lemma pow10_inject (n : nat) : (inject_Z (Z.of_N (10 ^ N.of_nat n)) == Qpower 10 (Z.of_nat n))%Q.
Proof.
  rewrite N2Z.inj_pow, nat_N_Z. change (Z.of_N 10) with 10%Z.
  rewrite Zpower_Qpower by lia. reflexivity.
Qed.

(** The value of a float that is not zero lies in the decade its decimal
    point names. *)
Lemma float_decade f :
  f_mant f <> 0%N ->
  (Qpower 10 (float_decpt f - 1) <= Qabs (float_value f) /\
   Qabs (float_value f) < Qpower 10 (float_decpt f))%Q.
Proof.
  intros Hm. rewrite float_abs_value. unfold float_decpt.
  destruct (N.eqb_spec (f_mant f) 0%N) as [H0 | _]; [contradiction |].
  pose proof (digits_of_N_bounds (f_mant f) Hm) as [Hlo Hhi]. cbv zeta in Hlo, Hhi.
  set (k := String.length (digits_of_N (f_mant f))) in *.
  assert (Hk : (0 < k)%nat).
  { destruct k; [| lia]. simpl in Hhi. lia. }
  assert (Hpos : (0 < Qpower 10 (f_exp10 f))%Q) by (apply Qpower_0_lt; reflexivity).
  assert (H10 : ~ (10 == 0)%Q) by discriminate.
  split.
  - replace (Z.of_nat k + f_exp10 f - 1) with (Z.of_nat (k - 1) + f_exp10 f) by lia.
    rewrite (Qpower_plus _ _ _ H10), <- pow10_inject.
    apply Qmult_le_compat_r; [| apply Qlt_le_weak, Hpos].
    rewrite <- Zle_Qle. lia.
  - rewrite (Qpower_plus _ _ _ H10), <- pow10_inject.
    apply Qmult_lt_compat_r; [exact Hpos |].
    rewrite <- Zlt_Qlt. lia.
Qed.

Lemma pow10_mono a b : a <= b -> (Qpower 10 a <= Qpower 10 b)%Q.
Proof. intros H. apply Qpower_le_compat_l; [exact H | discriminate]. Qed.

(** [repr] prints in fixed-point notation exactly the floats of the
    window. *)
Lemma prints_fixed_window f : prints_fixed (NFloat f) = true <-> in_fixed_window f.
Proof.
  unfold in_fixed_window. cbn [prints_fixed].
  destruct (N.eq_dec (f_mant f) 0%N) as [H0 | Hm].
  - split; [intros _; left; apply float_value_zero, H0 |].
    intros _. unfold float_decpt. rewrite H0. reflexivity.
  - pose proof (float_decade f Hm) as [Hlo Hhi].
    assert (E4 : (Qpower 10 (-4) == 1 # 10000)%Q) by reflexivity.
    assert (E16 : (Qpower 10 16 == 10000000000000000)%Q) by reflexivity.
    rewrite andb_true_iff, Z.ltb_lt, Z.leb_le. split.
    + intros [H1 H2]. right. split.
      * rewrite <- E4. eapply Qle_trans; [| exact Hlo]. apply pow10_mono. lia.
      * rewrite <- E16. eapply Qlt_le_trans; [exact Hhi |]. apply pow10_mono. exact H2.
    + intros [H | [H1 H2]]; [apply float_value_zero in H; contradiction |].
      split.
      * destruct (Z.lt_ge_cases (-4) (float_decpt f)) as [Hc | Hc]; [exact Hc | exfalso].
        apply (Qlt_irrefl (Qabs (float_value f))).
        eapply Qlt_le_trans; [exact Hhi |].
        eapply Qle_trans; [| exact H1]. rewrite <- E4. apply pow10_mono. exact Hc.
      * destruct (Z.le_gt_cases (float_decpt f) 16) as [Hc | Hc]; [exact Hc | exfalso].
        apply (Qlt_irrefl (Qabs (float_value f))).
        eapply Qlt_le_trans; [exact H2 |].
        eapply Qle_trans; [| exact Hlo]. rewrite <- E16. apply pow10_mono. lia.
Qed.

Lemma kokofresh_amount doc :
  amount_of (Kokofresh.map_item_to_wix_product doc) =
  Some (PyStr (rate_str (standard_rate doc))).
Proof.
  unfold Kokofresh.map_item_to_wix_product, amount_of.
  destruct (truthy (of_opt_str (description doc))),
           (truthy (of_opt_num (weight_per_unit doc))); reflexivity.
Qed.

(** C7, as the code has it. For an item that has a standard rate, the price
    amount of the payload is [str] of the rate, a function of the value
    alone: it is made of digits, a sign, a point and, in scientific
    notation, an exponent, so there is no separator and no locale in it.
    It is in fixed-point notation for an int and for a float whose value is
    zero or of a magnitude from [1e-4] up to, not including, [1e16]; for
    any other float it has an exponent. *)
Theorem amount_is_str_of_rate (doc : Item) (r : pynum) :
  standard_rate doc = Some r ->
  amount_of (Kokofresh.map_item_to_wix_product doc) = Some (PyStr (num_str r)) /\
  (forall E w p,
     fst (Nested.map_item_to_wix_product doc E w) = Normal p ->
     amount_of p = Some (PyStr (num_str r))) /\
  str_all sci_char (num_str r) = true /\
  match r with
  | NInt z => plain_decimal (int_str z) = true
  | NFloat f =>
      (in_fixed_window f -> plain_decimal (float_str f) = true) /\
      (~ in_fixed_window f -> has_exponent (float_str f) = true)
  end.
Proof.
  intros Hr.
  assert (Hk : amount_of (Kokofresh.map_item_to_wix_product doc) = Some (PyStr (num_str r))).
  { rewrite kokofresh_amount, Hr. reflexivity. }
  split; [exact Hk | split].
  - intros E w p Hp. destruct (nested_map_run doc E w) as (r' & Hr' & Hs).
    rewrite Hr' in Hp. simpl in Hp. subst r'. destruct Hs as [_ Ha].
    rewrite Ha, Hr. reflexivity.
  - destruct r as [z | f]; simpl.
    + split; [apply str_all_mono with (p := plain_char);
              [apply plain_is_sci | apply int_str_plain] |].
      unfold plain_decimal. rewrite int_str_plain, andb_true_r.
      destruct (String.eqb_spec (int_str z) "") as [He |]; [| reflexivity].
      exfalso. exact (int_str_nonempty z He).
    + split; [apply float_str_sci | split].
      * intros Hw. apply float_str_plain, prints_fixed_window, Hw.
      * intros Hw. apply float_str_exponent.
        destruct (prints_fixed (NFloat f)) eqn:Hp; [| reflexivity].
        exfalso. apply Hw, prints_fixed_window, Hp.
Qed.

(** C7, as stated, fails: a sellable item priced at [1e-05] gets the amount
    ["1e-05"], which is scientific notation. *)
Lemma amount_can_be_scientific :
  Kokofresh.should_sync_item item_tiny_rate = true /\
  amount_of (Kokofresh.map_item_to_wix_product item_tiny_rate) = Some (PyStr "1e-05") /\
  plain_decimal "1e-05" = false /\
  has_exponent "1e-05" = true.
Proof. repeat split. Qed.
(** ** The statements at work on sample inputs *)

(** The widget, inserted and never synced, goes through the create path
    when it is saved. *)
Lemma update_without_id_creates_witness :
  Kokofresh.should_sync_item item_widget = true /\
  Nested.should_sync_item item_widget = true /\
  List.filter is_update_call
    (trace (snd (Kokofresh.update_wix_product item_widget PyNone env_ok site_fresh))) = [] /\
  fst (Kokofresh.update_wix_product item_widget PyNone env_ok site_fresh) = Normal tt /\
  List.filter is_update_call
    (trace (snd (Nested.update_wix_product item_widget PyNone env_ok site_fresh))) = [] /\
  fst (Nested.update_wix_product item_widget PyNone env_ok site_fresh) = Normal tt.
Proof.
  pose proof (update_without_id_creates item_widget PyNone env_ok site_fresh PyNone
                (tick (update_started item_widget site_fresh))) as [Hk Hn].
  assert (Hok : log_error_works env_ok) by (intros t; reflexivity).
  assert (Hgk : Kokofresh.get_wix_product_id item_widget env_ok
                  (update_started item_widget site_fresh) =
                (Normal PyNone, tick (update_started item_widget site_fresh)))
    by (vm_compute; reflexivity).
  assert (Hgn : Nested.get_wix_product_id item_widget env_ok
                  (update_started item_widget site_fresh) =
                (Normal PyNone, tick (update_started item_widget site_fresh)))
    by (vm_compute; reflexivity).
  destruct (Hk eq_refl Hgk eq_refl) as (_ & Hk2 & Hk3).
  destruct (Hn eq_refl Hgn eq_refl) as (_ & Hn2 & Hn3).
  split; [reflexivity | split; [reflexivity |]].
  split; [exact Hk2 | split; [exact (Hk3 Hok) | split; [exact Hn2 | exact (Hn3 Hok)]]].
Defined.

(** With every framework call but the error log raising, both hooks of the
    widget return normally. *)
Lemma sync_failures_are_contained_witness :
  log_error_works env_failing /\
  fst (Kokofresh.create_wix_product item_widget PyNone env_failing site_fresh) = Normal tt /\
  fst (Kokofresh.update_wix_product item_widget PyNone env_failing site_synced) = Normal tt.
Proof.
  assert (Hok : log_error_works env_failing) by (intros t; reflexivity).
  split; [exact Hok | split].
  - exact (proj1 (sync_failures_are_contained item_widget PyNone env_failing site_fresh Hok)).
  - exact (proj2 (sync_failures_are_contained item_widget PyNone env_failing site_synced Hok)).
Defined.

(** The widget is eligible. *)
Lemma should_sync_item_iff_witness :
  Kokofresh.should_sync_item item_widget = true /\
  Nested.should_sync_item item_widget = true.
Proof.
  pose proof (should_sync_item_iff item_widget) as [Hk Hn].
  assert (H : disabled item_widget = 0 /\ is_sales_item item_widget <> 0 /\
              exists r, standard_rate item_widget = Some r /\ (0 < num_value r)%Q).
  { split; [reflexivity | split; [discriminate |]].
    exists (NFloat (PyF false 1999 (-2))). split; reflexivity. }
  split; [apply Hk, H | apply Hn, H].
Defined.

(** The create call of the widget fails; its row stays empty, and the next
    save issues a create call again. *)
Lemma failed_create_stores_nothing_witness :
  Kokofresh.should_sync_item item_widget = true /\
  tabItem (snd (Kokofresh.create_wix_product item_widget PyNone env_failing site_fresh)) =
    tabItem site_fresh /\
  List.filter is_api_call
    (trace (snd (Kokofresh.update_wix_product item_widget PyNone env_ok
       (snd (Kokofresh.create_wix_product item_widget PyNone env_failing site_fresh))))) =
  [EvCall (CreateProductApi (Kokofresh.map_item_to_wix_product item_widget));
   EvCall (CreateProductApi (Kokofresh.map_item_to_wix_product item_widget))].
Proof.
  assert (Hcall :
    Kokofresh.call_wix_create_product_api (Kokofresh.map_item_to_wix_product item_widget)
      env_failing (create_started item_widget site_fresh) =
    (Normal (false, PyDict [("error", PyStr "boom")]),
     snd (Kokofresh.call_wix_create_product_api
            (Kokofresh.map_item_to_wix_product item_widget)
            env_failing (create_started item_widget site_fresh))))
    by (vm_compute; reflexivity).
  pose proof (failed_create_stores_nothing item_widget PyNone env_failing site_fresh _ _
                eq_refl Hcall) as [[Ht _] Hnext].
  assert (Hnone : truthy (default PyNone (tabItem site_fresh !! name item_widget)) = false)
    by (vm_compute; reflexivity).
  destruct (Hnext Hnone env_ok PyNone) as [_ Hapi].
  split; [reflexivity | split; [exact Ht |]].
  rewrite Hapi. vm_compute. reflexivity.
Defined.

(** The disabled widget is skipped. *)
Lemma ineligible_is_skipped_witness :
  Kokofresh.should_sync_item item_widget_disabled = false /\
  Kokofresh.update_wix_product item_widget_disabled PyNone env_ok site_synced =
    (Normal tt, update_started item_widget_disabled site_synced).
Proof.
  split; [reflexivity |].
  exact (proj1 (proj2 (ineligible_is_skipped item_widget_disabled PyNone env_ok site_synced
                         eq_refl))).
Defined.

(** Renaming and disabling the record of the widget does not change its
    payload. *)
Lemma mapping_is_stable_witness :
  same_mapped_fields item_widget item_widget_disabled /\
  Kokofresh.map_item_to_wix_product item_widget =
  Kokofresh.map_item_to_wix_product item_widget_disabled.
Proof.
  assert (H : same_mapped_fields item_widget item_widget_disabled)
    by (repeat split).
  split; [exact H | exact (proj1 (mapping_is_stable item_widget item_widget_disabled H))].
Defined.

(** The synced widget keeps its id over two saves, the second one with
    the API down. *)
Lemma stored_id_is_kept_witness :
  truthy (PyStr "wix_0a1b2c3d") = true /\
  tabItem (snd (Kokofresh.update_wix_product item_widget PyNone env_ok site_synced)) =
    tabItem site_synced /\
  tabItem (snd (Nested.update_wix_product item_widget PyNone env_ok site_synced)) =
    tabItem site_synced /\
  tabItem (run_updates [(item_widget, PyNone, env_ok); (item_widget, PyNone, env_api_down)]
             site_synced) !! "SKU1" = Some (PyStr "wix_0a1b2c3d").
Proof.
  pose proof stored_id_is_kept as (Hk & Hn & Hseq).
  assert (Hgk : Kokofresh.get_wix_product_id item_widget env_ok
                  (update_started item_widget site_synced) =
                (Normal (PyStr "wix_0a1b2c3d"), tick (update_started item_widget site_synced)))
    by (vm_compute; reflexivity).
  assert (Hgn : Nested.get_wix_product_id item_widget env_ok
                  (update_started item_widget site_synced) =
                (Normal (PyStr "wix_0a1b2c3d"), tick (update_started item_widget site_synced)))
    by (vm_compute; reflexivity).
  split; [reflexivity | split; [| split]].
  - exact (proj1 (Hk item_widget PyNone env_ok site_synced _ _ Hgk eq_refl)).
  - exact (proj1 (Hn item_widget PyNone env_ok site_synced _ _ Hgn eq_refl)).
  - apply Hseq; [reflexivity | vm_compute; reflexivity |].
    intros doc method E [[= <- <- <-] | [[= <- <- <-] | []]]; intros t; reflexivity.
Defined.

(** The payload of the widget validates. *)
Lemma mapped_payload_validates_witness :
  item_code item_widget = Some "SKU1" /\
  validate_wix_product_data (Kokofresh.map_item_to_wix_product item_widget) env_ok site_fresh =
    (Normal (true, []), site_fresh).
Proof.
  split; [reflexivity |].
  assert (Hs : "SKU1" <> "") by discriminate.
  exact (proj1 (mapped_payload_validates item_widget "SKU1" eq_refl Hs) env_ok site_fresh).
Defined.

(** The skus of two sample items. *)
Lemma sku_is_item_code_witness :
  sku_of (Kokofresh.map_item_to_wix_product item_widget) = Some (PyStr "SKU1") /\
  sku_of (Kokofresh.map_item_to_wix_product item_tiny_rate) = Some (PyStr "SKU4").
Proof.
  split.
  - exact (proj1 (sku_is_item_code item_widget)).
  - exact (proj1 (sku_is_item_code item_tiny_rate)).
Defined.

(** The amount of the widget is ["19.99"] in both variants, a plain
    decimal since 19.99 lies in the window. *)
Lemma amount_is_str_of_rate_witness :
  amount_of (Kokofresh.map_item_to_wix_product item_widget) = Some (PyStr "19.99") /\
  (forall p,
     fst (Nested.map_item_to_wix_product item_widget env_ok site_synced) = Normal p ->
     amount_of p = Some (PyStr "19.99")) /\
  plain_decimal "19.99" = true.
Proof.
  pose proof (amount_is_str_of_rate item_widget (NFloat (PyF false 1999 (-2))) eq_refl)
    as (Hk & Hn & _ & Hfix & _).
  assert (Hw : in_fixed_window (PyF false 1999 (-2))).
  { right. split; vm_compute; [intros H; discriminate H | reflexivity]. }
  split; [exact Hk | split; [exact (Hn env_ok site_synced) | exact (Hfix Hw)]].
Defined.

(** * More of the code: properties *)

(** ** The helpers of [wix_api.py] *)

Lemma try_except_returns {A} (body : M A) (h : exn -> M A) E w :
  (forall e w', exists a, fst (h e E w') = Normal a) ->
  exists a, fst (try_except body h E w) = Normal a.
Proof.
  intros Hh. unfold try_except.
  destruct (body E w) as [[a | e] w']; [exists a; reflexivity | apply Hh].
Qed.

Lemma logged_returns {A} l msg (a : A) E w : fst ((logger l msg ;; ret a) E w) = Normal a.
Proof. reflexivity. Qed.

(** X1. The helpers of both variants of [wix_api.py] never raise: storing and
    reading the id, creating the custom field, and the two API calls return
    normally whichever framework call fails underneath, because each one
    catches every exception of its body. *)
Theorem helpers_never_raise (doc : Item) (v p : pyval) (E : Env) (w : World) :
  (fst (Kokofresh.store_wix_product_id doc v E w) = Normal tt /\
   (exists x, fst (Kokofresh.get_wix_product_id doc E w) = Normal x) /\
   fst (Kokofresh.create_wix_product_id_field E w) = Normal tt /\
   (exists r, fst (Kokofresh.call_wix_create_product_api p E w) = Normal r) /\
   (exists r, fst (Kokofresh.call_wix_update_product_api v p E w) = Normal r)) /\
  (fst (Nested.store_wix_product_id doc v E w) = Normal tt /\
   (exists x, fst (Nested.get_wix_product_id doc E w) = Normal x) /\
   fst (Nested.create_wix_product_id_field E w) = Normal tt /\
   (exists r, fst (Nested.call_wix_create_product_api v p E w) = Normal r) /\
   (exists r, fst (Nested.call_wix_update_product_api v v p E w) = Normal r)).
Proof.
  assert (Hunit : forall (body : M unit) l (msg : exn -> list frag) E0 w0,
            fst (try_except body (fun e => logger l (msg e)) E0 w0) = Normal tt).
  { intros body l msg E0 w0. unfold try_except.
    destruct (body E0 w0) as [[[] | e] w']; reflexivity. }
  split.
  - split; [| split; [| split; [| split]]].
    + unfold Kokofresh.store_wix_product_id. rewrite (bind_normal _ _ E w tt _ eq_refl).
      apply Hunit.
    + apply try_except_returns. intros. exists PyNone. reflexivity.
    + apply Hunit.
    + unfold Kokofresh.call_wix_create_product_api. rewrite (bind_normal _ _ E w tt _ eq_refl).
      apply try_except_returns. intros. eexists. apply logged_returns.
    + unfold Kokofresh.call_wix_update_product_api. rewrite (bind_normal _ _ E w tt _ eq_refl).
      apply try_except_returns. intros. eexists. apply logged_returns.
  - split; [| split; [| split; [| split]]].
    + unfold Nested.store_wix_product_id. rewrite (bind_normal _ _ E w tt _ eq_refl).
      apply Hunit.
    + apply try_except_returns. intros. exists PyNone. reflexivity.
    + apply Hunit.
    + unfold Nested.call_wix_create_product_api. rewrite (bind_normal _ _ E w tt _ eq_refl).
      apply try_except_returns. intros. eexists. apply logged_returns.
    + unfold Nested.call_wix_update_product_api. rewrite (bind_normal _ _ E w tt _ eq_refl).
      apply try_except_returns. intros. eexists. apply logged_returns.
Qed.

Lemma row_is_tick n x w : row_is n x w -> row_is n x (tick w).
Proof. exact (fun H => H). Qed.

Lemma row_is_emit n x ev w : quiet_for_row n x ev -> row_is n x w -> row_is n x (emit ev w).
Proof. intros _ H. exact H. Qed.

Lemma row_is_field n x w : row_is n x w -> row_is n x (with_custom_field true w).
Proof. exact (fun H => H). Qed.

Lemma row_is_table n x n' v' w :
  quiet_for_row n x (EvSetValue n' v') -> row_is n x w ->
  row_is n x (with_tabItem (alter (fun _ => v') n' (tabItem w)) w).
Proof.
  unfold quiet_for_row, row_is. simpl. intros [Hne | ->] H.
  - rewrite lookup_alter_ne; [exact H | exact Hne].
  - destruct (decide (n' = n)) as [-> | Hne].
    + rewrite lookup_alter_eq, H. reflexivity.
    + rewrite lookup_alter_ne; [exact H | exact Hne].
Qed.

Ltac frame_row n x :=
  frame (row_is_tick n x) (row_is_emit n x) (row_is_field n x) (row_is_table n x).
(** X2. The create and update hooks of both variants write to the row of their
    own document only: the id column of any other document, and of a document
    whose row is missing, is after the hook what it was before, whatever
    fails in between. *)
Theorem sync_touches_one_row (doc : Item) (method : pyval) (E : Env) (w : World) (n : string) :
  name doc <> n \/ tabItem w !! n = None ->
  tabItem (snd (Kokofresh.create_wix_product doc method E w)) !! n = tabItem w !! n /\
  tabItem (snd (Kokofresh.update_wix_product doc method E w)) !! n = tabItem w !! n /\
  tabItem (snd (Nested.create_wix_product doc method E w)) !! n = tabItem w !! n /\
  tabItem (snd (Nested.update_wix_product doc method E w)) !! n = tabItem w !! n.
Proof.
  intros H. set (x := tabItem w !! n) in *.
  assert (Hw : row_is n x w) by reflexivity.
  repeat split.
  - assert (Hp : preserves (row_is n x) (Kokofresh.create_wix_product doc method))
      by (unfold_kokofresh; frame_row n x).
    apply Hp, Hw.
  - assert (Hp : preserves (row_is n x) (Kokofresh.update_wix_product doc method))
      by (unfold_kokofresh; frame_row n x).
    apply Hp, Hw.
  - assert (Hp : preserves (row_is n x) (Nested.create_wix_product doc method))
      by (unfold_nested; frame_row n x).
    apply Hp, Hw.
  - assert (Hp : preserves (row_is n x) (Nested.update_wix_product doc method))
      by (unfold_nested; frame_row n x).
    apply Hp, Hw.
Qed.

Ltac run_prims :=
  cbv beta iota delta
    [bind ret raise try_except enter logger prim log_error msgprint
     db_exists_custom_field db_get_value db_set_value db_commit
     get_doc_custom_field insert_custom_field generate_hash json_dumps
     get_global_default_currency].

Lemma kokofresh_store_works doc v E w :
  works E ->
  Kokofresh.store_wix_product_id doc v E w =
  (Normal tt,
   snd (Kokofresh.store_wix_product_id doc v E w)) /\
  tabItem (snd (Kokofresh.store_wix_product_id doc v E w)) =
    alter (fun _ => v) (name doc) (tabItem w) /\
  custom_field (snd (Kokofresh.store_wix_product_id doc v E w)) = true /\
  List.filter is_field_insert (trace (snd (Kokofresh.store_wix_product_id doc v E w))) =
    ((if custom_field w then [] else [EvInsertCustomField]) ++
     List.filter is_field_insert (trace w))%list.
Proof.
  intros Hw. unfold Kokofresh.store_wix_product_id, Kokofresh.create_wix_product_id_field.
  run_prims. rewrite !Hw. cbn.
  destruct (custom_field w) eqn:Hc; cbn; rewrite !Hw; cbn; rewrite ?Hw; cbn;
    repeat split; try assumption; reflexivity.
Qed.
(** X3. Round trip of the stored id: when the framework works and the row of the
    document exists, [store_wix_product_id] leaves the value in the row, the
    custom field exists afterwards and was inserted exactly when it was
    missing, and [get_wix_product_id] then returns the value that was stored. *)
Theorem store_then_get (doc : Item) (v : pyval) (E E' : Env) (w : World) :
  works E -> id_read_works E' -> is_Some (tabItem w !! name doc) ->
  let w' := snd (Kokofresh.store_wix_product_id doc v E w) in
  tabItem w' !! name doc = Some v /\
  custom_field w' = true /\
  List.filter is_field_insert (trace w') =
    ((if custom_field w then [] else [EvInsertCustomField]) ++
     List.filter is_field_insert (trace w))%list /\
  fst (Kokofresh.get_wix_product_id doc E' w') = Normal v.
Proof.
  intros Hw Hr [x Hx] w'.
  destruct (kokofresh_store_works doc v E w Hw) as (_ & Ht & Hc & Hi).
  assert (Hrow : tabItem w' !! name doc = Some v).
  { subst w'. rewrite Ht, lookup_alter_eq, Hx. reflexivity. }
  split; [exact Hrow | split; [exact Hc | split; [exact Hi |]]].
  unfold Kokofresh.get_wix_product_id, try_except, db_get_value, prim.
  rewrite Hr. simpl. rewrite Hrow. reflexivity.
Qed.

Lemma kokofresh_payload_name doc :
  exists product,
    py_getitem (Kokofresh.map_item_to_wix_product doc) "product" = ret product /\
    py_getitem product "name" =
      ret (py_or (of_opt_str (item_name doc)) (of_opt_str (item_code doc))).
Proof.
  unfold Kokofresh.map_item_to_wix_product.
  destruct (truthy (of_opt_str (description doc))),
           (truthy (of_opt_num (weight_per_unit doc)));
    eexists; split; reflexivity.
Qed.

(** The create call when the framework works: it succeeds, with a made-up
    id, after two framework calls. *)
Lemma kokofresh_create_api_works doc E w :
  (forall t, faults E t JsonDumps = None) -> (forall t, faults E t GenerateHash = None) ->
  exists w',
    Kokofresh.call_wix_create_product_api (Kokofresh.map_item_to_wix_product doc) E w =
    (Normal (true,
       PyDict [("product", PyDict [
         ("_id", kokofresh_new_id E w);
         ("name", py_or (of_opt_str (item_name doc)) (of_opt_str (item_code doc)));
         ("visible", PyBool true)])]), w') /\
    tabItem w' = tabItem w /\ custom_field w' = custom_field w /\
    List.filter is_api_call (trace w') =
      EvCall (CreateProductApi (Kokofresh.map_item_to_wix_product doc))
        :: List.filter is_api_call (trace w).
Proof.
  intros Hj Hh. destruct (kokofresh_payload_name doc) as (product & Hp & Hn).
  unfold Kokofresh.call_wix_create_product_api. run_prims. rewrite Hj, Hh.
  cbv beta iota. rewrite Hp. cbv beta iota delta [ret]. rewrite Hn.
  cbv beta iota delta [ret]. eexists. split; [reflexivity |]. repeat split.
Qed.
Lemma kokofresh_create_works (doc : Item) (method : pyval) (E : Env) (w : World) :
  works E -> Kokofresh.should_sync_item doc = true -> is_Some (tabItem w !! name doc) ->
  let w' := snd (Kokofresh.create_wix_product doc method E w) in
  fst (Kokofresh.create_wix_product doc method E w) = Normal tt /\
  tabItem w' !! name doc = Some (kokofresh_new_id E w) /\
  custom_field w' = true /\
  List.filter is_api_call (trace w') =
    EvCall (CreateProductApi (Kokofresh.map_item_to_wix_product doc))
      :: List.filter is_api_call (trace w) /\
  exists rest,
    trace w' =
    EvMsgprint
      [Lit "Product '"; Fmt (of_opt_str (item_name doc));
       Lit "' successfully synced to Wix!
Wix Product ID: "; Fmt (kokofresh_new_id E w)]
      "Wix Sync Success" "green" :: rest.
Proof.
  intros Hw Hs [x Hx] w'. subst w'.
  rewrite (kokofresh_create_run doc method E w Hs).
  destruct (kokofresh_create_api_works doc E (create_started doc w)
              (fun t => Hw t JsonDumps) (fun t => Hw t GenerateHash))
    as (w1 & Hcall & Ht1 & Hc1 & Ha1).
  change (kokofresh_new_id E (create_started doc w)) with (kokofresh_new_id E w) in Hcall.
  rewrite (try_bind_normal _ _ _ E _ _ _ Hcall).
  cbn [fst snd].
  rewrite (try_bind_normal _ _ _ E w1 _ _ eq_refl).
  rewrite (try_bind_normal _ _ _ E w1 _ _ eq_refl).
  match goal with |- context [default PyNone (dict_lookup "_id" ?d)] =>
    change (default PyNone (dict_lookup "_id" d)) with (kokofresh_new_id E w) end.
  change (truthy (kokofresh_new_id E w)) with true. cbv iota.
  destruct (kokofresh_store_works doc (kokofresh_new_id E w) E w1 Hw) as (Hst & Ht2 & Hc2 & _).
  rewrite (try_bind_normal _ _ _ E w1 _ _ Hst).
  set (w2 := snd (Kokofresh.store_wix_product_id doc (kokofresh_new_id E w) E w1)) in *.
  rewrite (try_bind_normal _ _ _ E w2 tt _ eq_refl).
  unfold try_except, msgprint, prim. rewrite Hw. cbn.
  split; [reflexivity | split; [| split; [exact Hc2 | split]]].
  - rewrite Ht2, Ht1. cbn. rewrite lookup_alter_eq, Hx. reflexivity.
  - assert (Hp : preserves
              (api_calls_kept (EvCall (CreateProductApi (Kokofresh.map_item_to_wix_product doc))
                                 :: List.filter is_api_call (trace w)))
              (Kokofresh.store_wix_product_id doc (kokofresh_new_id E w))).
    { unfold_kokofresh.
      frame_api (EvCall (CreateProductApi (Kokofresh.map_item_to_wix_product doc))
                   :: List.filter is_api_call (trace w)). }
    apply (Hp E w1). exact Ha1.
  - eexists. reflexivity.
Qed.

(** X4. When the framework works, the create hook of an eligible item whose row
    exists returns normally, stores the id made up by the simulated API call
    (the text wix_ followed by the generated hash) in the row, leaves the
    custom field in place, makes exactly one create call with the mapped
    payload, and ends with the green success message that shows this id. *)
Theorem create_stores_new_id (doc : Item) (method : pyval) (E : Env) (w : World) :
  works E -> Kokofresh.should_sync_item doc = true -> is_Some (tabItem w !! name doc) ->
  let w' := snd (Kokofresh.create_wix_product doc method E w) in
  fst (Kokofresh.create_wix_product doc method E w) = Normal tt /\
  tabItem w' !! name doc = Some (kokofresh_new_id E w) /\
  custom_field w' = true /\
  List.filter is_api_call (trace w') =
    EvCall (CreateProductApi (Kokofresh.map_item_to_wix_product doc))
      :: List.filter is_api_call (trace w) /\
  exists rest,
    trace w' =
    EvMsgprint
      [Lit "Product '"; Fmt (of_opt_str (item_name doc));
       Lit "' successfully synced to Wix!
Wix Product ID: "; Fmt (kokofresh_new_id E w)]
      "Wix Sync Success" "green" :: rest.
Proof. apply kokofresh_create_works. Qed.

Lemma kokofresh_create_skip_run doc method E w :
  Kokofresh.should_sync_item doc = false ->
  Kokofresh.create_wix_product doc method E w =
  (Normal tt,
   emit (EvLogger INFO [Lit "Skipping Wix sync for Item: "; Fmt (of_opt_str (item_code doc))])
     (create_started doc w)).
Proof.
  intros Hs. unfold Kokofresh.create_wix_product.
  cbv beta iota delta [bind enter try_except logger]. rewrite Hs. reflexivity.
Qed.

Lemma kokofresh_create_api_calls doc method E w :
  Kokofresh.should_sync_item doc = true ->
  api_calls_kept
    (EvCall (CreateProductApi (Kokofresh.map_item_to_wix_product doc))
       :: List.filter is_api_call (trace w))
    (snd (Kokofresh.create_wix_product doc method E w)).
Proof.
  intros Hs. rewrite (kokofresh_create_run doc method E w Hs).
  set (L := EvCall (CreateProductApi (Kokofresh.map_item_to_wix_product doc))
              :: List.filter is_api_call (trace w)).
  apply (try_bind_post (api_calls_kept L)).
  - apply kokofresh_create_api_run.
  - unfold_kokofresh. frame_api L.
  - unfold_kokofresh. frame_api L.
Qed.

Lemma kokofresh_update_api_run v p E w :
  api_calls_kept (EvCall (UpdateProductApi v p) :: List.filter is_api_call (trace w))
    (snd (Kokofresh.call_wix_update_product_api v p E w)).
Proof.
  unfold Kokofresh.call_wix_update_product_api.
  rewrite (bind_normal _ _ E w tt (emit (EvCall (UpdateProductApi v p)) w) eq_refl).
  match goal with |- api_calls_kept ?L (snd (?m E ?w0)) =>
    assert (Hp : preserves (api_calls_kept L) m) by frame_api L end.
  apply Hp. reflexivity.
Qed.

(** X5. The create hook makes at most one API call, whatever fails: exactly one
    create call with the mapped payload for an eligible item, and none for
    an item that is not eligible.  It never makes an update call. *)
Theorem create_calls_api_once (doc : Item) (method : pyval) (E : Env) (w : World) :
  List.filter is_api_call (trace (snd (Kokofresh.create_wix_product doc method E w))) =
  ((if Kokofresh.should_sync_item doc
    then [EvCall (CreateProductApi (Kokofresh.map_item_to_wix_product doc))]
    else []) ++ List.filter is_api_call (trace w))%list.
Proof.
  destruct (Kokofresh.should_sync_item doc) eqn:Hs.
  - apply kokofresh_create_api_calls, Hs.
  - rewrite (kokofresh_create_skip_run doc method E w Hs). reflexivity.
Qed.

Lemma kokofresh_update_api_calls
    (doc : Item) (method : pyval) (E : Env) (w : World) (v : pyval) (w2 : World) :
  Kokofresh.get_wix_product_id doc E (update_started doc w) = (Normal v, w2) ->
  List.filter is_api_call (trace (snd (Kokofresh.update_wix_product doc method E w))) =
  ((if Kokofresh.should_sync_item doc
    then [EvCall (if truthy v
                  then UpdateProductApi v (Kokofresh.map_item_to_wix_product doc)
                  else CreateProductApi (Kokofresh.map_item_to_wix_product doc))]
    else []) ++ List.filter is_api_call (trace w))%list.
Proof.
  intros Hg.
  assert (H2 : api_calls_kept (List.filter is_api_call (trace w)) w2).
  { pose proof (kokofresh_get_id_keeps _ doc
                  (api_calls_kept_tick (List.filter is_api_call (trace w)))
                  E (update_started doc w)) as Hk.
    rewrite Hg in Hk. apply Hk. reflexivity. }
  destruct (Kokofresh.should_sync_item doc) eqn:Hs.
  2:{ rewrite (kokofresh_update_skip_run doc method E w Hs). reflexivity. }
  destruct (truthy v) eqn:Hv.
  - rewrite (kokofresh_update_found_run doc method E w v w2 Hs Hg Hv).
    set (L := ([EvCall (UpdateProductApi v (Kokofresh.map_item_to_wix_product doc))] ++
               List.filter is_api_call (trace w))%list).
    apply (try_bind_post (api_calls_kept L)).
    + pose proof (kokofresh_update_api_run v (Kokofresh.map_item_to_wix_product doc) E w2) as Hu.
      unfold api_calls_kept in Hu, H2 |- *. rewrite Hu, H2. reflexivity.
    + unfold_kokofresh. frame_api L.
    + unfold_kokofresh. frame_api L.
  - rewrite (kokofresh_update_fallback_run doc method E w v w2 Hs Hg Hv).
    set (L := ([EvCall (CreateProductApi (Kokofresh.map_item_to_wix_product doc))] ++
               List.filter is_api_call (trace w))%list).
    pose proof (kokofresh_create_api_calls doc method E (fallback_announced doc w2) Hs) as Hc.
    assert (Hc' : api_calls_kept L
                    (snd (Kokofresh.create_wix_product doc method E (fallback_announced doc w2)))).
    { unfold api_calls_kept in Hc, H2 |- *. rewrite Hc. simpl. rewrite H2. reflexivity. }
    unfold try_except.
    destruct (Kokofresh.create_wix_product doc method E (fallback_announced doc w2))
      as [[a | e] w4]; simpl in *.
    + exact Hc'.
    + assert (Hp : preserves (api_calls_kept L) (Kokofresh.update_failed doc e))
        by (unfold_kokofresh; frame_api L).
      apply Hp, Hc'.
Qed.

(** X6. The update hook chooses its API call by the stored id alone: for an
    eligible item one update call with that id when the id read from the
    database is true, one create call when it is None or empty, and no call
    for an item that is not eligible; nothing that fails later adds or
    removes a call. *)
Theorem update_routes_by_stored_id
    (doc : Item) (method : pyval) (E : Env) (w : World) (v : pyval) (w2 : World) :
  Kokofresh.get_wix_product_id doc E (update_started doc w) = (Normal v, w2) ->
  List.filter is_api_call (trace (snd (Kokofresh.update_wix_product doc method E w))) =
  ((if Kokofresh.should_sync_item doc
    then [EvCall (if truthy v
                  then UpdateProductApi v (Kokofresh.map_item_to_wix_product doc)
                  else CreateProductApi (Kokofresh.map_item_to_wix_product doc))]
    else []) ++ List.filter is_api_call (trace w))%list.
Proof. apply kokofresh_update_api_calls. Qed.

(** X7. Insert followed by save: after the create hook of an eligible item, the
    update hook makes one update call that carries the id the create call
    made up, no second create call, and the stored id is still that id. *)
Theorem create_then_update (doc : Item) (method : pyval) (E E' : Env) (w : World) :
  works E -> id_read_works E' ->
  Kokofresh.should_sync_item doc = true -> is_Some (tabItem w !! name doc) ->
  let w1 := snd (Kokofresh.create_wix_product doc method E w) in
  let w2 := snd (Kokofresh.update_wix_product doc method E' w1) in
  List.filter is_api_call (trace w2) =
    ([EvCall (UpdateProductApi (kokofresh_new_id E w) (Kokofresh.map_item_to_wix_product doc));
      EvCall (CreateProductApi (Kokofresh.map_item_to_wix_product doc))] ++
     List.filter is_api_call (trace w))%list /\
  tabItem w2 !! name doc = Some (kokofresh_new_id E w).
Proof.
  intros Hw Hr Hs Hrow w1 w2.
  destruct (kokofresh_create_works doc method E w Hw Hs Hrow) as (_ & Hid & _ & Hcalls & _).
  fold w1 in Hid, Hcalls.
  assert (Hg : Kokofresh.get_wix_product_id doc E' (update_started doc w1) =
               (Normal (kokofresh_new_id E w), tick (update_started doc w1))).
  { unfold Kokofresh.get_wix_product_id, try_except, db_get_value, prim.
    rewrite Hr. simpl. rewrite Hid. reflexivity. }
  split.
  - subst w2. rewrite (kokofresh_update_api_calls doc method E' w1 _ _ Hg).
    rewrite Hs, Hcalls. reflexivity.
  - subst w2.
    apply (kokofresh_update_keeps_id (name doc) (kokofresh_new_id E w) doc method E' w1);
      [reflexivity | exact Hr | exact Hid].
Qed.
Lemma kokofresh_store_readonly doc v E w :
  only_set_value_fails E ->
  Kokofresh.store_wix_product_id doc v E w =
    (Normal tt, snd (Kokofresh.store_wix_product_id doc v E w)) /\
  tabItem (snd (Kokofresh.store_wix_product_id doc v E w)) = tabItem w.
Proof.
  intros H.
  assert (Hok : forall t o, o <> DbSetValue -> faults E t o = None)
    by (intros t o; apply H).
  assert (Hbad : forall t, exists e, faults E t DbSetValue = Some e).
  { intros t. destruct (faults E t DbSetValue) eqn:Hf; [eexists; reflexivity |].
    exfalso. exact (proj1 (H t DbSetValue) eq_refl Hf). }
  unfold Kokofresh.store_wix_product_id, Kokofresh.create_wix_product_id_field.
  run_prims. rewrite (Hok _ DbExists) by discriminate. cbn.
  destruct (custom_field w); cbn.
  - destruct (Hbad (S (clock w))) as [e ->]. split; reflexivity.
  - rewrite (Hok _ GetDoc), (Hok _ DocInsert), (Hok _ DbCommit) by discriminate. cbn.
    destruct (Hbad (S (S (S (S (clock w)))))) as [e ->]. split; reflexivity.
Qed.

(** X8. When only the write of the id column fails, the create hook of an
    eligible item still returns normally and still shows the green success
    message with the new id, although the table is unchanged: the failure is
    swallowed inside [store_wix_product_id] and the id is lost. *)
Theorem failed_store_is_silent (doc : Item) (method : pyval) (E : Env) (w : World) :
  only_set_value_fails E -> Kokofresh.should_sync_item doc = true ->
  let w' := snd (Kokofresh.create_wix_product doc method E w) in
  fst (Kokofresh.create_wix_product doc method E w) = Normal tt /\
  tabItem w' = tabItem w /\
  exists rest,
    trace w' =
    EvMsgprint
      [Lit "Product '"; Fmt (of_opt_str (item_name doc));
       Lit "' successfully synced to Wix!
Wix Product ID: "; Fmt (kokofresh_new_id E w)]
      "Wix Sync Success" "green" :: rest.
Proof.
  intros H Hs w'. subst w'.
  assert (Hok : forall t o, o <> DbSetValue -> faults E t o = None)
    by (intros t o; apply H).
  rewrite (kokofresh_create_run doc method E w Hs).
  destruct (kokofresh_create_api_works doc E (create_started doc w)
              (fun t => Hok t JsonDumps ltac:(discriminate))
              (fun t => Hok t GenerateHash ltac:(discriminate)))
    as (w1 & Hcall & Ht1 & _ & _).
  change (kokofresh_new_id E (create_started doc w)) with (kokofresh_new_id E w) in Hcall.
  rewrite (try_bind_normal _ _ _ E _ _ _ Hcall).
  cbn [fst snd].
  rewrite (try_bind_normal _ _ _ E w1 _ _ eq_refl).
  rewrite (try_bind_normal _ _ _ E w1 _ _ eq_refl).
  match goal with |- context [default PyNone (dict_lookup "_id" ?d)] =>
    change (default PyNone (dict_lookup "_id" d)) with (kokofresh_new_id E w) end.
  change (truthy (kokofresh_new_id E w)) with true. cbv iota.
  destruct (kokofresh_store_readonly doc (kokofresh_new_id E w) E w1 H) as (Hst & Ht2).
  rewrite (try_bind_normal _ _ _ E w1 _ _ Hst).
  set (w2 := snd (Kokofresh.store_wix_product_id doc (kokofresh_new_id E w) E w1)) in *.
  rewrite (try_bind_normal _ _ _ E w2 tt _ eq_refl).
  unfold try_except, msgprint, prim. rewrite (Hok _ Msgprint) by discriminate. cbn.
  split; [reflexivity | split].
  - rewrite Ht2, Ht1. reflexivity.
  - eexists. reflexivity.
Qed.
(** ** The slug of the nested variant *)

Lemma slug_char_ok (c : ascii) :
  slug_ok (if Nested.slug_keeps (ascii_lower c) then ascii_lower c else "-"%char) = true.
Proof. destruct c as [[] [] [] [] [] [] [] []]; reflexivity. Qed.

Lemma slug_ok_fixed (c : ascii) :
  slug_ok c = true -> ascii_lower c = c /\ Nested.slug_keeps c = true.
Proof. destruct c as [[] [] [] [] [] [] [] []]; intros H; try discriminate H; split; reflexivity. Qed.

Lemma collapse_forallb p l : forallb p l = true -> forallb p (Nested.collapse_dashes l) = true.
Proof.
  induction l as [| c r IH]; [reflexivity |]. simpl.
  intros [Hc Hr]%andb_prop. specialize (IH Hr).
  destruct (Ascii.eqb c "-"); [| simpl; rewrite Hc; exact IH].
  destruct r as [| c' r']; [simpl; rewrite Hc; reflexivity |].
  destruct (Ascii.eqb c' "-"); [exact IH |].
  change (forallb p (c :: Nested.collapse_dashes (c' :: r')) = true).
  simpl forallb at 1. rewrite Hc. exact IH.
Qed.

Lemma collapse_head l :
  starts_with_dash (Nested.collapse_dashes l) = starts_with_dash l.
Proof.
  induction l as [| c r IH]; [reflexivity |]. simpl. unfold is_dash.
  destruct (Ascii.eqb c "-") eqn:Hc.
  - destruct r as [| c' r']; [simpl; unfold is_dash; exact Hc |].
    destruct (Ascii.eqb c' "-") eqn:Hc'.
    + rewrite IH. simpl. unfold is_dash. exact Hc'.
    + simpl. unfold is_dash. exact Hc.
  - simpl. unfold is_dash. exact Hc.
Qed.

Lemma has_double_dash_cons c r :
  has_double_dash (c :: r) = (is_dash c && starts_with_dash r) || has_double_dash r.
Proof. reflexivity. Qed.

Lemma collapse_no_double l : has_double_dash (Nested.collapse_dashes l) = false.
Proof.
  induction l as [| c r IH]; [reflexivity |]. simpl.
  destruct (Ascii.eqb c "-") eqn:Hc.
  - destruct r as [| c' r']; [simpl; rewrite andb_false_r; reflexivity |].
    destruct (Ascii.eqb c' "-") eqn:Hc'; [exact IH |].
    change (has_double_dash (c :: Nested.collapse_dashes (c' :: r')) = false).
    rewrite has_double_dash_cons, collapse_head. simpl starts_with_dash.
    unfold is_dash at 2. rewrite Hc', andb_false_r. exact IH.
  - rewrite has_double_dash_cons. unfold is_dash at 1. rewrite Hc. exact IH.
Qed.

Lemma lstrip_forallb p l : forallb p l = true -> forallb p (Nested.lstrip_dashes l) = true.
Proof.
  induction l as [| c r IH]; [reflexivity |]. simpl.
  intros H. destruct (Ascii.eqb c "-"); [| exact H].
  apply andb_prop in H as [_ Hr]. exact (IH Hr).
Qed.

Lemma lstrip_head l : starts_with_dash (Nested.lstrip_dashes l) = false.
Proof.
  induction l as [| c r IH]; [reflexivity |]. simpl.
  destruct (Ascii.eqb c "-") eqn:Hc; [exact IH |]. simpl. exact Hc.
Qed.

Lemma lstrip_no_double l :
  has_double_dash l = false -> has_double_dash (Nested.lstrip_dashes l) = false.
Proof.
  induction l as [| c r IH]; [reflexivity |]. simpl.
  intros H. destruct (Ascii.eqb c "-"); [| exact H].
  apply orb_false_elim in H as [_ Hr]. exact (IH Hr).
Qed.

Lemma starts_with_dash_app a b :
  starts_with_dash (a ++ b) = match a with [] => starts_with_dash b | _ => starts_with_dash a end.
Proof. destruct a; reflexivity. Qed.

Lemma has_double_dash_snoc l a :
  has_double_dash (l ++ [a]) = has_double_dash l || (starts_with_dash (rev l) && is_dash a).
Proof.
  induction l as [| c r IH]; [simpl; rewrite andb_false_r; reflexivity |].
  simpl. rewrite IH, !starts_with_dash_app.
  destruct r as [| c' r']; simpl.
  - destruct (is_dash c), (is_dash a); reflexivity.
  - destruct (rev r' ++ [c'])%list eqn:Hr.
    + destruct (rev r'); discriminate Hr.
    + simpl. rewrite orb_assoc. reflexivity.
Qed.

Lemma has_double_dash_rev l : has_double_dash (rev l) = has_double_dash l.
Proof.
  induction l as [| c r IH]; [reflexivity |].
  simpl rev. rewrite has_double_dash_snoc, IH, rev_involutive. simpl.
  rewrite orb_comm, andb_comm. reflexivity.
Qed.

Lemma lstrip_rev_head m :
  starts_with_dash (rev m) = false -> starts_with_dash (rev (Nested.lstrip_dashes m)) = false.
Proof.
  induction m as [| c r IH]; [reflexivity |]. simpl.
  destruct (Ascii.eqb c "-") eqn:Hc; [| exact (fun H => H)].
  rewrite starts_with_dash_app. intros H. apply IH.
  destruct (rev r); [reflexivity | exact H].
Qed.

Lemma forallb_rev_true {A} (p : A -> bool) l : forallb p l = true -> forallb p (rev l) = true.
Proof.
  rewrite !forallb_forall. intros H x Hx. apply H, in_rev, Hx.
Qed.

Lemma strip_shaped l :
  forallb slug_ok l = true -> has_double_dash l = false ->
  forallb slug_ok (Nested.strip_dashes l) = true /\
  starts_with_dash (Nested.strip_dashes l) = false /\
  starts_with_dash (rev (Nested.strip_dashes l)) = false /\
  has_double_dash (Nested.strip_dashes l) = false.
Proof.
  intros Hf Hd. unfold Nested.strip_dashes. repeat split.
  - apply forallb_rev_true, lstrip_forallb, forallb_rev_true, lstrip_forallb, Hf.
  - apply lstrip_rev_head. rewrite rev_involutive. apply lstrip_head.
  - rewrite rev_involutive. apply lstrip_head.
  - rewrite has_double_dash_rev. apply lstrip_no_double.
    rewrite has_double_dash_rev. apply lstrip_no_double, Hd.
Qed.

Lemma lower_bytes_eq l :
  Nested.lower_bytes l =
  match l with
  | [] => []
  | c :: r =>
      match r with
      | c2 :: r2 =>
          if Nested.is_byte 196 c && Nested.is_byte 176 c2 then
            "i"%char :: ascii_of_nat 204 :: ascii_of_nat 135 :: Nested.lower_bytes r2
          else
            match r2 with
            | c3 :: r3 =>
                if Nested.is_byte 226 c && Nested.is_byte 132 c2 && Nested.is_byte 170 c3
                then "k"%char :: Nested.lower_bytes r3
                else ascii_lower c :: Nested.lower_bytes r
            | [] => ascii_lower c :: Nested.lower_bytes r
            end
      | [] => ascii_lower c :: Nested.lower_bytes r
      end
  end.
Proof. destruct l; reflexivity. Qed.

(** Whatever the bytes, what is left of the lowered text after the first
    substitution is made of the characters of a slug. *)
Lemma slug_map_ok_upto (n : nat) : forall l,
  (length l <= n)%nat ->
  forallb slug_ok
    (map (fun c => if Nested.slug_keeps c then c else "-"%char) (Nested.lower_bytes l)) = true.
Proof.
  induction n as [| n IH]; intros l Hl.
  - destruct l; [reflexivity | simpl in Hl; lia].
  - rewrite lower_bytes_eq.
    destruct l as [| c r]; [reflexivity |]. simpl in Hl.
    assert (Hr : forallb slug_ok
                   (map (fun c => if Nested.slug_keeps c then c else "-"%char)
                        (ascii_lower c :: Nested.lower_bytes r)) = true).
    { cbn [map forallb]. rewrite slug_char_ok. apply IH. lia. }
    destruct r as [| c2 r2]; [exact Hr |]. simpl in Hl.
    destruct (Nested.is_byte 196 c && Nested.is_byte 176 c2).
    + cbn [map forallb]. apply IH. lia.
    + destruct r2 as [| c3 r3]; [exact Hr |]. simpl in Hl.
      destruct (Nested.is_byte 226 c && Nested.is_byte 132 c2 && Nested.is_byte 170 c3);
        [| exact Hr].
      cbn [map forallb]. apply IH. lia.
Qed.

Lemma slug_map_ok s :
  forallb slug_ok
    (map (fun c => if Nested.slug_keeps c then c else "-"%char)
         (Nested.lower_bytes (list_ascii_of_string s))) = true.
Proof. apply (slug_map_ok_upto (length (list_ascii_of_string s))). lia. Qed.

(** The capital I with a dot, U+0130, lowers to an [i] and a combining dot,
    and the Kelvin sign, U+212A, to a [k]; a capital E with an accent stays
    outside ASCII and becomes a dash. *)
Example slug_of_dotted_capital E w :
  Nested.generate_product_slug
    (PyStr (String (ascii_of_nat 196) (String (ascii_of_nat 176) "STANBUL-01"))) E w =
  (Normal (PyStr "i-stanbul-01"), w).
Proof. reflexivity. Qed.

Example slug_of_kelvin_sign E w :
  Nested.generate_product_slug
    (PyStr (String (ascii_of_nat 226) (String (ascii_of_nat 132)
              (String (ascii_of_nat 170) "elvin 9")))) E w =
  (Normal (PyStr "kelvin-9"), w).
Proof. reflexivity. Qed.

Example slug_of_accented_capital E w :
  Nested.generate_product_slug
    (PyStr (String (ascii_of_nat 195) (String (ascii_of_nat 137) "COLE x"))) E w =
  (Normal (PyStr "cole-x"), w).
Proof. reflexivity. Qed.

(** X10. [generate_product_slug] returns, for every string, a slug of lower-case
    letters, digits, dashes and underscores that neither starts nor ends with
    a dash and has no two dashes in a row; for a value that is not a string it
    raises an AttributeError. *)
Theorem slug_is_shaped (code : pyval) (E : Env) (w : World) :
  match code with
  | PyStr s =>
      exists slug,
        Nested.generate_product_slug code E w = (Normal (PyStr slug), w) /\
        slug_shaped slug
  | _ =>
      exists e, Nested.generate_product_slug code E w = (Raised e, w) /\
                exn_type e = "AttributeError"
  end.
Proof.
  destruct code; try (eexists; split; reflexivity).
  eexists. split; [reflexivity |].
  unfold slug_shaped. cbv zeta. rewrite list_ascii_of_string_of_list_ascii.
  apply strip_shaped; [apply collapse_forallb, slug_map_ok | apply collapse_no_double].
Qed.
Lemma collapse_fixed l : has_double_dash l = false -> Nested.collapse_dashes l = l.
Proof.
  induction l as [| c r IH]; [reflexivity |].
  rewrite has_double_dash_cons. intros [Hc Hr]%orb_false_elim. simpl.
  rewrite (IH Hr). unfold is_dash in Hc.
  destruct (Ascii.eqb c "-"); [| reflexivity].
  destruct r as [| c' r']; [reflexivity |].
  simpl in Hc. unfold is_dash in Hc. rewrite Hc. reflexivity.
Qed.

Lemma lstrip_fixed l : starts_with_dash l = false -> Nested.lstrip_dashes l = l.
Proof.
  destruct l as [| c r]; [reflexivity |]. simpl. unfold is_dash. intros ->. reflexivity.
Qed.

Lemma slug_ok_plain (c : ascii) :
  slug_ok c = true -> Nested.is_byte 196 c = false /\ Nested.is_byte 226 c = false.
Proof. destruct c as [[] [] [] [] [] [] [] []]; intros H; try discriminate H; split; reflexivity. Qed.

(** Lowering leaves the text of a slug as it is. *)
Lemma lower_bytes_fixed l : forallb slug_ok l = true -> Nested.lower_bytes l = l.
Proof.
  induction l as [| c r IH]; [reflexivity |].
  intros [Hc Hr]%andb_prop. rewrite lower_bytes_eq, (IH Hr).
  destruct (slug_ok_fixed c Hc) as [Hl _]. destruct (slug_ok_plain c Hc) as [H1 H2].
  rewrite Hl, H1, H2. simpl.
  destruct r as [| c2 [| c3 r3]]; reflexivity.
Qed.

Lemma slug_map_fixed l :
  forallb slug_ok l = true ->
  map (fun c => if Nested.slug_keeps c then c else "-"%char) (Nested.lower_bytes l) = l.
Proof.
  intros H. rewrite (lower_bytes_fixed l H). revert H.
  induction l as [| c r IH]; [reflexivity |]. simpl.
  intros [Hc Hr]%andb_prop. destruct (slug_ok_fixed c Hc) as [_ Hk].
  rewrite Hk, (IH Hr). reflexivity.
Qed.

(** A shaped string is its own slug. *)
Lemma slug_of_shaped t E w :
  slug_shaped t -> Nested.generate_product_slug (PyStr t) E w = (Normal (PyStr t), w).
Proof.
  intros (Hf & Hs & He & Hd). unfold Nested.generate_product_slug, ret.
  rewrite (slug_map_fixed _ Hf), (collapse_fixed _ Hd).
  unfold Nested.strip_dashes. rewrite (lstrip_fixed _ Hs), (lstrip_fixed _ He).
  rewrite rev_involutive, string_of_list_ascii_of_string. reflexivity.
Qed.

(** X11. [generate_product_slug] is idempotent: the slug of a slug is the slug
    itself. *)
Theorem slug_is_idempotent (s : string) (E : Env) (w : World) :
  exists slug,
    Nested.generate_product_slug (PyStr s) E w = (Normal (PyStr slug), w) /\
    Nested.generate_product_slug (PyStr slug) E w = (Normal (PyStr slug), w).
Proof.
  eexists. split; [reflexivity |]. apply slug_of_shaped.
  unfold slug_shaped. cbv zeta. rewrite list_ascii_of_string_of_list_ascii.
  apply strip_shaped; [apply collapse_forallb, slug_map_ok | apply collapse_no_double].
Qed.
(** ** Optional fields of the payload *)

(** X9. Optional fields of the payload of [utils/wix_api.py]: plainDescription is
    present exactly when the description is not empty, the weight of the
    variant exactly when the weight is not zero, in both cases with the value
    of the item; the physical properties of the product are always an empty
    dict and visible is always True. *)
Theorem kokofresh_optional_fields (doc : Item) :
  let p := Kokofresh.map_item_to_wix_product doc in
  at_path [Key "product"; Key "plainDescription"] p =
    (match description doc with
     | Some d => if String.eqb d "" then None else Some (PyStr d)
     | None => None
     end) /\
  at_path (variant_path ++ [Key "physicalProperties"; Key "weight"])%list p =
    (match weight_per_unit doc with
     | Some n => if num_truthy n then Some (of_num n) else None
     | None => None
     end) /\
  at_path [Key "product"; Key "physicalProperties"] p = Some (PyDict []) /\
  at_path [Key "product"; Key "visible"] p = Some (PyBool true).
Proof.
  unfold Kokofresh.map_item_to_wix_product.
  destruct (description doc) as [d |]; [destruct (String.eqb d "") eqn:Hd |];
    (destruct (weight_per_unit doc) as [[z | f] |];
     [destruct (z =? 0) eqn:Hz | destruct (f_mant f =? 0)%N eqn:Hf |]);
    cbn; rewrite ?Hd, ?Hz, ?Hf; cbn; repeat split; reflexivity.
Qed.

(** [int] reads the double, not the decimal that is printed: from [2 ^ 53]
    on the two differ. *)
Example int_of_large_float :
  num_int (NFloat (PyF false 2000000000000001 1)) = 20000000000000008 /\
  num_int (NFloat (PyF false 1 23)) = 99999999999999991611392 /\
  num_int (NFloat (PyF true 1999 (-2))) = -19.
Proof. repeat split. Qed.

(** X12. The payload of the nested variant, for an item with an item code and a
    readable default currency: the slug is [generate_product_slug] of the item
    code, plainDescription is always present (empty without a description),
    the currency is the global default or USD when that is empty, the weight
    is a value in kg present exactly when the weight is not zero, and the
    stock quantity is [int] of the projected quantity (the integer part of
    the double), present exactly when that is not zero. *)
Theorem nested_payload_fields (doc : Item) (s : string) (E : Env) (w : World) :
  item_code doc = Some s ->
  faults E (clock w) GetGlobalDefault = None ->
  exists p slug,
    Nested.map_item_to_wix_product doc E w = (Normal p, tick w) /\
    Nested.generate_product_slug (PyStr s) E w = (Normal slug, w) /\
    at_path [Key "product"; Key "slug"] p = Some slug /\
    at_path [Key "product"; Key "plainDescription"] p =
      Some (match description doc with
            | Some d => PyStr d
            | None => PyStr ""
            end) /\
    at_path (variant_path ++ [Key "price"; Key "actualPrice"; Key "currency"])%list p =
      Some (if truthy (global_currency w) then global_currency w else PyStr "USD") /\
    at_path (variant_path ++ [Key "physicalProperties"; Key "weight"])%list p =
      (match weight_per_unit doc with
       | Some n => if num_truthy n
                   then Some (PyDict [("value", of_num n); ("unit", PyStr "kg")])
                   else None
       | None => None
       end) /\
    at_path (variant_path ++ [Key "stock"; Key "quantity"])%list p =
      (match projected_qty doc with
       | Some q => if num_truthy q then Some (PyInt (num_int q)) else None
       | None => None
       end).
Proof.
  intros Hc Hf.
  unfold Nested.map_item_to_wix_product, Nested.generate_product_slug. rewrite Hc.
  cbn [of_opt_str]. unfold bind at 1, ret at 1.
  unfold bind at 1, get_global_default_currency, prim. rewrite Hf.
  cbv beta iota.
  set (slug := PyStr (string_of_list_ascii _)).
  assert (Hdesc : py_or (of_opt_str (description doc)) (PyStr "") =
                  match description doc with Some d => PyStr d | None => PyStr "" end).
  { destruct (description doc) as [d |]; [| reflexivity].
    unfold py_or. simpl. destruct (String.eqb_spec d ""); [subst; reflexivity | reflexivity]. }
  rewrite Hdesc. clear Hdesc.
  set (desc := match description doc with Some d => PyStr d | None => PyStr "" end).
  change (global_currency (tick w)) with (global_currency w).
  unfold py_or at 2.
  set (cur := if truthy (global_currency w) then global_currency w else PyStr "USD").
  exists
    (let product_data :=
       PyDict [("product", PyDict [
         ("name", py_or (of_opt_str (item_name doc)) (PyStr s));
         ("slug", slug);
         ("plainDescription", desc);
         ("variantsInfo", PyDict [
           ("variants", PyList [
             PyDict [
               ("sku", PyStr s);
               ("price", PyDict [
                 ("actualPrice", PyDict [
                   ("amount", PyStr (rate_str (standard_rate doc)));
                   ("currency", cur)])]);
               ("physicalProperties", PyDict []);
               ("stock", PyDict [
                 ("trackInventory", PyBool true);
                 ("inStock", PyBool true)])]])])])] in
     let product_data :=
       if truthy (of_opt_num (weight_per_unit doc))
       then setitem_at (variant_path ++ [Key "physicalProperties"])%list "weight"
              (PyDict [("value", of_opt_num (weight_per_unit doc)); ("unit", PyStr "kg")])
              product_data
       else product_data in
     match projected_qty doc with
     | Some q =>
         if num_truthy q
         then setitem_at (variant_path ++ [Key "stock"])%list "quantity" (PyInt (num_int q))
                product_data
         else product_data
     | None => product_data
     end), slug.
  split; [reflexivity | split; [reflexivity |]].
  clearbody slug desc cur.
  destruct (weight_per_unit doc) as [[z | f] |];
    [destruct (z =? 0) eqn:Hz | destruct (f_mant f =? 0)%N eqn:Hm |];
    (destruct (projected_qty doc) as [q |]; [destruct (num_truthy q) eqn:Hq |]);
    cbn; rewrite ?Hz, ?Hm; cbn; repeat split; reflexivity.
Qed.
(** ** The validator *)

Lemma py_get_run v k d E w :
  py_get v k d E w =
  match v with
  | PyDict dd => (Normal (default d (dict_lookup k dd)), w)
  | _ => (Raised (Exn "AttributeError" "object has no attribute 'get'" ""), w)
  end.
Proof. destruct v; reflexivity. Qed.

Lemma variant_amount_run variant E w :
  (price <- py_get variant "price" (PyDict []) ;;
   actual_price <- py_get price "actualPrice" (PyDict []) ;;
   py_get actual_price "amount" PyNone) E w =
  match variant with
  | PyDict d =>
      match default (PyDict []) (dict_lookup "price" d) with
      | PyDict d1 =>
          match default (PyDict []) (dict_lookup "actualPrice" d1) with
          | PyDict d2 => (Normal (default PyNone (dict_lookup "amount" d2)), w)
          | _ => (Raised (Exn "AttributeError" "object has no attribute 'get'" ""), w)
          end
      | _ => (Raised (Exn "AttributeError" "object has no attribute 'get'" ""), w)
      end
  | _ => (Raised (Exn "AttributeError" "object has no attribute 'get'" ""), w)
  end.
Proof.
  unfold bind. rewrite py_get_run. destruct variant; try reflexivity.
  rewrite py_get_run. destruct (default (PyDict []) (dict_lookup "price" d)); try reflexivity.
  rewrite py_get_run. destruct (default (PyDict []) (dict_lookup "actualPrice" d0)); reflexivity.
Qed.

(** A true amount means that the three keys are there. *)
Lemma amount_has_price variant a E w w' :
  (price <- py_get variant "price" (PyDict []) ;;
   actual_price <- py_get price "actualPrice" (PyDict []) ;;
   py_get actual_price "amount" PyNone) E w = (Normal a, w') ->
  truthy a = true -> has_price variant.
Proof.
  rewrite variant_amount_run. intros H Ht. exists a. split; [| exact Ht].
  destruct variant; try discriminate H. simpl.
  destruct (dict_lookup "price" d) as [[] |]; simpl in H; try discriminate H.
  - destruct (dict_lookup "actualPrice" d0) as [[] |]; simpl in H; try discriminate H.
    + destruct (dict_lookup "amount" d1); simpl in H; injection H as <- _;
        [reflexivity | discriminate Ht].
    + injection H as <- _. discriminate Ht.
  - injection H as <- _. discriminate Ht.
Qed.

Lemma has_price_amount variant E w :
  has_price variant ->
  exists a,
    (price <- py_get variant "price" (PyDict []) ;;
     actual_price <- py_get price "actualPrice" (PyDict []) ;;
     py_get actual_price "amount" PyNone) E w = (Normal a, w) /\ truthy a = true.
Proof.
  intros (a & Ha & Ht). exists a. split; [| exact Ht].
  rewrite variant_amount_run.
  destruct variant; try discriminate Ha. simpl in Ha.
  destruct (dict_lookup "price" d) as [[] |]; try discriminate Ha. simpl in Ha |- *.
  destruct (dict_lookup "actualPrice" d0) as [[] |]; try discriminate Ha. simpl in Ha |- *.
  destruct (dict_lookup "amount" d1); [| discriminate Ha].
  injection Ha as ->. reflexivity.
Qed.

Lemma check_variants_step i variant rest errors E w :
  check_variants i (variant :: rest) errors E w =
  match (price <- py_get variant "price" (PyDict []) ;;
         actual_price <- py_get price "actualPrice" (PyDict []) ;;
         py_get actual_price "amount" PyNone) E w with
  | (Normal amount, w') =>
      check_variants (S i) rest
        (if negb (truthy amount)
         then (errors ++ [("Variant " ++ int_str (Z.of_nat i + 1) ++ " must have a price")%string])%list
         else errors) E w'
  | (Raised e, w') => (Raised e, w')
  end.
Proof.
  simpl check_variants. unfold bind.
  destruct (py_get variant "price" (PyDict []) E w) as [[price | e] w1]; [| reflexivity].
  destruct (py_get price "actualPrice" (PyDict []) E w1) as [[actual | e] w2]; [| reflexivity].
  destruct (py_get actual "amount" PyNone E w2) as [[amount | e] w3]; reflexivity.
Qed.

(** The loop over the variants only adds errors, one for each variant
    without a price. *)
Lemma check_variants_sound l : forall i errors errors' E w w',
  check_variants i l errors E w = (Normal errors', w') ->
  w' = w /\ (length errors <= length errors')%nat /\
  (length errors' = length errors -> Forall has_price l).
Proof.
  induction l as [| variant rest IH]; intros i errors errors' E w w' H.
  - injection H as <- <-. repeat split; [lia | constructor].
  - rewrite check_variants_step in H.
    destruct ((price <- py_get variant "price" (PyDict []) ;;
               actual_price <- py_get price "actualPrice" (PyDict []) ;;
               py_get actual_price "amount" PyNone) E w) as [[amount | e] w1] eqn:Ha;
      [| discriminate H].
    assert (Hw1 : w1 = w).
    { rewrite variant_amount_run in Ha.
      repeat match type of Ha with
             | context [match ?x with _ => _ end] => destruct x
             end; injection Ha as _ <-; reflexivity. }
    subst w1. destruct (IH _ _ _ _ _ _ H) as (-> & Hlen & Hall).
    destruct (truthy amount) eqn:Ht; simpl negb in *; cbv iota in *.
    + repeat split; [exact Hlen |]. intros Heq. constructor; [| exact (Hall Heq)].
      exact (amount_has_price _ _ _ _ _ Ha Ht).
    + rewrite length_app in Hlen, Hall. simpl in Hlen, Hall.
      repeat split; [lia | intros Heq; lia].
Qed.

Lemma check_variants_complete l : forall i errors E w,
  Forall has_price l -> check_variants i l errors E w = (Normal errors, w).
Proof.
  induction l as [| variant rest IH]; intros i errors E w H; [reflexivity |].
  inversion H as [| ? ? Hv Hr]; subst.
  rewrite check_variants_step.
  destruct (has_price_amount variant E w Hv) as (a & -> & Ht).
  rewrite Ht. simpl negb. cbv iota. apply IH, Hr.
Qed.
Lemma validate_complete p E w :
  complete_product p -> validate_wix_product_data p E w = (Normal (true, []), w).
Proof.
  intros (n & t & l & Hn & Htn & Ht & Htt & Hv & Hne & Hall).
  unfold name_of, product_type_of, variants_of in *.
  destruct p as [| | | | | | d]; try discriminate Hn.
  simpl in Hn, Ht, Hv.
  destruct (dict_lookup "product" d) as [product |] eqn:Hp; [| discriminate Hn].
  destruct product as [| | | | | | pd]; try discriminate Hn. simpl in Hn, Ht, Hv.
  destruct (dict_lookup "name" pd) as [n' |] eqn:Hname; [| discriminate Hn].
  injection Hn as ->.
  destruct (dict_lookup "productType" pd) as [t' |] eqn:Htype; [| discriminate Ht].
  injection Ht as ->.
  destruct (dict_lookup "variantsInfo" pd) as [vi |] eqn:Hvi; [| discriminate Hv].
  destruct vi as [| | | | | | vd]; try discriminate Hv. simpl in Hv.
  destruct (dict_lookup "variants" vd) as [vs |] eqn:Hvs; [| discriminate Hv].
  injection Hv as ->.
  assert (Hl : truthy (PyList l) = true) by (destruct l; [contradiction | reflexivity]).
  unfold validate_wix_product_data.
  rewrite (bind_normal _ _ E w (PyDict pd) w) by (rewrite py_get_run, Hp; reflexivity).
  rewrite (bind_normal _ _ E w n w) by (rewrite py_get_run, Hname; reflexivity).
  rewrite (bind_normal _ _ E w t w) by (rewrite py_get_run, Htype; reflexivity).
  rewrite (bind_normal _ _ E w (PyDict vd) w) by (rewrite py_get_run, Hvi; reflexivity).
  rewrite (bind_normal _ _ E w (PyList l) w) by (rewrite py_get_run, Hvs; reflexivity).
  rewrite Htn, Htt, Hl. cbn [negb].
  rewrite (bind_normal _ _ E w [] w); [reflexivity |].
  rewrite (bind_normal _ _ E w (PyDict vd) w) by (simpl; rewrite Hvi; reflexivity).
  rewrite (bind_normal _ _ E w (PyList l) w) by (simpl; rewrite Hvs; reflexivity).
  rewrite (bind_normal _ _ E w l w) by reflexivity.
  apply check_variants_complete, Hall.
Qed.
Lemma bind_inv {A B} (m : M A) (k : A -> M B) E w b w' :
  bind m k E w = (Normal b, w') ->
  exists a w1, m E w = (Normal a, w1) /\ k a E w1 = (Normal b, w').
Proof.
  unfold bind. destruct (m E w) as [[a | e] w1]; [| discriminate].
  intros H. exists a, w1. split; [reflexivity | exact H].
Qed.

Lemma py_get_inv v k d E w a w1 :
  py_get v k d E w = (Normal a, w1) ->
  w1 = w /\ exists dd, v = PyDict dd /\ a = default d (dict_lookup k dd).
Proof.
  rewrite py_get_run. destruct v; try discriminate.
  intros [= <- <-]. split; [reflexivity |]. eexists. split; reflexivity.
Qed.

Lemma py_getitem_inv v k E w a w1 :
  py_getitem v k E w = (Normal a, w1) ->
  w1 = w /\ exists dd, v = PyDict dd /\ dict_lookup k dd = Some a.
Proof.
  destruct v; try discriminate. simpl.
  destruct (dict_lookup k d) eqn:Hk; [| discriminate].
  intros [= <- <-]. split; [reflexivity |]. eexists. split; [reflexivity | exact Hk].
Qed.

Lemma validate_sound p E w errs w' :
  validate_wix_product_data p E w = (Normal (true, errs), w') ->
  errs = [] /\ w' = w /\ complete_product p.
Proof.
  unfold validate_wix_product_data.
  destruct p as [| | | | | | d]; try (intros [=]; fail).
  intros H.
  apply bind_inv in H as (product & w1 & H1 & H).
  apply py_get_inv in H1 as (-> & d0 & [= <-] & ->).
  apply bind_inv in H as (n & w1 & H1 & H).
  apply py_get_inv in H1 as (-> & pd & Hpd & ->).
  apply bind_inv in H as (t & w1 & H1 & H).
  apply py_get_inv in H1 as (-> & pd' & Hpd' & ->).
  rewrite Hpd in Hpd'. injection Hpd' as <-.
  apply bind_inv in H as (vi & w1 & H1 & H).
  apply py_get_inv in H1 as (-> & pd' & Hpd' & ->).
  rewrite Hpd in Hpd'. injection Hpd' as <-.
  apply bind_inv in H as (vs & w1 & H1 & H).
  apply py_get_inv in H1 as (-> & vd & Hvd & ->).
  apply bind_inv in H as (errors & w1 & H1 & H).
  injection H as Hlen <- <-.
  apply Nat.eqb_eq in Hlen. apply length_zero_iff_nil in Hlen. subst errors.
  set (n := default PyNone (dict_lookup "name" pd)) in *.
  set (t := default PyNone (dict_lookup "productType" pd)) in *.
  set (vs := default PyNone (dict_lookup "variants" vd)) in *.
  destruct (truthy vs) eqn:Hvs; cbn [negb] in H1.
  2:{ injection H1 as H1 _. apply List.app_eq_nil in H1 as [_ H1]. discriminate H1. }
  apply bind_inv in H1 as (vi' & w2 & H2 & H1).
  apply py_getitem_inv in H2 as (-> & pd' & Hpd' & Hvi').
  rewrite Hpd in Hpd'. injection Hpd' as <-.
  apply bind_inv in H1 as (vs' & w2 & H2 & H1).
  apply py_getitem_inv in H2 as (-> & vd' & -> & Hvs').
  rewrite Hvi' in Hvd. simpl in Hvd. injection Hvd as <-.
  apply bind_inv in H1 as (elements & w2 & H2 & H1).
  apply check_variants_sound in H1 as (-> & Hlen & Hall).
  assert (Hn : truthy n = true).
  { destruct (truthy n); [reflexivity |]. exfalso.
    destruct (truthy t); simpl in Hlen; lia. }
  assert (Ht : truthy t = true).
  { destruct (truthy t); [reflexivity |]. exfalso.
    rewrite Hn in Hlen. simpl in Hlen. lia. }
  rewrite Hn, Ht in Hall. simpl in Hall. specialize (Hall eq_refl).
  subst vs. rewrite Hvs' in Hvs. simpl in Hvs.
  assert (Hlist : exists l, vs' = PyList l /\ elements = l /\ l <> [] /\ w2 = w).
  { destruct vs' as [| | | | s | l | dd]; try discriminate H2.
    - simpl in H2. injection H2 as <- <-. exfalso.
      destruct (list_ascii_of_string s) as [| c r] eqn:Hs.
      + destruct s; [discriminate Hvs | discriminate Hs].
      + simpl in Hall. inversion Hall as [| ? ? (a & Ha & _) _]. discriminate Ha.
    - simpl in H2. injection H2 as <- <-. exists l. repeat split.
      intros ->. discriminate Hvs.
    - simpl in H2. injection H2 as <- <-. exfalso.
      destruct dd as [| [k v] r]; [discriminate Hvs |].
      simpl in Hall. inversion Hall as [| ? ? (a & Ha & _) _]. discriminate Ha. }
  destruct Hlist as (l & -> & -> & Hne & ->).
  split; [reflexivity | split; [reflexivity |]].
  assert (Hprod : dict_lookup "product" d = Some (PyDict pd)).
  { destruct (dict_lookup "product" d) as [x |]; simpl in Hpd; [congruence |].
    injection Hpd as <-. discriminate Hvi'. }
  subst n t.
  destruct (dict_lookup "name" pd) as [n |] eqn:Hname; [| discriminate Hn].
  destruct (dict_lookup "productType" pd) as [t |] eqn:Htype; [| discriminate Ht].
  exists n, t, l. unfold name_of, product_type_of, variants_of. simpl.
  rewrite Hprod. simpl. rewrite Hname, Htype, Hvi'. simpl. rewrite Hvs'.
  repeat split; assumption.
Qed.

(** X13. [validate_wix_product_data] accepts exactly the complete payloads: it
    returns True (with no errors, and without touching the site) if and only
    if the payload has a true name, a true product type and a list of
    variants that is not empty and whose members all have a true price
    amount. *)
Theorem validate_accepts_iff (p : pyval) (E : Env) (w : World) :
  (forall errs w',
     validate_wix_product_data p E w = (Normal (true, errs), w') ->
     errs = [] /\ w' = w /\ complete_product p) /\
  (complete_product p -> validate_wix_product_data p E w = (Normal (true, []), w)).
Proof.
  split.
  - intros errs w' H. apply (validate_sound p E w errs w' H).
  - apply validate_complete.
Qed.
(** ** The API client of [wix_mcp.py] *)

Lemma api_call_handler_shaped (e : exn) E w :
  exists msg w',
    (if String.eqb (exn_type e) "RequestException" then
       logger ERROR [Lit "HTTP error in Wix API call: "; Lit (exn_msg e)] ;;
       ret (false, PyDict [("error", PyStr ("HTTP error: " ++ exn_msg e))])
     else
       logger ERROR [Lit "Unexpected error in Wix API call: "; Lit (exn_msg e)] ;;
       ret (false, PyDict [("error", PyStr ("Unexpected error: " ++ exn_msg e))])) E w =
    (Normal (false, PyDict [("error", PyStr msg)]), w').
Proof.
  destruct (String.eqb (exn_type e) "RequestException"); eexists; eexists; reflexivity.
Qed.

(** X14. [make_wix_api_call] never raises, for any method, endpoint, request body
    and clock: it returns True with a dict that holds a product, or False with
    a dict that holds an error text. *)
Theorem api_call_never_raises
    (now_datetime : M pyval) (method endpoint : string) (data : pyval) (E : Env) (w : World) :
  exists r w',
    WixMcp.make_wix_api_call now_datetime method endpoint data E w = (Normal r, w') /\
    response_shaped r.
Proof.
  unfold WixMcp.make_wix_api_call, try_except.
  match goal with |- context [let (_, _) := ?b E w in _] => destruct (b E w) as [[r | e] w1] eqn:Hb end.
  2:{ destruct (api_call_handler_shaped e E w1) as (msg & w' & ->).
      eexists; eexists. split; [reflexivity |]. exists msg. reflexivity. }
  exists r, w1. split; [reflexivity |].
  cbv zeta in Hb.
  apply bind_inv in Hb as ([] & w2 & _ & Hb).
  apply bind_inv in Hb as ([] & w3 & _ & Hb).
  destruct (String.eqb method "POST" && str_contains "/stores/v3/products" endpoint).
  - repeat (apply bind_inv in Hb as (? & ? & _ & Hb)).
    injection Hb as <- _. eexists. reflexivity.
  - destruct (String.eqb method "PUT" && str_contains "/stores/v3/products/" endpoint).
    + repeat (apply bind_inv in Hb as (? & ? & _ & Hb)).
      injection Hb as <- _. eexists. reflexivity.
    + injection Hb as <- _. eexists. reflexivity.
Qed.

Lemma api_call_success_method
    (now_datetime : M pyval) (method endpoint : string) (data resp : pyval) E w w' :
  WixMcp.make_wix_api_call now_datetime method endpoint data E w = (Normal (true, resp), w') ->
  method = "POST" /\ str_contains "/stores/v3/products" endpoint = true \/
  method = "PUT" /\ str_contains "/stores/v3/products/" endpoint = true.
Proof.
  unfold WixMcp.make_wix_api_call, try_except.
  match goal with |- context [let (_, _) := ?b E w in _] =>
    destruct (b E w) as [[r | e] w1] eqn:Hb end.
  2:{ destruct (api_call_handler_shaped e E w1) as (msg & w2 & ->). discriminate. }
  intros [= -> <-]. cbv zeta in Hb.
  apply bind_inv in Hb as ([] & w2 & _ & Hb).
  apply bind_inv in Hb as ([] & w3 & _ & Hb).
  destruct (String.eqb_spec method "POST") as [-> | _]; simpl andb in Hb.
  - destruct (str_contains "/stores/v3/products" endpoint); [left; split; reflexivity |].
    simpl in Hb. discriminate Hb.
  - destruct (String.eqb_spec method "PUT") as [-> | _]; simpl andb in Hb.
    + destruct (str_contains "/stores/v3/products/" endpoint); [right; split; reflexivity |].
      discriminate Hb.
    + discriminate Hb.
Qed.

(** X15. [make_wix_api_call] serves only a POST on an endpoint that contains
    /stores/v3/products and a PUT on one that contains /stores/v3/products/;
    in particular [get_wix_product] always fails with the text Unsupported
    API call: GET followed by the endpoint, after one line of log. *)
Theorem only_post_and_put_are_served
    (now_datetime : M pyval) (method endpoint product_id : string) (data resp : pyval)
    (E : Env) (w w' : World) :
  (WixMcp.make_wix_api_call now_datetime method endpoint data E w = (Normal (true, resp), w') ->
   method = "POST" /\ str_contains "/stores/v3/products" endpoint = true \/
   method = "PUT" /\ str_contains "/stores/v3/products/" endpoint = true) /\
  WixMcp.get_wix_product now_datetime product_id E w =
  (Normal (false,
     PyDict [("error", PyStr ("Unsupported API call: GET /stores/v3/products/" ++ product_id))]),
   emit (EvLogger INFO [Lit "Making Wix API call: "; Lit "GET"; Lit " ";
                        Lit ("https://www.wixapis.com/stores/v3/products/" ++ product_id)]) w).
Proof. split; [apply api_call_success_method | reflexivity]. Qed.
Lemma split_on_nonempty sep s : split_on sep s <> [].
Proof.
  destruct s as [| c r]; simpl; [discriminate |].
  destruct (Ascii.eqb c sep); [discriminate |].
  destruct (split_on sep r); discriminate.
Qed.

(** Splitting at a separator splits the text before and the text after it. *)
Lemma split_on_app sep p s :
  split_on sep (p ++ String sep s) = (split_on sep p ++ split_on sep s)%list.
Proof.
  induction p as [| c r IH]; simpl.
  - rewrite Ascii.eqb_refl. reflexivity.
  - rewrite IH. destruct (Ascii.eqb c sep); [reflexivity |].
    pose proof (split_on_nonempty sep r) as Hr.
    destruct (split_on sep r) as [| h t]; [contradiction | reflexivity].
Qed.

Lemma split_on_none sep s :
  str_all (fun c => negb (Ascii.eqb c sep)) s = true -> split_on sep s = [s].
Proof.
  induction s as [| c r IH]; [reflexivity |]. simpl.
  intros [Hc Hr]%andb_prop. rewrite (IH Hr).
  destruct (Ascii.eqb c sep); [discriminate Hc | reflexivity].
Qed.

Lemma last_piece_app l1 l2 : l2 <> [] -> last_piece (l1 ++ l2) = last_piece l2.
Proof.
  unfold last_piece. intros H. induction l1 as [| x r IH]; [reflexivity |].
  simpl. destruct (r ++ l2)%list eqn:Hr; [| exact IH].
  apply List.app_eq_nil in Hr as [_ ->]. contradiction.
Qed.

(** The id that the update response carries: the part of the id after its
    last slash. *)
Lemma endpoint_last_piece product_id :
  last_piece (split_on "/" ("/stores/v3/products/" ++ product_id)) =
  last_piece (split_on "/" product_id).
Proof.
  change ("/stores/v3/products/" ++ product_id)
    with ("/stores/v3/products" ++ String "/" product_id).
  rewrite split_on_app. apply last_piece_app, split_on_nonempty.
Qed.

Lemma endpoint_is_product product_id :
  str_contains "/stores/v3/products/" ("/stores/v3/products/" ++ product_id) = true.
Proof.
  assert (Hp : String.prefix "/stores/v3/products/" ("/stores/v3/products/" ++ product_id) = true)
    by (apply String.prefix_correct; destruct product_id; reflexivity).
  unfold str_contains.
  change ("/stores/v3/products/" ++ product_id)
    with (String "/" ("stores/v3/products/" ++ product_id)) in *.
  cbn [String.index]. rewrite Hp. reflexivity.
Qed.

(** X16. [update_wix_product] of [wix_mcp.py] answers with the last piece of the
    endpoint as the id of the product: the part of the given id after its
    last slash, which is the given id itself only when it has no slash. *)
Theorem update_echoes_id
    (now_datetime : M pyval) (product_id : string) (d : list (string * pyval))
    (E : Env) (w : World) :
  works E -> clock_reads now_datetime ->
  (exists pd, default (PyDict []) (dict_lookup "product" d) = PyDict pd) ->
  exists resp w',
    WixMcp.update_wix_product now_datetime product_id (PyDict d) E w =
      (Normal (true, resp), w') /\
    at_path [Key "product"; Key "_id"] resp =
      Some (PyStr (last_piece (split_on "/" product_id))) /\
    (no_slash product_id = true ->
     at_path [Key "product"; Key "_id"] resp = Some (PyStr product_id)).
Proof.
  intros Hw Hnow (pd & Hpd).
  unfold WixMcp.update_wix_product, WixMcp.make_wix_api_call. cbv zeta.
  rewrite endpoint_is_product, endpoint_last_piece.
  change (String.eqb "PUT" "POST") with false. change (String.eqb "PUT" "PUT") with true.
  cbn [andb].
  unfold try_except.
  match goal with |- context [let (_, _) := ?b E w in _] =>
    assert (Hb : exists resp w', b E w = (Normal (true, resp), w') /\
              at_path [Key "product"; Key "_id"] resp =
                Some (PyStr (last_piece (split_on "/" product_id)))) end.
  { rewrite (bind_normal _ _ E w tt _ eq_refl).
    match goal with |- context [bind (if truthy ?x then ?a else ?b) ?k E ?w0] =>
      assert (Hlog : exists w1, (if truthy x then a else b) E w0 = (Normal tt, w1)) end.
    { destruct (truthy (PyDict d)); [| eexists; reflexivity].
      unfold bind, json_dumps, prim. rewrite Hw. eexists. reflexivity. }
    destruct Hlog as (w1 & Hlog). rewrite (bind_normal _ _ E _ tt w1 Hlog).
    rewrite (bind_normal _ _ E w1 (PyDict pd) w1) by (rewrite py_get_run, Hpd; reflexivity).
    rewrite (bind_normal _ _ E w1 _ w1 eq_refl).
    rewrite (bind_normal _ _ E w1 (PyDict pd) w1) by (rewrite py_get_run, Hpd; reflexivity).
    rewrite (bind_normal _ _ E w1 _ w1 eq_refl).
    rewrite (bind_normal _ _ E w1 (PyDict pd) w1) by (rewrite py_get_run, Hpd; reflexivity).
    rewrite (bind_normal _ _ E w1 _ w1 eq_refl).
    destruct (Hnow E w1) as (t & Ht). rewrite (bind_normal _ _ E w1 t w1 Ht).
    eexists; eexists. split; reflexivity. }
  destruct Hb as (resp & w' & -> & Hid).
  exists resp, w'. split; [reflexivity | split; [exact Hid |]].
  intros Hns. rewrite Hid. unfold no_slash in Hns.
  rewrite (split_on_none _ _ Hns). reflexivity.
Qed.
Lemma endpoint_is_products :
  str_contains "/stores/v3/products" "/stores/v3/products" = true.
Proof.
  assert (Hp : String.prefix "/stores/v3/products" "/stores/v3/products" = true)
    by (apply String.prefix_correct; reflexivity).
  unfold str_contains. cbn [String.index]. rewrite Hp. reflexivity.
Qed.

Lemma request_logged data E w :
  works E ->
  exists w1,
    (if truthy data
     then (j <- json_dumps data ;; logger DEBUG [Lit "Request data: "; j])
     else ret tt) E w = (Normal tt, w1).
Proof.
  intros Hw. destruct (truthy data); [| eexists; reflexivity].
  unfold bind, json_dumps, prim. rewrite Hw. eexists. reflexivity.
Qed.

(** X17. [create_wix_product] of [wix_mcp.py], for a request body that is a dict
    whose product (if any) is a dict: the answer has an id that starts with
    product_, and the name, product type and variants of the request, with
    Unknown Product, PHYSICAL and an empty dict for those that are missing. *)
Theorem create_fills_defaults
    (now_datetime : M pyval) (d : list (string * pyval)) (E : Env) (w : World) :
  works E -> clock_reads now_datetime ->
  (exists pd, default (PyDict []) (dict_lookup "product" d) = PyDict pd) ->
  exists resp w' h pd,
    WixMcp.create_wix_product now_datetime (PyDict d) E w = (Normal (true, resp), w') /\
    default (PyDict []) (dict_lookup "product" d) = PyDict pd /\
    at_path [Key "product"; Key "_id"] resp = Some (PyStr ("product_" ++ h)) /\
    at_path [Key "product"; Key "name"] resp =
      Some (default (PyStr "Unknown Product") (dict_lookup "name" pd)) /\
    at_path [Key "product"; Key "productType"] resp =
      Some (default (PyStr "PHYSICAL") (dict_lookup "productType" pd)) /\
    at_path [Key "product"; Key "variantsInfo"] resp =
      Some (default (PyDict []) (dict_lookup "variantsInfo" pd)).
Proof.
  intros Hw Hnow (pd & Hpd).
  unfold WixMcp.create_wix_product, WixMcp.make_wix_api_call. cbv zeta.
  rewrite endpoint_is_products.
  change (String.eqb "POST" "POST") with true. cbn [andb].
  unfold try_except.
  rewrite (bind_normal _ _ E w tt _ eq_refl).
  destruct (request_logged (PyDict d) E
              (emit (EvLogger INFO [Lit "Making Wix API call: "; Lit "POST"; Lit " ";
                                    Lit (WixMcp.WIX_BASE_URL ++ "/stores/v3/products")]) w) Hw)
    as (w1 & Hlog).
  rewrite (bind_normal _ _ E _ tt w1 Hlog).
  rewrite (bind_normal _ _ E w1 (hashes E (clock w1)) (tick w1))
    by (unfold generate_hash, prim; rewrite Hw; reflexivity).
  rewrite (bind_normal _ _ E _ (PyDict pd) (tick w1)) by (rewrite py_get_run, Hpd; reflexivity).
  rewrite (bind_normal _ _ E _ _ (tick w1) eq_refl).
  rewrite (bind_normal _ _ E _ (PyDict pd) (tick w1)) by (rewrite py_get_run, Hpd; reflexivity).
  rewrite (bind_normal _ _ E _ _ (tick w1) eq_refl).
  rewrite (bind_normal _ _ E _ (PyDict pd) (tick w1)) by (rewrite py_get_run, Hpd; reflexivity).
  rewrite (bind_normal _ _ E _ _ (tick w1) eq_refl).
  destruct (Hnow E (tick w1)) as (t1 & Ht1). rewrite (bind_normal _ _ E _ t1 _ Ht1).
  destruct (Hnow E (tick w1)) as (t2 & Ht2). rewrite (bind_normal _ _ E _ t2 _ Ht2).
  eexists; eexists; exists (hashes E (clock w1)), pd.
  split; [reflexivity |]. repeat split. exact Hpd.
Qed.

(** X18. [create_wix_product] of [wix_mcp.py] with a request body that is not a
    dict (None, for one) does not raise: it returns False with an error that
    starts with Unexpected error. *)
Theorem create_without_dict_fails
    (now_datetime : M pyval) (data : pyval) (E : Env) (w : World) :
  works E -> (forall d, data <> PyDict d) ->
  exists msg w',
    WixMcp.create_wix_product now_datetime data E w =
    (Normal (false, PyDict [("error", PyStr ("Unexpected error: " ++ msg))]), w').
Proof.
  intros Hw Hd.
  unfold WixMcp.create_wix_product, WixMcp.make_wix_api_call. cbv zeta.
  rewrite endpoint_is_products.
  change (String.eqb "POST" "POST") with true. cbn [andb].
  unfold try_except.
  rewrite (bind_normal _ _ E w tt _ eq_refl).
  destruct (request_logged data E
              (emit (EvLogger INFO [Lit "Making Wix API call: "; Lit "POST"; Lit " ";
                                    Lit (WixMcp.WIX_BASE_URL ++ "/stores/v3/products")]) w) Hw)
    as (w1 & Hlog).
  rewrite (bind_normal _ _ E _ tt w1 Hlog).
  rewrite (bind_normal _ _ E w1 (hashes E (clock w1)) (tick w1))
    by (unfold generate_hash, prim; rewrite Hw; reflexivity).
  unfold bind at 1. rewrite py_get_run.
  destruct data; try (eexists; eexists; reflexivity).
  exfalso. exact (Hd d eq_refl).
Qed.
(** ** The MCP layer *)

Lemma mcp_create_run site_id product_data E w :
  McpIntegration.create_product_via_mcp site_id product_data E w =
  (Normal mcp_unavailable, mcp_failure_logged w).
Proof. reflexivity. Qed.

Lemma mcp_update_run site_id product_id product_data E w :
  McpIntegration.update_product_via_mcp site_id product_id product_data E w =
  (Normal mcp_unavailable, mcp_failure_logged w).
Proof. reflexivity. Qed.

(** X19. Every call of the MCP layer fails: since [is_mcp_available] returns
    False, creating, updating and reading a product and reading the site info
    all return success False with the error MCP tools not available after one
    line of error log, and [validate_mcp_connection] returns the same answer
    without logging. *)
Theorem mcp_calls_always_fail (site_id product_id product_data : pyval) (E : Env) (w : World) :
  McpIntegration.create_product_via_mcp site_id product_data E w =
    (Normal mcp_unavailable, mcp_failure_logged w) /\
  McpIntegration.update_product_via_mcp site_id product_id product_data E w =
    (Normal mcp_unavailable, mcp_failure_logged w) /\
  McpIntegration.get_product_via_mcp site_id product_id E w =
    (Normal mcp_unavailable, mcp_failure_logged w) /\
  McpIntegration.get_wix_site_info_via_mcp site_id E w =
    (Normal mcp_unavailable, mcp_failure_logged w) /\
  McpIntegration.validate_mcp_connection E w = (Normal mcp_unavailable, w).
Proof. repeat split. Qed.

Ltac unfold_mcp :=
  unfold McpIntegration.sync_frappe_to_wix_via_mcp, McpIntegration.create_product_via_mcp,
    McpIntegration.update_product_via_mcp, McpIntegration.call_wix_mcp_api,
    McpIntegration.is_mcp_available.

Lemma mcp_sync_keeps (I : World -> Prop) (quiet : event -> Prop) doc operation :
  (forall w, I w -> I (tick w)) ->
  (forall ev w, quiet ev -> I w -> I (emit ev w)) ->
  (forall l msg, quiet (EvLogger l msg)) ->
  preserves I (McpIntegration.sync_frappe_to_wix_via_mcp doc operation).
Proof.
  intros Ht He Hq. unfold_mcp. unfold_nested.
  repeat first
    [ progress intros
    | apply preserves_ret | apply preserves_raise
    | apply preserves_py_get | apply preserves_py_getitem
    | apply preserves_bind | apply preserves_try
    | apply (preserves_logger _ _ He); apply Hq
    | apply (preserves_db_get_value _ Ht)
    | apply (preserves_get_global_default _ Ht)
    | apply preserves_if
    | match goal with
      | |- preserves _ (match ?x with _ => _ end) => destruct x
      | |- preserves _ (let _ := _ in _) => cbv zeta
      end ].
Qed.

(** X20. [sync_frappe_to_wix_via_mcp] never succeeds and never raises: for every
    item and operation it returns success False with an error text; it
    leaves the table as it was, writes no id and makes no create or update
    call of the simulated API. *)
Theorem mcp_sync_never_succeeds (doc : Item) (operation : string) (E : Env) (w : World) :
  exists msg w',
    McpIntegration.sync_frappe_to_wix_via_mcp doc operation E w =
      (Normal (PyDict [("success", PyBool false); ("error", PyStr msg)]), w') /\
    tabItem w' = tabItem w /\
    List.filter is_store_event (trace w') = List.filter is_store_event (trace w) /\
    List.filter is_api_call (trace w') = List.filter is_api_call (trace w).
Proof.
  assert (Hshape : exists msg w',
            McpIntegration.sync_frappe_to_wix_via_mcp doc operation E w =
            (Normal (PyDict [("success", PyBool false); ("error", PyStr msg)]), w')).
  { unfold McpIntegration.sync_frappe_to_wix_via_mcp, try_except.
    match goal with |- context [let (_, _) := ?b E w in _] =>
      destruct (b E w) as [[r | e] w1] eqn:Hb end; [| eexists; eexists; reflexivity].
    apply bind_inv in Hb as (site_id & w2 & _ & Hb).
    apply bind_inv in Hb as (product_data & w3 & _ & Hb).
    destruct (String.eqb operation "create").
    - rewrite mcp_create_run in Hb. injection Hb as <- <-. eexists; eexists; reflexivity.
    - destruct (String.eqb operation "update"); [| discriminate Hb].
      apply bind_inv in Hb as (wix_product_id & w4 & _ & Hb).
      destruct (negb (truthy wix_product_id)).
      + rewrite mcp_create_run in Hb. injection Hb as <- <-. eexists; eexists; reflexivity.
      + rewrite mcp_update_run in Hb. injection Hb as <- <-. eexists; eexists; reflexivity. }
  destruct Hshape as (msg & w' & Hrun). exists msg, w'. split; [exact Hrun |].
  pose proof (mcp_sync_keeps
                (table_kept (tabItem w) (List.filter is_store_event (trace w))) quiet_store
                doc operation
                (table_kept_tick _ _) (table_kept_emit _ _) (fun _ _ => eq_refl) E w) as Ht.
  pose proof (mcp_sync_keeps
                (api_calls_kept (List.filter is_api_call (trace w))) quiet_api
                doc operation
                (api_calls_kept_tick _) (api_calls_kept_emit _) (fun _ _ => eq_refl) E w) as Ha.
  rewrite Hrun in Ht, Ha. simpl in Ht, Ha.
  destruct (Ht (conj eq_refl eq_refl)) as [Ht1 Ht2].
  split; [exact Ht1 | split; [exact Ht2 | exact (Ha eq_refl)]].
Qed.
(** ** The connection test *)

(** X21. [test_wix_connection] writes nothing, whatever fails: the table is as
    before, no id is written, and exactly one create call is made, with the
    test payload.
    When the framework works it returns True. *)
Theorem connection_test_writes_nothing (E : Env) (w : World) :
  let w' := snd (Kokofresh.test_wix_connection E w) in
  tabItem w' = tabItem w /\
  List.filter is_store_event (trace w') = List.filter is_store_event (trace w) /\
  List.filter is_api_call (trace w') =
    EvCall (CreateProductApi Kokofresh.test_product) :: List.filter is_api_call (trace w) /\
  (works E -> fst (Kokofresh.test_wix_connection E w) = Normal true).
Proof.
  cbv zeta. split; [| split; [| split]].
  - assert (Hp : preserves (table_kept (tabItem w) (List.filter is_store_event (trace w)))
                   Kokofresh.test_wix_connection).
    { unfold Kokofresh.test_wix_connection. unfold_kokofresh.
      frame_table (tabItem w) (List.filter is_store_event (trace w)). }
    apply (Hp E w). split; reflexivity.
  - assert (Hp : preserves (table_kept (tabItem w) (List.filter is_store_event (trace w)))
                   Kokofresh.test_wix_connection).
    { unfold Kokofresh.test_wix_connection. unfold_kokofresh.
      frame_table (tabItem w) (List.filter is_store_event (trace w)). }
    apply (Hp E w). split; reflexivity.
  - unfold Kokofresh.test_wix_connection.
    rewrite (try_bind_normal _ _ _ E w tt _ eq_refl).
    set (L := EvCall (CreateProductApi Kokofresh.test_product)
                :: List.filter is_api_call (trace w)).
    apply (try_bind_post (api_calls_kept L)).
    + apply kokofresh_create_api_run.
    + unfold_kokofresh. frame_api L.
    + unfold_kokofresh. frame_api L.
  - intros Hw. unfold Kokofresh.test_wix_connection, Kokofresh.call_wix_create_product_api.
    run_prims. rewrite !Hw. cbn. rewrite !Hw. reflexivity.
Qed.
(** ** The further statements at work on sample inputs *)

Lemma works_env_ok : works env_ok.
Proof. intros t o. reflexivity. Defined.

Lemma fresh_row_exists : is_Some (tabItem site_fresh !! name item_widget).
Proof. exists PyNone. vm_compute. reflexivity. Defined.

(** A sync of the widget leaves the missing row of another item missing. *)
Lemma sync_touches_one_row_witness :
  tabItem (snd (Kokofresh.create_wix_product item_widget PyNone env_ok site_fresh)) !! "SKU9" =
  tabItem site_fresh !! "SKU9".
Proof.
  assert (H : name item_widget <> "SKU9" \/ tabItem site_fresh !! "SKU9" = None)
    by (left; discriminate).
  exact (proj1 (sync_touches_one_row item_widget PyNone env_ok site_fresh "SKU9" H)).
Defined.

(** An id stored for the widget is read back. *)
Lemma store_then_get_witness :
  fst (Kokofresh.get_wix_product_id item_widget env_ok
         (snd (Kokofresh.store_wix_product_id item_widget (PyStr "wix_1") env_ok site_fresh))) =
  Normal (PyStr "wix_1").
Proof.
  assert (Hr : id_read_works env_ok) by (intros t; reflexivity).
  exact (proj2 (proj2 (proj2
    (store_then_get item_widget (PyStr "wix_1") env_ok env_ok site_fresh
       works_env_ok Hr fresh_row_exists)))).
Defined.

(** The create hook of the widget stores the new id. *)
Lemma create_stores_new_id_witness :
  Kokofresh.should_sync_item item_widget = true /\
  tabItem (snd (Kokofresh.create_wix_product item_widget PyNone env_ok site_fresh)) !! "SKU1" =
  Some (PyStr "wix_0a1b2c3d").
Proof.
  split; [reflexivity |].
  exact (proj1 (proj2
    (create_stores_new_id item_widget PyNone env_ok site_fresh
       works_env_ok eq_refl fresh_row_exists))).
Defined.

(** The update hook of the synced widget makes one update call. *)
Lemma update_routes_by_stored_id_witness :
  List.filter is_api_call
    (trace (snd (Kokofresh.update_wix_product item_widget PyNone env_ok site_synced))) =
  [EvCall (UpdateProductApi (PyStr "wix_0a1b2c3d")
             (Kokofresh.map_item_to_wix_product item_widget))].
Proof.
  assert (Hg : Kokofresh.get_wix_product_id item_widget env_ok
                 (update_started item_widget site_synced) =
               (Normal (PyStr "wix_0a1b2c3d"), tick (update_started item_widget site_synced)))
    by (vm_compute; reflexivity).
  exact (update_routes_by_stored_id item_widget PyNone env_ok site_synced _ _ Hg).
Defined.

(** Insert and save of the widget: a create call, then an update call with
    the id of the create. *)
Lemma create_then_update_witness :
  tabItem
    (snd (Kokofresh.update_wix_product item_widget PyNone env_ok
            (snd (Kokofresh.create_wix_product item_widget PyNone env_ok site_fresh))))
    !! "SKU1" = Some (PyStr "wix_0a1b2c3d").
Proof.
  assert (Hr : id_read_works env_ok) by (intros t; reflexivity).
  exact (proj2 (create_then_update item_widget PyNone env_ok env_ok site_fresh
                  works_env_ok Hr eq_refl fresh_row_exists)).
Defined.

(** With a database that cannot write, the create hook of the widget still
    returns normally and leaves the table as it was. *)
Lemma failed_store_is_silent_witness :
  only_set_value_fails env_readonly /\
  fst (Kokofresh.create_wix_product item_widget PyNone env_readonly site_fresh) = Normal tt /\
  tabItem (snd (Kokofresh.create_wix_product item_widget PyNone env_readonly site_fresh)) =
  tabItem site_fresh.
Proof.
  assert (H : only_set_value_fails env_readonly).
  { intros t o. split.
    - intros ->. discriminate.
    - intros Ho. destruct o; try reflexivity. contradiction. }
  pose proof (failed_store_is_silent item_widget PyNone env_readonly site_fresh H eq_refl)
    as (H1 & H2 & _).
  split; [exact H | split; [exact H1 | exact H2]].
Defined.

(** The payload of the widget in the nested variant, on a site whose
    default currency is the euro. *)
Lemma nested_payload_fields_witness :
  exists p,
    Nested.map_item_to_wix_product item_widget env_ok site_synced = (Normal p, tick site_synced) /\
    at_path (variant_path ++ [Key "price"; Key "actualPrice"; Key "currency"])%list p =
    Some (PyStr "EUR").
Proof.
  destruct (nested_payload_fields item_widget "SKU1" env_ok site_synced eq_refl eq_refl)
    as (p & slug & Hrun & _ & _ & _ & Hcur & _).
  exists p. split; [exact Hrun | exact Hcur].
Defined.

(** The payload of the connection test is complete, so it validates. *)
Lemma validate_accepts_iff_witness :
  complete_product Kokofresh.test_product /\
  validate_wix_product_data Kokofresh.test_product env_ok site_fresh =
  (Normal (true, []), site_fresh).
Proof.
  assert (H : complete_product Kokofresh.test_product).
  { eexists; eexists; eexists.
    repeat split; try reflexivity; [discriminate |].
    constructor; [| constructor]. eexists. split; reflexivity. }
  split; [exact H |].
  exact (proj2 (validate_accepts_iff Kokofresh.test_product env_ok site_fresh) H).
Defined.

(** A request that was served was a PUT on a product. *)
Lemma only_post_and_put_are_served_witness :
  "PUT" = "POST" /\ str_contains "/stores/v3/products" "/stores/v3/products/abc" = true \/
  "PUT" = "PUT" /\ str_contains "/stores/v3/products/" "/stores/v3/products/abc" = true.
Proof.
  refine (proj1 (only_post_and_put_are_served sample_now "PUT" "/stores/v3/products/abc" "abc"
                   (PyDict []) _ env_ok site_fresh _) _).
  vm_compute. reflexivity.
Defined.

Lemma clock_reads_sample : clock_reads sample_now.
Proof. intros E w. eexists. reflexivity. Defined.

(** An update of the product [abc] answers with the id [abc]. *)
Lemma update_echoes_id_witness :
  exists resp w',
    WixMcp.update_wix_product sample_now "abc" (PyDict []) env_ok site_fresh =
      (Normal (true, resp), w') /\
    at_path [Key "product"; Key "_id"] resp = Some (PyStr "abc").
Proof.
  assert (Hpd : exists pd, default (PyDict []) (dict_lookup "product" []) = PyDict pd)
    by (exists []; reflexivity).
  destruct (update_echoes_id sample_now "abc" [] env_ok site_fresh
              works_env_ok clock_reads_sample Hpd) as (resp & w' & Hrun & _ & Hid).
  exists resp, w'. split; [exact Hrun | exact (Hid eq_refl)].
Defined.

(** A create request with an empty body is answered with the default name. *)
Lemma create_fills_defaults_witness :
  exists resp w',
    WixMcp.create_wix_product sample_now (PyDict []) env_ok site_fresh =
      (Normal (true, resp), w') /\
    at_path [Key "product"; Key "name"] resp = Some (PyStr "Unknown Product").
Proof.
  assert (Hpd : exists pd, default (PyDict []) (dict_lookup "product" []) = PyDict pd)
    by (exists []; reflexivity).
  destruct (create_fills_defaults sample_now [] env_ok site_fresh
              works_env_ok clock_reads_sample Hpd)
    as (resp & w' & h & pd & Hrun & Hp & _ & Hname & _).
  injection Hp as <-.
  exists resp, w'. split; [exact Hrun | exact Hname].
Defined.

(** A create request without a body fails without raising. *)
Lemma create_without_dict_fails_witness :
  exists msg w',
    WixMcp.create_wix_product sample_now PyNone env_ok site_fresh =
    (Normal (false, PyDict [("error", PyStr ("Unexpected error: " ++ msg))]), w').
Proof.
  assert (H : forall d, PyNone <> PyDict d) by discriminate.
  exact (create_without_dict_fails sample_now PyNone env_ok site_fresh works_env_ok H).
Defined.

(** The connection test succeeds when the framework works. *)
Lemma connection_test_writes_nothing_witness :
  fst (Kokofresh.test_wix_connection env_ok site_fresh) = Normal true.
Proof.
  exact (proj2 (proj2 (proj2 (connection_test_writes_nothing env_ok site_fresh)))
           works_env_ok).
Defined.
